(** * Library items: search predicate builder, mutations and bulk actions

    A shallow embedding of [packages/api/src/services/library_item.ts].

    The TypeScript module drives a TypeORM query builder.  The builder is
    a mutable object holding a list of WHERE fragments and ONE map of
    named parameters; every [andWhere (sql, params)] appends a fragment
    and merges [params] into that map.  The embedding keeps both: the
    fragments are constructors of [Cond] (with [render] giving back the
    SQL text of the source) and the parameters are a [gmap string Value].

    Patches ([QueryDeepPartialEntity<LibraryItem>]) are JavaScript objects
    and are modelled as [gmap string Value]; the table is a list of
    [LibraryItem.t] rows, and an entity with its [labels] relation is an
    [Entity.t]. *)

From Stdlib Require Import ZArith String Ascii List Bool Lia Sorted.
From stdpp Require Import base option list gmap strings pretty.

Local Open Scope string_scope.
Local Open Scope list_scope.

(* ===================================================================== *)
(** ** Enumerations *)
(* ===================================================================== *)

(** Modelled from the spec: [LibraryItemState] is declared in
    [entity/library_item], which is not part of the sources at hand; the
    data model lists the states Processing, Succeeded, Archived, Deleted. *)
Inductive LibraryItemState := Processing | Succeeded | Archived | Deleted.

Definition LibraryItemState_eqb (a b : LibraryItemState) : bool :=
  match a, b with
  | Processing, Processing | Succeeded, Succeeded
  | Archived, Archived | Deleted, Deleted => true
  | _, _ => false
  end.

(** Modelled from the spec: the filter enumerations of [utils/search]
    (scope, read status, has-filters, label mode, sort order). *)
Inductive InFilter := ALL | INBOX | ARCHIVE | TRASH | SUBSCRIPTION | LIBRARY.
Inductive ReadFilter := READ_ALL | READ | UNREAD.
Inductive HasFilter := HIGHLIGHTS | LABELS.
Inductive LabelFilterType := INCLUDE | EXCLUDE.
Inductive SortOrder := ASCENDING | DESCENDING.

Definition LabelFilterType_eqb (a b : LabelFilterType) : bool :=
  match a, b with
  | INCLUDE, INCLUDE | EXCLUDE, EXCLUDE => true
  | _, _ => false
  end.

(** Modelled from the spec: [SortBy] is a string enumeration naming the
    column to order by; only its default, the save time, is fixed. *)
Definition SAVED : string := "saved_at".

(** Modelled from the spec: [BulkActionType] is declared in the generated
    GraphQL types, not part of the sources at hand; the action kinds are
    Archive, Delete, AddLabels and MarkAsRead.  The [switch] of
    [updateLibraryItems] has a [default] branch, so a value outside the
    enumeration can reach it at run time: [UnknownAction]. *)
Inductive BulkActionType :=
| Archive | Delete | AddLabels | MarkAsRead | UnknownAction (tag : string).

(* ===================================================================== *)
(** ** Filter specification *)
(* ===================================================================== *)

Record LabelFilter := { lf_type : LabelFilterType; lf_labels : list string }.
Record DateFilter :=
  { df_field : string; df_startDate : option Z; df_endDate : option Z }.
Record FieldFilter := { ff_field : string; ff_value : string }.
Record NoFilter := { nf_field : string }.
Record Sort := { sort_by : option string; sort_order : option SortOrder }.

Module SearchArgs.
Record t := {
  from : option nat;
  size : option nat;
  sort : option Sort;
  query : option string;
  inFilter : option InFilter;
  readFilter : option ReadFilter;
  typeFilter : option string;
  labelFilters : option (list LabelFilter);
  hasFilters : option (list HasFilter);
  dateFilters : option (list DateFilter);
  termFilters : option (list FieldFilter);
  matchFilters : option (list FieldFilter);
  includePending : option bool;   (* boolean | null | undefined *)
  includeDeleted : option bool;
  ids : option (list string);
  recommendedBy : option string;
  includeContent : option bool;
  noFilters : option (list NoFilter)
}.

(** The object [{}]: no field set. *)
Definition empty : t :=
  {| from := None; size := None; sort := None; query := None;
     inFilter := None; readFilter := None; typeFilter := None;
     labelFilters := None; hasFilters := None; dateFilters := None;
     termFilters := None; matchFilters := None; includePending := None;
     includeDeleted := None; ids := None; recommendedBy := None;
     includeContent := None; noFilters := None |}.
End SearchArgs.

(* ===================================================================== *)
(** ** Values, rows and the table *)
(* ===================================================================== *)

(** Values bound to query parameters or stored in a patch object. *)
Inductive Value :=
| VNull
| VNum (n : Z)
| VString (s : string)
| VStrings (l : list string)
| VDate (ms : Z)
| VState (s : LibraryItemState).

Record Label := { label_id : string; label_name : string }.
Record EntityLabel := { labelId : string; libraryItemId : string }.

(** Modelled from the spec: the [LibraryItem] entity
    ([entity/library_item] is not part of the sources at hand).  The
    fields are those of the data model of the spec and the columns the
    SQL fragments of the source mention.  Time stamps are milliseconds
    since the epoch.  The text-search vectors are kept abstract: a row
    carries the set of queries each of its vectors matches ([tsvMatch],
    by column name) and the rank of its main vector ([tsRank]).  The
    record holds the columns of a row; the relations of the entity are
    added by [Entity.t]. *)
Module LibraryItem.
Record t := {
  id : string;
  userId : string;
  title : string;
  siteName : option string;
  originalUrl : string;
  itemType : string;
  state : LibraryItemState;
  savedAt : Z;
  createdAt : Z;
  archivedAt : option Z;
  deletedAt : option Z;
  readAt : option Z;
  readingProgressTopPercent : Z;
  readingProgressBottomPercent : Z;
  wordCount : option Z;
  subscription : option string;
  labelNames : list string;
  highlightLabels : list string;
  highlightAnnotations : list string;
  recommenderNames : list string;
  tsvMatch : string -> string -> bool;
  tsRank : string -> Z
}.
End LibraryItem.

(** A [LibraryItem] entity as a query hands it back: the columns of its
    row and the relation property [labels], which is set only when the
    query joins the relation ([None]: the property is undefined).  The
    other relations of the entity (highlights, recommendations) hold
    entities of tables that are not modelled here and are left out. *)
Module Entity.
Record t := {
  row : LibraryItem.t;
  labels : option (list Label)
}.
End Entity.

(** Modelled from the spec: labels are many-to-many with library items
    through the join rows of [entity_labels]; the label table itself is
    declared in [entity/label], not part of the sources at hand. *)
Record Db := {
  library_item : list LibraryItem.t;
  entity_labels : list EntityLabel;
  label_table : list Label
}.

(* ===================================================================== *)
(** ** Strings: case folding, ILIKE, suffixes *)
(* ===================================================================== *)

(** [toLowerCase] / SQL [lower] on the ASCII letters. *)
Definition lower_ascii (c : ascii) : ascii :=
  let n := nat_of_ascii c in
  if (65 <=? n)%nat && (n <=? 90)%nat then ascii_of_nat (n + 32) else c.

Fixpoint toLowerCase (s : string) : string :=
  match s with
  | EmptyString => EmptyString
  | String c s' => String (lower_ascii c) (toLowerCase s')
  end.

(** SQL [LIKE]: [%] matches any run of characters, [_] exactly one,
    a backslash quotes the next pattern character. *)
Fixpoint like (p : list ascii) (s : list ascii) {struct p} : bool :=
  match p with
  | [] => match s with [] => true | _ => false end
  | c :: p' =>
      if Ascii.eqb c "%" then
        (fix star (s : list ascii) : bool :=
           like p' s || match s with [] => false | _ :: s' => star s' end) s
      else if Ascii.eqb c "_" then
        match s with [] => false | _ :: s' => like p' s' end
      else if Ascii.eqb c "\" then
        match p' with
        | [] => false
        | q :: p'' =>
            match s with
            | [] => false
            | d :: s' => Ascii.eqb q d && like p'' s'
            end
        end
      else
        match s with
        | [] => false
        | d :: s' => Ascii.eqb c d && like p' s'
        end
  end.

(** [s ILIKE p]. *)
Definition ilike (s p : string) : bool :=
  like (list_ascii_of_string (toLowerCase p))
       (list_ascii_of_string (toLowerCase s)).

(** ['library' ILIKE ANY (label_names)]: the array elements are the
    patterns. *)
Definition ilikeAny (s : string) (patterns : list string) : bool :=
  existsb (ilike s) patterns.

(** Array overlap [a && b]. *)
Definition overlap (a b : list string) : bool :=
  existsb (fun x => existsb (String.eqb x) b) a.

(** Whether [t] ends with [suffix]; the last character of a string. *)
Fixpoint endsWith (suffix t : string) : bool :=
  String.eqb suffix t
  || match t with
     | EmptyString => false
     | String _ t' => endsWith suffix t'
     end.

Fixpoint lastChar (s : string) : option ascii :=
  match s with
  | EmptyString => None
  | String c EmptyString => Some c
  | String _ s' => lastChar s'
  end.

(* ===================================================================== *)
(** ** The query builder *)
(* ===================================================================== *)

(** The SQL fragments the module hands to the builder.  A constructor
    stands for one fragment of the source; the names it carries are the
    column it reads and the parameters it refers to. *)
Inductive Cond :=
| CUserIdEq (p : string)
| CTsQueryMatch (p col : string)
| CLowerEq (col p : string)
| CArchivedIsNull
| CArchivedIsNotNull
| CDeletedWithin14Days
| CSubscriptionIsNotNull
| CNotLibraryLabel
| CNoSubscriptionOrLibraryLabel
| CReadGe98
| CReadLt98
| CHasHighlights
| CHasLabels
| CLabelsOverlap (p : string)
| CNotLabelsOverlap (p : string)
| CBetween (col pstart pend : string)
| CIdIn (p : string)
| CStateNe (p : string)
| CEmptyArray (col : string)
| CHasRecommenders
| CRecommendedBy (p : string)
| CTitleILike (p : string)
| CSiteNameILike (p : string).

(** The SQL text of each fragment, as written in the source. *)
Definition render (c : Cond) : string :=
  match c with
  | CUserIdEq p => "library_item.user_id = :" +:+ p
  | CTsQueryMatch p col =>
      "websearch_to_tsquery('english', :" +:+ p +:+ ") @@ library_item." +:+ col
  | CLowerEq col p => "lower(library_item." +:+ col +:+ ") = :" +:+ p
  | CArchivedIsNull => "library_item.archived_at IS NULL"
  | CArchivedIsNotNull => "library_item.archived_at IS NOT NULL"
  | CDeletedWithin14Days =>
      "library_item.deleted_at >= now() - interval '14 days'"
  | CSubscriptionIsNotNull => "library_item.subscription IS NOT NULL"
  | CNotLibraryLabel => "NOT ('library' ILIKE ANY (library_item.label_names))"
  | CNoSubscriptionOrLibraryLabel =>
      "(library_item.subscription IS NULL OR 'library' ILIKE ANY (library_item.label_names))"
  | CReadGe98 => "library_item.reading_progress_top_percent >= 98"
  | CReadLt98 => "library_item.reading_progress_top_percent < 98"
  | CHasHighlights => "array_length(library_item.highlight_annotations, 1) > 0"
  | CHasLabels => "array_length(library_item.label_names, 1) > 0"
  | CLabelsOverlap p =>
      "lower(array_cat(library_item.label_names, library_item.highlight_labels)::text)::text[] && ARRAY[:..."
        +:+ p +:+ "]::text[]"
  | CNotLabelsOverlap p =>
      "NOT lower(array_cat(library_item.label_names, library_item.highlight_labels)::text)::text[] && ARRAY[:..."
        +:+ p +:+ "]::text[]"
  | CBetween col ps pe =>
      "library_item." +:+ col +:+ " between :" +:+ ps +:+ " and :" +:+ pe
  | CIdIn p => "library_item.id IN (:..." +:+ p +:+ ")"
  | CStateNe p => "library_item.state != :" +:+ p
  | CEmptyArray col => "library_item." +:+ col +:+ " = '{}'"
  | CHasRecommenders => "library_item.recommender_names <> '{}'"
  | CRecommendedBy p =>
      "lower(library_item.recommender_names::text)::text[] && ARRAY[:"
        +:+ p +:+ "]::text[]"
  | CTitleILike p => "library_item.title ILIKE :" +:+ p
  | CSiteNameILike p => "library_item.site_name ILIKE :" +:+ p
  end.

Inductive WhereType := WSimple | WAnd | WOr.

(** What the result is ordered by: the [rank] projection of the
    free-text query (computed from the parameter [p]) or a column. *)
Inductive OrderKey := KRank (p : string) | KColumn (col : string).

Record OrderByItem := {
  ob_key : OrderKey;
  ob_order : SortOrder;
  ob_nullsLast : bool
}.

(** The expression map of a [SelectQueryBuilder]: projections added on
    top of the entity, WHERE fragments with their connective, the single
    parameter map, ordering, offset and limit. *)
Record QueryBuilder := {
  selects : list (OrderKey * string);
  wheres : list (WhereType * Cond);
  parameters : gmap string Value;
  orderBys : list OrderByItem;
  qb_skip : option nat;
  qb_take : option nat
}.

(** [tx.createQueryBuilder(LibraryItem, 'library_item')]. *)
Definition createQueryBuilder : QueryBuilder :=
  {| selects := []; wheres := []; parameters := ∅; orderBys := [];
     qb_skip := None; qb_take := None |}.

(** [setParameters]: each name is assigned in the one parameter map, so
    a name bound before is overwritten. *)
Definition setParameters (ps : list (string * Value))
    (m : gmap string Value) : gmap string Value :=
  foldl (fun acc kv => <[kv.1 := kv.2]> acc) m ps.

Definition with_wheres (qb : QueryBuilder) (ws : list (WhereType * Cond))
    (m : gmap string Value) : QueryBuilder :=
  {| selects := selects qb; wheres := ws; parameters := m;
     orderBys := orderBys qb; qb_skip := qb_skip qb; qb_take := qb_take qb |}.

Definition where_ (c : Cond) (ps : list (string * Value))
    (qb : QueryBuilder) : QueryBuilder :=
  with_wheres qb [(WSimple, c)] (setParameters ps (parameters qb)).

Definition andWhere (c : Cond) (ps : list (string * Value))
    (qb : QueryBuilder) : QueryBuilder :=
  with_wheres qb (wheres qb ++ [(WAnd, c)]) (setParameters ps (parameters qb)).

Definition orWhere (c : Cond) (ps : list (string * Value))
    (qb : QueryBuilder) : QueryBuilder :=
  with_wheres qb (wheres qb ++ [(WOr, c)]) (setParameters ps (parameters qb)).

Definition setParameter (k : string) (v : Value)
    (qb : QueryBuilder) : QueryBuilder :=
  with_wheres qb (wheres qb) (<[k := v]> (parameters qb)).

Definition addSelect (k : OrderKey) (alias : string)
    (qb : QueryBuilder) : QueryBuilder :=
  {| selects := selects qb ++ [(k, alias)]; wheres := wheres qb;
     parameters := parameters qb; orderBys := orderBys qb;
     qb_skip := qb_skip qb; qb_take := qb_take qb |}.

Definition with_orderBys (qb : QueryBuilder) (obs : list OrderByItem)
    : QueryBuilder :=
  {| selects := selects qb; wheres := wheres qb; parameters := parameters qb;
     orderBys := obs; qb_skip := qb_skip qb; qb_take := qb_take qb |}.

(** [orderBy] replaces the ordering, [addOrderBy] extends it. *)
Definition orderBy (k : OrderKey) (o : SortOrder) (qb : QueryBuilder)
    : QueryBuilder :=
  with_orderBys qb [{| ob_key := k; ob_order := o; ob_nullsLast := false |}].

Definition addOrderBy (k : OrderKey) (o : SortOrder) (nullsLast : bool)
    (qb : QueryBuilder) : QueryBuilder :=
  with_orderBys qb
    (orderBys qb ++ [{| ob_key := k; ob_order := o; ob_nullsLast := nullsLast |}]).

Definition skip (n : nat) (qb : QueryBuilder) : QueryBuilder :=
  {| selects := selects qb; wheres := wheres qb; parameters := parameters qb;
     orderBys := orderBys qb; qb_skip := Some n; qb_take := qb_take qb |}.

Definition take (n : nat) (qb : QueryBuilder) : QueryBuilder :=
  {| selects := selects qb; wheres := wheres qb; parameters := parameters qb;
     orderBys := orderBys qb; qb_skip := qb_skip qb; qb_take := Some n |}.

(** [buildWhereClause] only ever writes to the builder.  Its effect is
    therefore the sequence of builder calls it makes; [call] performs
    one of them. *)
Inductive Call :=
| AddSelect (k : OrderKey) (alias : string)
| AndWhere (c : Cond) (ps : list (string * Value))
| SetParameter (k : string) (v : Value)
| OrderBy (k : OrderKey) (o : SortOrder).

Definition call (qb : QueryBuilder) (c : Call) : QueryBuilder :=
  match c with
  | AddSelect k a => addSelect k a qb
  | AndWhere c ps => andWhere c ps qb
  | SetParameter k v => setParameter k v qb
  | OrderBy k o => orderBy k o qb
  end.

(** The parameters a call binds, in binding order, and their names. *)
Definition bindings (c : Call) : list (string * Value) :=
  match c with
  | AndWhere _ ps => ps
  | SetParameter k v => [(k, v)]
  | AddSelect _ _ | OrderBy _ _ => []
  end.

Definition boundNames (c : Call) : list string := (bindings c).*1.

(** The predicate a call adds, if any. *)
Definition addedCond (c : Call) : list Cond :=
  match c with
  | AndWhere c _ => [c]
  | _ => []
  end.

(* ===================================================================== *)
(** ** [buildWhereClause] *)
(* ===================================================================== *)

Definition isInclude (f : LabelFilter) : bool :=
  LabelFilterType_eqb (lf_type f) INCLUDE.
Definition isExclude (f : LabelFilter) : bool :=
  LabelFilterType_eqb (lf_type f) EXCLUDE.

Definition orEmpty {A} (l : option (list A)) : list A :=
  match l with
  | Some l => l
  | None => []
  end.

Section BuildWhereClause.
(** The clock of the application, read by [new Date()]. *)
Variable now : Z.
Variable args : SearchArgs.t.

(** [if (args.query) { ... }] *)
Definition queryCalls : list Call :=
  match SearchArgs.query args with
  | Some (String c q) =>
      [ AddSelect (KRank "query") "rank";
        AndWhere (CTsQueryMatch "query" "search_tsv") [];
        SetParameter "query" (VString (String c q));
        OrderBy (KRank "query") DESCENDING ]
  | _ => []
  end.

(** [if (args.typeFilter) { ... }] *)
Definition typeFilterCalls : list Call :=
  match SearchArgs.typeFilter args with
  | Some (String c t) =>
      [ AndWhere (CLowerEq "item_type" "typeFilter")
          [("typeFilter", VString (toLowerCase (String c t)))] ]
  | _ => []
  end.

(** [if (args.inFilter !== InFilter.ALL) { switch (args.inFilter) ... }] *)
Definition inFilterCalls : list Call :=
  match SearchArgs.inFilter args with
  | Some INBOX => [ AndWhere CArchivedIsNull [] ]
  | Some ARCHIVE => [ AndWhere CArchivedIsNotNull [] ]
  | Some TRASH => [ AndWhere CDeletedWithin14Days [] ]
  | Some SUBSCRIPTION =>
      [ AndWhere CSubscriptionIsNotNull [];
        AndWhere CNotLibraryLabel [];
        AndWhere CArchivedIsNull [] ]
  | Some LIBRARY =>
      [ AndWhere CNoSubscriptionOrLibraryLabel [];
        AndWhere CArchivedIsNull [] ]
  | Some ALL | None => []
  end.

(** [if (args.readFilter !== ReadFilter.ALL) { switch ... }] *)
Definition readFilterCalls : list Call :=
  match SearchArgs.readFilter args with
  | Some READ => [ AndWhere CReadGe98 [] ]
  | Some UNREAD => [ AndWhere CReadLt98 [] ]
  | Some READ_ALL | None => []
  end.

(** [args.hasFilters.forEach (...)] *)
Definition hasFilterCalls : list Call :=
  map (fun f =>
         match f with
         | HIGHLIGHTS => AndWhere CHasHighlights []
         | LABELS => AndWhere CHasLabels []
         end)
      (orEmpty (SearchArgs.hasFilters args)).

(** The label filters: one fragment per INCLUDE entry, its parameter
    named by the index of the entry among the INCLUDE entries; one
    fragment for all EXCLUDE entries. *)
Definition includeLabelParam (i : nat) : string :=
  "includeLabels_" +:+ pretty i.

Definition includeLabelCalls (includeLabels : list LabelFilter) : list Call :=
  imap (fun i includeLabel =>
          let param := includeLabelParam i in
          AndWhere (CLabelsOverlap param)
                   [(param, VStrings (lf_labels includeLabel))])
       includeLabels.

Definition excludeLabelCalls (excludeLabels : list LabelFilter) : list Call :=
  match excludeLabels with
  | [] => []
  | _ :: _ =>
      [ AndWhere (CNotLabelsOverlap "excludeLabels")
          [("excludeLabels",
            VStrings (flat_map lf_labels excludeLabels))] ]
  end.

Definition labelFilterCalls : list Call :=
  let labelFilters := orEmpty (SearchArgs.labelFilters args) in
  let includeLabels := List.filter isInclude labelFilters in
  let excludeLabels := List.filter isExclude labelFilters in
  includeLabelCalls includeLabels ++ excludeLabelCalls excludeLabels.

(** [args.dateFilters.forEach (...)] *)
Definition dateFilterCall (filter : DateFilter) : Call :=
  let startDate := df_field filter +:+ "_start" in
  let endDate := df_field filter +:+ "_end" in
  AndWhere (CBetween (df_field filter) startDate endDate)
    [ (startDate, VDate (default 0%Z (df_startDate filter)));
      (endDate, VDate (default now (df_endDate filter))) ].

Definition dateFilterCalls : list Call :=
  map dateFilterCall (orEmpty (SearchArgs.dateFilters args)).

(** [args.termFilters.forEach (...)] *)
Definition termFilterCall (filter : FieldFilter) : Call :=
  let param := "term_" +:+ ff_field filter in
  AndWhere (CLowerEq (ff_field filter) param)
    [(param, VString (toLowerCase (ff_value filter)))].

Definition termFilterCalls : list Call :=
  map termFilterCall (orEmpty (SearchArgs.termFilters args)).

(** [args.matchFilters.forEach (...)] *)
Definition matchFilterCall (filter : FieldFilter) : Call :=
  let param := "match_" +:+ ff_field filter in
  AndWhere (CTsQueryMatch param (ff_field filter +:+ "_tsv"))
    [(param, VString (ff_value filter))].

Definition matchFilterCalls : list Call :=
  map matchFilterCall (orEmpty (SearchArgs.matchFilters args)).

(** [if (args.ids && args.ids.length > 0) { ... }] *)
Definition idsCalls : list Call :=
  match SearchArgs.ids args with
  | Some (i :: l) => [ AndWhere (CIdIn "ids") [("ids", VStrings (i :: l))] ]
  | _ => []
  end.

(** [if (!args.includePending) { ... }] *)
Definition includePendingCalls : list Call :=
  match SearchArgs.includePending args with
  | Some true => []
  | _ => [ AndWhere (CStateNe "state") [("state", VState Processing)] ]
  end.

(** [if (!args.includeDeleted && args.inFilter !== InFilter.TRASH)] *)
Definition includeDeletedCalls : list Call :=
  match SearchArgs.includeDeleted args, SearchArgs.inFilter args with
  | Some true, _ => []
  | _, Some TRASH => []
  | _, _ => [ AndWhere (CStateNe "state") [("state", VState Deleted)] ]
  end.

(** [if (args.noFilters) { args.noFilters.forEach (...) }] *)
Definition noFilterCalls : list Call :=
  map (fun filter => AndWhere (CEmptyArray (nf_field filter)) [])
      (orEmpty (SearchArgs.noFilters args)).

(** [if (args.recommendedBy) { ... }] *)
Definition recommendedByCalls : list Call :=
  match SearchArgs.recommendedBy args with
  | Some (String c s) =>
      if String.eqb (String c s) "*" then [ AndWhere CHasRecommenders [] ]
      else [ AndWhere (CRecommendedBy "recommendedBy")
               [("recommendedBy", VString (toLowerCase (String c s)))] ]
  | _ => []
  end.

(** The builder calls of [buildWhereClause], in program order. *)
Definition buildWhereClauseCalls : list Call :=
  queryCalls ++ typeFilterCalls ++ inFilterCalls ++ readFilterCalls
    ++ hasFilterCalls ++ labelFilterCalls ++ dateFilterCalls
    ++ termFilterCalls ++ matchFilterCalls ++ idsCalls
    ++ includePendingCalls ++ includeDeletedCalls ++ noFilterCalls
    ++ recommendedByCalls.

Definition buildWhereClause (queryBuilder : QueryBuilder) : QueryBuilder :=
  foldl call queryBuilder buildWhereClauseCalls.
End BuildWhereClause.

(* ===================================================================== *)
(** ** Running a query against the table *)
(* ===================================================================== *)

(** Columns read by name ([library_item.${field}]).  A name outside the
    schema makes the store reject the statement; here it reads as NULL,
    which no predicate accepts. *)
Definition dateColumn (col : string) (r : LibraryItem.t) : option Z :=
  if String.eqb col "saved_at" then Some (LibraryItem.savedAt r)
  else if String.eqb col "created_at" then Some (LibraryItem.createdAt r)
  else if String.eqb col "archived_at" then LibraryItem.archivedAt r
  else if String.eqb col "deleted_at" then LibraryItem.deletedAt r
  else if String.eqb col "read_at" then LibraryItem.readAt r
  else None.

Definition textColumn (col : string) (r : LibraryItem.t) : option string :=
  if String.eqb col "id" then Some (LibraryItem.id r)
  else if String.eqb col "user_id" then Some (LibraryItem.userId r)
  else if String.eqb col "title" then Some (LibraryItem.title r)
  else if String.eqb col "site_name" then LibraryItem.siteName r
  else if String.eqb col "original_url" then Some (LibraryItem.originalUrl r)
  else if String.eqb col "item_type" then Some (LibraryItem.itemType r)
  else if String.eqb col "subscription" then LibraryItem.subscription r
  else None.

Definition arrayColumn (col : string) (r : LibraryItem.t)
    : option (list string) :=
  if String.eqb col "label_names" then Some (LibraryItem.labelNames r)
  else if String.eqb col "highlight_labels" then
    Some (LibraryItem.highlightLabels r)
  else if String.eqb col "highlight_annotations" then
    Some (LibraryItem.highlightAnnotations r)
  else if String.eqb col "recommender_names" then
    Some (LibraryItem.recommenderNames r)
  else None.

Definition isEmpty {A} (l : list A) : bool :=
  match l with [] => true | _ => false end.

Definition isNull {A} (o : option A) : bool :=
  match o with None => true | Some _ => false end.

(** [lower(array_cat(label_names, highlight_labels)::text)::text[]] *)
Definition foldedLabels (r : LibraryItem.t) : list string :=
  map toLowerCase (LibraryItem.labelNames r ++ LibraryItem.highlightLabels r).

Definition fourteenDays : Z := 14 * 24 * 60 * 60 * 1000.

Section Evaluation.
(** The parameter map of the query and the clock of the store, read by
    [now()]. *)
Variable ps : gmap string Value.
Variable dbNow : Z.
Variable r : LibraryItem.t.

(** Whether the row satisfies a fragment (SQL truth: NULL is not
    true).  A parameter that is missing or of the wrong kind makes the
    fragment unsatisfied. *)
Definition evalCond (c : Cond) : bool :=
  match c with
  | CUserIdEq p =>
      match ps !! p with
      | Some (VString u) => String.eqb (LibraryItem.userId r) u
      | _ => false
      end
  | CTsQueryMatch p col =>
      match ps !! p with
      | Some (VString q) => LibraryItem.tsvMatch r col q
      | _ => false
      end
  | CLowerEq col p =>
      match textColumn col r, ps !! p with
      | Some s, Some (VString v) => String.eqb (toLowerCase s) v
      | _, _ => false
      end
  | CArchivedIsNull => isNull (LibraryItem.archivedAt r)
  | CArchivedIsNotNull => negb (isNull (LibraryItem.archivedAt r))
  | CDeletedWithin14Days =>
      match LibraryItem.deletedAt r with
      | Some d => (dbNow - fourteenDays <=? d)%Z
      | None => false
      end
  | CSubscriptionIsNotNull =>
      negb (isNull (LibraryItem.subscription r))
  | CNotLibraryLabel => negb (ilikeAny "library" (LibraryItem.labelNames r))
  | CNoSubscriptionOrLibraryLabel =>
      isNull (LibraryItem.subscription r)
      || ilikeAny "library" (LibraryItem.labelNames r)
  | CReadGe98 => (98 <=? LibraryItem.readingProgressTopPercent r)%Z
  | CReadLt98 => (LibraryItem.readingProgressTopPercent r <? 98)%Z
  | CHasHighlights => negb (isEmpty (LibraryItem.highlightAnnotations r))
  | CHasLabels => negb (isEmpty (LibraryItem.labelNames r))
  | CLabelsOverlap p =>
      match ps !! p with
      | Some (VStrings l) => overlap (foldedLabels r) l
      | _ => false
      end
  | CNotLabelsOverlap p =>
      match ps !! p with
      | Some (VStrings l) => negb (overlap (foldedLabels r) l)
      | _ => false
      end
  | CBetween col pstart pend =>
      match dateColumn col r, ps !! pstart, ps !! pend with
      | Some t, Some (VDate s), Some (VDate e) => (s <=? t)%Z && (t <=? e)%Z
      | _, _, _ => false
      end
  | CIdIn p =>
      match ps !! p with
      | Some (VStrings l) => existsb (String.eqb (LibraryItem.id r)) l
      | _ => false
      end
  | CStateNe p =>
      match ps !! p with
      | Some (VState s) => negb (LibraryItemState_eqb (LibraryItem.state r) s)
      | _ => false
      end
  | CEmptyArray col =>
      match arrayColumn col r with
      | Some l => isEmpty l
      | None => false
      end
  | CHasRecommenders => negb (isEmpty (LibraryItem.recommenderNames r))
  | CRecommendedBy p =>
      match ps !! p with
      | Some (VString u) =>
          existsb (String.eqb u)
                  (map toLowerCase (LibraryItem.recommenderNames r))
      | _ => false
      end
  | CTitleILike p =>
      match ps !! p with
      | Some (VString pat) => ilike (LibraryItem.title r) pat
      | _ => false
      end
  | CSiteNameILike p =>
      match LibraryItem.siteName r, ps !! p with
      | Some s, Some (VString pat) => ilike s pat
      | _, _ => false
      end
  end.

(** The WHERE expression is the fragments joined by their connectives,
    [AND] binding tighter than [OR]; the connective of the first
    fragment is dropped. *)
Fixpoint evalWheres (acc : bool) (ws : list (WhereType * Cond)) : bool :=
  match ws with
  | [] => acc
  | (WOr, c) :: ws' => acc || evalWheres (evalCond c) ws'
  | (_, c) :: ws' => evalWheres (acc && evalCond c) ws'
  end.

Definition evalWhereList (ws : list (WhereType * Cond)) : bool :=
  match ws with
  | [] => true
  | (_, c) :: ws' => evalWheres (evalCond c) ws'
  end.
End Evaluation.

(** The rows a query selects. *)
Definition matches (qb : QueryBuilder) (dbNow : Z) (r : LibraryItem.t) : bool :=
  evalWhereList (parameters qb) dbNow r (wheres qb).

Definition selected (qb : QueryBuilder) (dbNow : Z)
    (table : list LibraryItem.t) : list LibraryItem.t :=
  List.filter (matches qb dbNow) table.

(** *** Ordering and pagination *)

(** The value a row is ordered by.  A column is named by its SQL name
    or, as in [findLibraryItemsByPrefix], by the entity property. *)
Definition orderValue (ps : gmap string Value) (k : OrderKey)
    (r : LibraryItem.t) : option Z :=
  match k with
  | KRank p =>
      match ps !! p with
      | Some (VString q) => Some (LibraryItem.tsRank r q)
      | _ => None
      end
  | KColumn col =>
      if String.eqb col "savedAt" then Some (LibraryItem.savedAt r)
      else if String.eqb col "word_count" then LibraryItem.wordCount r
      else dateColumn col r
  end.

(** [Lt]: the first row comes first.  Without [NULLS LAST] a NULL sorts
    as larger than every value. *)
Definition compareBy (ps : gmap string Value) (ob : OrderByItem)
    (a b : LibraryItem.t) : comparison :=
  match orderValue ps (ob_key ob) a, orderValue ps (ob_key ob) b with
  | Some x, Some y =>
      match ob_order ob with
      | ASCENDING => (x ?= y)%Z
      | DESCENDING => (y ?= x)%Z
      end
  | None, None => Eq
  | None, Some _ =>
      if ob_nullsLast ob then Gt
      else match ob_order ob with ASCENDING => Gt | DESCENDING => Lt end
  | Some _, None =>
      if ob_nullsLast ob then Lt
      else match ob_order ob with ASCENDING => Lt | DESCENDING => Gt end
  end.

Fixpoint compareRows (ps : gmap string Value) (obs : list OrderByItem)
    (a b : LibraryItem.t) : comparison :=
  match obs with
  | [] => Eq
  | ob :: obs' =>
      match compareBy ps ob a b with
      | Eq => compareRows ps obs' a b
      | c => c
      end
  end.

(** Rows that compare equal keep the order of the table (SQL leaves the
    order of ties open). *)
Fixpoint insertRow (ps : gmap string Value) (obs : list OrderByItem)
    (x : LibraryItem.t) (l : list LibraryItem.t) : list LibraryItem.t :=
  match l with
  | [] => [x]
  | y :: l' =>
      match compareRows ps obs x y with
      | Gt => y :: insertRow ps obs x l'
      | _ => x :: l
      end
  end.

Definition sortRows (ps : gmap string Value) (obs : list OrderByItem)
    (l : list LibraryItem.t) : list LibraryItem.t :=
  foldr (insertRow ps obs) [] l.

Definition paginate {A} (offset limit : option nat) (l : list A) : list A :=
  let l := match offset with Some n => skipn n l | None => l end in
  match limit with Some n => firstn n l | None => l end.

(** [getMany]: the selected rows, ordered, then cut by skip and take. *)
Definition getMany (qb : QueryBuilder) (dbNow : Z)
    (table : list LibraryItem.t) : list LibraryItem.t :=
  paginate (qb_skip qb) (qb_take qb)
    (sortRows (parameters qb) (orderBys qb) (selected qb dbNow table)).

(** [getCount]: the number of selected rows; ordering, skip and take do
    not take part in the count query. *)
Definition getCount (qb : QueryBuilder) (dbNow : Z)
    (table : list LibraryItem.t) : nat :=
  length (selected qb dbNow table).

(* ===================================================================== *)
(** ** Effects: the store, the outbox, errors *)
(* ===================================================================== *)

Inductive Error :=
| InvalidBulkAction        (* Error('Invalid bulk action') *)
| LabelsRequired           (* Error('Labels are required for this action') *)
| EntityNotFound           (* thrown by findOneByOrFail *)
| QueryFailed (msg : string)   (* the store rejected a statement *)
| PubSubError (msg : string).

Definition errorMessage (e : Error) : string :=
  match e with
  | InvalidBulkAction => "Invalid bulk action"
  | LabelsRequired => "Labels are required for this action"
  | EntityNotFound => "Could not find any entity"
  | QueryFailed msg => msg
  | PubSubError msg => msg
  end.

Inductive Result (A : Type) :=
| Ok (a : A)
| Throw (e : Error).
Arguments Ok {A} a.
Arguments Throw {A} e.

(** A patch or partial entity: a JavaScript object, property name to
    value. *)
Abbreviation Patch := (gmap string Value).

Inductive EntityType := PAGE.

Inductive Notification :=
| EntityCreated (type : EntityType) (entity : LibraryItem.t) (userId : string)
| EntityUpdated (type : EntityType) (payload : Patch) (userId : string).

(** The state the operations act on: the store and the notifications
    handed to the pub-sub client so far. *)
Record World := {
  db : Db;
  outbox : list Notification
}.

(** An (awaited) asynchronous computation: it transforms the world and
    either resolves to a value or rejects with an error. *)
Definition M (A : Type) : Type := World -> World * Result A.

Definition ret {A} (a : A) : M A := fun w => (w, Ok a).
Definition throw {A} (e : Error) : M A := fun w => (w, Throw e).
Definition bind {A B} (m : M A) (k : A -> M B) : M B :=
  fun w =>
    match m w with
    | (w', Ok a) => k a w'
    | (w', Throw e) => (w', Throw e)
    end.

Notation "'let*' x := m 'in' k" := (bind m (fun x => k))
  (at level 10, x name, m at level 100, k at level 200).
Notation "'run' m 'in' k" := (bind m (fun _ => k))
  (at level 10, m at level 100, k at level 200).

Definition getDb : M Db := fun w => (w, Ok (db w)).
Definition putDb (d : Db) : M unit :=
  fun w => ({| db := d; outbox := outbox w |}, Ok tt).

(** Modelled from the spec: the transaction collaborator [authTrx] of
    [repository] (not part of the sources at hand) "runs work against a
    transactional handle scoped to a user/session".  The store of a
    [World] is the store as the handle of the call exposes it.  Which
    rows that is for a user context, or for the session where the
    source passes no user, is decided by the collaborator and not by
    this module: the operations read and write the exposed table.  The
    user context is passed on as the call sites give it ([None] where
    the source passes none).  The work is run on the store; when it
    rejects, the store is put back as it was. *)
Definition authTrx {A} (work : M A) (uid : option string) : M A :=
  fun w =>
    match work w with
    | (w', Ok a) => (w', Ok a)
    | (w', Throw e) => ({| db := db w; outbox := outbox w' |}, Throw e)
    end.

(** Modelled from the spec: the change-notification collaborator of
    [pubsub] (not part of the sources at hand).  The mutations take the
    client as an argument; all that matters of it here is whether a call
    resolves or rejects. *)
Record PubsubClient := { rejects : Notification -> option Error }.

Definition publish (pubsub : PubsubClient) (n : Notification) : M unit :=
  fun w =>
    ({| db := db w; outbox := outbox w ++ [n] |},
     match rejects pubsub n with
     | Some e => Throw e
     | None => Ok tt
     end).

Definition entityCreated (pubsub : PubsubClient) (type : EntityType)
    (entity : LibraryItem.t) (userId : string) : M unit :=
  publish pubsub (EntityCreated type entity userId).

Definition entityUpdated (pubsub : PubsubClient) (type : EntityType)
    (payload : Patch) (userId : string) : M unit :=
  publish pubsub (EntityUpdated type payload userId).

(* ===================================================================== *)
(** ** Writing rows *)
(* ===================================================================== *)

Definition patchOptDate (p : Patch) (k : string) (old : option Z) : option Z :=
  match p !! k with
  | Some (VDate t) => Some t
  | Some VNull => None
  | _ => old
  end.

Definition patchDate (p : Patch) (k : string) (old : Z) : Z :=
  match p !! k with Some (VDate t) => t | _ => old end.

Definition patchNum (p : Patch) (k : string) (old : Z) : Z :=
  match p !! k with Some (VNum n) => n | _ => old end.

Definition patchOptNum (p : Patch) (k : string) (old : option Z) : option Z :=
  match p !! k with
  | Some (VNum n) => Some n
  | Some VNull => None
  | _ => old
  end.

Definition patchString (p : Patch) (k : string) (old : string) : string :=
  match p !! k with Some (VString s) => s | _ => old end.

Definition patchOptString (p : Patch) (k : string) (old : option string)
    : option string :=
  match p !! k with
  | Some (VString s) => Some s
  | Some VNull => None
  | _ => old
  end.

(** The column assignments of [UPDATE ... SET] (or of an insert) for
    the properties present in the object; absent properties leave the
    column as it is. *)
Definition applyPatch (p : Patch) (r : LibraryItem.t) : LibraryItem.t :=
  {| LibraryItem.id := patchString p "id" (LibraryItem.id r);
     LibraryItem.userId := patchString p "userId" (LibraryItem.userId r);
     LibraryItem.title := patchString p "title" (LibraryItem.title r);
     LibraryItem.siteName := patchOptString p "siteName" (LibraryItem.siteName r);
     LibraryItem.originalUrl :=
       patchString p "originalUrl" (LibraryItem.originalUrl r);
     LibraryItem.itemType := patchString p "itemType" (LibraryItem.itemType r);
     LibraryItem.state :=
       match p !! "state" with
       | Some (VState s) => s
       | _ => LibraryItem.state r
       end;
     LibraryItem.savedAt := patchDate p "savedAt" (LibraryItem.savedAt r);
     LibraryItem.createdAt := patchDate p "createdAt" (LibraryItem.createdAt r);
     LibraryItem.archivedAt :=
       patchOptDate p "archivedAt" (LibraryItem.archivedAt r);
     LibraryItem.deletedAt :=
       patchOptDate p "deletedAt" (LibraryItem.deletedAt r);
     LibraryItem.readAt := patchOptDate p "readAt" (LibraryItem.readAt r);
     LibraryItem.readingProgressTopPercent :=
       patchNum p "readingProgressTopPercent"
                (LibraryItem.readingProgressTopPercent r);
     LibraryItem.readingProgressBottomPercent :=
       patchNum p "readingProgressBottomPercent"
                (LibraryItem.readingProgressBottomPercent r);
     LibraryItem.wordCount := patchOptNum p "wordCount" (LibraryItem.wordCount r);
     LibraryItem.subscription :=
       patchOptString p "subscription" (LibraryItem.subscription r);
     LibraryItem.labelNames := LibraryItem.labelNames r;
     LibraryItem.highlightLabels := LibraryItem.highlightLabels r;
     LibraryItem.highlightAnnotations := LibraryItem.highlightAnnotations r;
     LibraryItem.recommenderNames := LibraryItem.recommenderNames r;
     LibraryItem.tsvMatch := LibraryItem.tsvMatch r;
     LibraryItem.tsRank := LibraryItem.tsRank r |}.

Definition withItems (d : Db) (items : list LibraryItem.t) : Db :=
  {| library_item := items; entity_labels := entity_labels d;
     label_table := label_table d |}.

(** [itemRepo.update (id, patch)] *)
Definition updateRows (id : string) (p : Patch) (items : list LibraryItem.t)
    : list LibraryItem.t :=
  map (fun r => if String.eqb (LibraryItem.id r) id then applyPatch p r else r)
      items.

Definition repoUpdate (id : string) (p : Patch) : M unit :=
  let* d := getDb in
  putDb (withItems d (updateRows id p (library_item d))).

(** [itemRepo.findOneByOrFail ({ id })] *)
Definition findRow (id : string) (items : list LibraryItem.t)
    : option LibraryItem.t :=
  List.find (fun r => String.eqb (LibraryItem.id r) id) items.

Definition findOneByOrFail (id : string) : M LibraryItem.t :=
  let* d := getDb in
  match findRow id (library_item d) with
  | Some r => ret r
  | None => throw EntityNotFound
  end.

(** The row an entity stands for already: the row whose id the entity
    carries, if it carries one and the table has such a row. *)
Definition existingRow (entity : Patch) (items : list LibraryItem.t)
    : option LibraryItem.t :=
  match entity !! "id" with
  | Some (VString i) => findRow i items
  | _ => None
  end.

(** [repository.save (entity)].  An entity that stands for a row of the
    table is written over that row, in place.  Any other entity is
    inserted: the new row is the entity laid over [generated], the
    columns the store fills in itself.  The result is the table
    afterwards and the entity handed back, which is modelled by the row
    it stands for. *)
Definition saveRow (generated : LibraryItem.t) (entity : Patch)
    (items : list LibraryItem.t) : list LibraryItem.t * LibraryItem.t :=
  match existingRow entity items with
  | Some old =>
      (updateRows (LibraryItem.id old) entity items, applyPatch entity old)
  | None =>
      let row := applyPatch entity generated in
      (items ++ [row], row)
  end.

Definition repoSave (generated : LibraryItem.t) (entity : Patch)
    : M LibraryItem.t :=
  let* d := getDb in
  let saved := saveRow generated entity (library_item d) in
  run putDb (withItems d saved.1) in
  ret saved.2.

(** [tx.getRepository (EntityLabel).save (rows)] *)
Definition saveEntityLabels (rows : list EntityLabel) : M (list EntityLabel) :=
  let* d := getDb in
  run putDb {| library_item := library_item d;
               entity_labels := entity_labels d ++ rows;
               label_table := label_table d |} in
  ret rows.

(** [queryBuilder.update (LibraryItem).set (values).execute ()].  The
    update builder takes over the expression map of the select builder
    and writes its ORDER BY after the WHERE clause.  The store has no
    [UPDATE ... ORDER BY]: it rejects the statement, and no row is
    written.  Without an ordering the rows the WHERE clause selects are
    assigned the values. *)
Definition executeUpdate (qb : QueryBuilder) (dbNow : Z) (values : Patch)
    : M unit :=
  match orderBys qb with
  | _ :: _ => throw (QueryFailed "syntax error at or near ORDER")
  | [] =>
      let* d := getDb in
      putDb (withItems d
               (map (fun r =>
                       if matches qb dbNow r then applyPatch values r else r)
                    (library_item d)))
  end.

(* ===================================================================== *)
(** ** The operations of the module *)
(* ===================================================================== *)

Section Operations.
(** The clock of the application ([new Date()]) and of the store
    ([now()]). *)
Variable now : Z.
Variable dbNow : Z.

(** [const { from = 0, size = 10, sort } = args] and the two defaults
    of the ordering. *)
Definition pageFrom (args : SearchArgs.t) : nat :=
  default 0 (SearchArgs.from args).
Definition pageSize (args : SearchArgs.t) : nat :=
  default 10 (SearchArgs.size args).
Definition sortOrder (args : SearchArgs.t) : SortOrder :=
  match SearchArgs.sort args with
  | Some s => default DESCENDING (sort_order s)
  | None => DESCENDING
  end.
Definition sortField (args : SearchArgs.t) : string :=
  match SearchArgs.sort args with
  | Some {| sort_by := Some (String c f) |} => String c f
  | _ => SAVED
  end.

(** The query [searchLibraryItems] builds before it adds ordering and
    pagination. *)
Definition searchQuery (args : SearchArgs.t) (userId : string)
    : QueryBuilder :=
  buildWhereClause now args
    (where_ (CUserIdEq "userId") [("userId", VString userId)]
            createQueryBuilder).

Definition searchLibraryItems (args : SearchArgs.t) (userId : string)
    : M (list LibraryItem.t * nat) :=
  authTrx
    (let* d := getDb in
     let queryBuilder := searchQuery args userId in
     let queryBuilder :=
       take (pageSize args)
         (skip (pageFrom args)
            (addOrderBy (KColumn (sortField args)) (sortOrder args) true
               queryBuilder)) in
     let libraryItems := getMany queryBuilder dbNow (library_item d) in
     let count := getCount queryBuilder dbNow (library_item d) in
     ret (libraryItems, count))
    (Some userId).

(** The switch of [updateLibraryItem] on [libraryItem.state]; it
    assigns into the patch object it was given. *)
Definition resetTimestamps (libraryItem : Patch) : Patch :=
  match libraryItem !! "state" with
  | Some (VState Archived) => <["archivedAt" := VDate now]> libraryItem
  | Some (VState Deleted) => <["deletedAt" := VDate now]> libraryItem
  | Some (VState Processing) | Some (VState Succeeded) =>
      <["deletedAt" := VNull]> (<["archivedAt" := VNull]> libraryItem)
  | _ => libraryItem
  end.

Definition updateLibraryItem (id : string) (libraryItem : Patch)
    (userId : string) (pubsub : PubsubClient) : M LibraryItem.t :=
  let libraryItem := resetTimestamps libraryItem in
  let* updatedLibraryItem :=
    authTrx
      (run repoUpdate id libraryItem in
       findOneByOrFail id)
      (Some userId) in
  run entityUpdated pubsub PAGE (<["id" := VString id]> libraryItem) userId in
  ret updatedLibraryItem.

(** The object literal of [restoreLibraryItem]. *)
Definition restorePatch : Patch :=
  <["deletedAt" := VNull]>
    (<["archivedAt" := VNull]>
       (<["savedAt" := VDate now]>
          (<["state" := VState Succeeded]> ∅))).

Definition restoreLibraryItem (id : string) (userId : string)
    (pubsub : PubsubClient) : M LibraryItem.t :=
  updateLibraryItem id restorePatch userId pubsub.

(** Modelled from the spec: [wordsCount] of [utils/helpers] (not part
    of the sources at hand) counts the tokens of the text, split on
    white space. *)
Definition isSpace (c : ascii) : bool :=
  let n := nat_of_ascii c in
  (n =? 32)%nat || ((9 <=? n)%nat && (n <=? 13)%nat).

Fixpoint countTokens (inToken : bool) (s : string) : Z :=
  match s with
  | EmptyString => 0
  | String c s' =>
      if isSpace c then countTokens false s'
      else if inToken then countTokens true s'
      else (1 + countTokens true s')%Z
  end.

Definition wordsCount (text : string) : Z := countTokens false text.

(** [libraryItem.wordCount ?? wordsCount (libraryItem.readableContent || '')] *)
Definition wordCountOf (libraryItem : Patch) : Value :=
  match libraryItem !! "wordCount" with
  | None | Some VNull =>
      VNum (wordsCount
              match libraryItem !! "readableContent" with
              | Some (VString s) => s
              | _ => ""
              end)
  | Some v => v
  end.

(** [{ ...libraryItem, wordCount: ... }] *)
Definition withWordCount (libraryItem : Patch) : Patch :=
  <["wordCount" := wordCountOf libraryItem]> libraryItem.

Definition createLibraryItem (generated : LibraryItem.t)
    (libraryItem : Patch) (userId : string) (pubsub : PubsubClient)
    : M LibraryItem.t :=
  let* newLibraryItem :=
    authTrx (repoSave generated (withWordCount libraryItem))
      (Some userId) in
  run entityCreated pubsub PAGE newLibraryItem userId in
  ret newLibraryItem.

(** [limit] reads as [take] here: the query joins no relation. *)
Definition prefixQuery (prefix : string) (limit : nat) : QueryBuilder :=
  let prefixWildcard := prefix +:+ "%" in
  take limit
    (orderBy (KColumn "savedAt") DESCENDING
       (orWhere (CSiteNameILike "prefix") [("prefix", VString prefixWildcard)]
          (where_ (CTitleILike "prefix") [("prefix", VString prefixWildcard)]
             createQueryBuilder))).

Definition findLibraryItemsByPrefix (prefix : string) (limit : option nat)
    : M (list LibraryItem.t) :=
  authTrx
    (let* d := getDb in
     ret (getMany (prefixQuery prefix (default 5 limit)) dbNow
            (library_item d)))
    None.

(** The first [switch] of [updateLibraryItems]: the values to set and
    the [addLabels] flag, or the thrown error. *)
Definition bulkScript (action : BulkActionType) : Result (Patch * bool) :=
  match action with
  | Archive =>
      Ok (<["state" := VState Archived]>
            (<["archivedAt" := VDate now]> ∅), false)
  | Delete =>
      Ok (<["state" := VState Deleted]>
            (<["deletedAt" := VDate now]> ∅), false)
  | AddLabels => Ok (∅, true)
  | MarkAsRead =>
      Ok (<["readingProgressBottomPercent" := VNum 100]>
            (<["readingProgressTopPercent" := VNum 100]>
               (<["readAt" := VDate now]> ∅)), false)
  | UnknownAction _ => Throw InvalidBulkAction
  end.

(** [getMany] of a query that joins no relation: the entities come
    back with the columns of their rows and no relation property. *)
Definition plainEntity (r : LibraryItem.t) : Entity.t :=
  {| Entity.row := r; Entity.labels := None |}.

(** [libraryItem.labels?.find ((l) => l.id === labelId)], as a truth
    value. *)
Definition hasLabel (libraryItem : Entity.t) (labelId : string) : bool :=
  match Entity.labels libraryItem with
  | Some ls => existsb (fun l => String.eqb (label_id l) labelId) ls
  | None => false
  end.

Definition labelsToAdd (libraryItems : list Entity.t)
    (labels : list Label) : list EntityLabel :=
  flat_map
    (fun libraryItem =>
       List.filter
         (fun entityLabel =>
            negb (hasLabel libraryItem (labelId entityLabel)))
         (map (fun label =>
                 {| labelId := label_id label;
                    libraryItemId := LibraryItem.id (Entity.row libraryItem) |})
              labels))
    libraryItems.

(** The body handed to [authTrx] by [updateLibraryItems].  Its query is
    built by [buildWhereClause] alone, which joins no relation. *)
Definition bulkWork (values : Patch) (addLabels : bool)
    (args : SearchArgs.t) (labels : option (list Label)) : M unit :=
  let queryBuilder := buildWhereClause now args createQueryBuilder in
  if addLabels then
    match labels with
    | None => throw LabelsRequired
    | Some labels =>
        let* d := getDb in
        let libraryItems :=
          map plainEntity (getMany queryBuilder dbNow (library_item d)) in
        run saveEntityLabels (labelsToAdd libraryItems labels) in
        ret tt
    end
  else executeUpdate queryBuilder dbNow values.

Definition updateLibraryItems (action : BulkActionType)
    (args : SearchArgs.t) (labels : option (list Label)) : M unit :=
  match bulkScript action with
  | Throw e => throw e
  | Ok (values, addLabels) =>
      authTrx (bulkWork values addLabels args labels) None
  end.
End Operations.

(* ===================================================================== *)
(** ** Auxiliary notions for the proofs *)
(* ===================================================================== *)

(** Decimal digits. *)
Definition isDigit (c : ascii) : Prop :=
  (48 <= nat_of_ascii c <= 57)%nat.

(** The shapes of the names [buildWhereClause] binds. *)
Inductive BoundName : string -> Prop :=
| BN_query : BoundName "query"
| BN_typeFilter : BoundName "typeFilter"
| BN_include i : BoundName (includeLabelParam i)
| BN_exclude : BoundName "excludeLabels"
| BN_start f : BoundName (f +:+ "_start")
| BN_end f : BoundName (f +:+ "_end")
| BN_term f : BoundName ("term_" +:+ f)
| BN_match f : BoundName ("match_" +:+ f)
| BN_ids : BoundName "ids"
| BN_state : BoundName "state"
| BN_recommendedBy : BoundName "recommendedBy".

(** Those of them bound after the label filters. *)
Inductive LaterName : string -> Prop :=
| LN_start f : LaterName (f +:+ "_start")
| LN_end f : LaterName (f +:+ "_end")
| LN_term f : LaterName ("term_" +:+ f)
| LN_match f : LaterName ("match_" +:+ f)
| LN_ids : LaterName "ids"
| LN_state : LaterName "state"
| LN_recommendedBy : LaterName "recommendedBy".

#[local] Hint Constructors BoundName LaterName : core.

(** The calls made after the label filters. *)
Definition laterCalls (now : Z) (args : SearchArgs.t) : list Call :=
  dateFilterCalls now args ++ termFilterCalls args ++ matchFilterCalls args
    ++ idsCalls args ++ includePendingCalls args ++ includeDeletedCalls args
    ++ noFilterCalls args ++ recommendedByCalls args.

Definition ownedBy (userId : string) (r : LibraryItem.t) : bool :=
  String.eqb (LibraryItem.userId r) userId.

(** The outcome of a mutation once its transaction has committed
    [entity]: the awaited notification decides it. *)
Definition afterNotification (pubsub : PubsubClient) (n : Notification)
    (entity : LibraryItem.t) : Result LibraryItem.t :=
  match rejects pubsub n with
  | Some err => Throw err
  | None => Ok entity
  end.

(** [a] may stand before [b] in the ordering. *)
Definition notAfter (ps : gmap string Value) (obs : list OrderByItem)
    (a b : LibraryItem.t) : Prop :=
  compareRows ps obs a b <> Gt.

(** The builder [searchLibraryItems] runs [getMany] and [getCount] on. *)
Definition pagedQuery (now : Z) (args : SearchArgs.t) (userId : string)
    : QueryBuilder :=
  take (pageSize args)
    (skip (pageFrom args)
       (addOrderBy (KColumn (sortField args)) (sortOrder args) true
          (searchQuery now args userId))).

(** A call that only adds a predicate. *)
Definition isAndWhere (c : Call) : Prop :=
  match c with AndWhere _ _ => True | _ => False end.

(** Filter specifications that differ from a given one in one field. *)
Definition with_inFilter (v : option InFilter) (a : SearchArgs.t) : SearchArgs.t :=
  {| SearchArgs.from := SearchArgs.from a;
     SearchArgs.size := SearchArgs.size a;
     SearchArgs.sort := SearchArgs.sort a;
     SearchArgs.query := SearchArgs.query a; SearchArgs.inFilter := v;
     SearchArgs.readFilter := SearchArgs.readFilter a;
     SearchArgs.typeFilter := SearchArgs.typeFilter a;
     SearchArgs.labelFilters := SearchArgs.labelFilters a;
     SearchArgs.hasFilters := SearchArgs.hasFilters a;
     SearchArgs.dateFilters := SearchArgs.dateFilters a;
     SearchArgs.termFilters := SearchArgs.termFilters a;
     SearchArgs.matchFilters := SearchArgs.matchFilters a;
     SearchArgs.includePending := SearchArgs.includePending a;
     SearchArgs.includeDeleted := SearchArgs.includeDeleted a;
     SearchArgs.ids := SearchArgs.ids a;
     SearchArgs.recommendedBy := SearchArgs.recommendedBy a;
     SearchArgs.includeContent := SearchArgs.includeContent a;
     SearchArgs.noFilters := SearchArgs.noFilters a |}.

Definition with_labelFilters (v : option (list LabelFilter)) (a : SearchArgs.t) : SearchArgs.t :=
  {| SearchArgs.from := SearchArgs.from a;
     SearchArgs.size := SearchArgs.size a;
     SearchArgs.sort := SearchArgs.sort a;
     SearchArgs.query := SearchArgs.query a;
     SearchArgs.inFilter := SearchArgs.inFilter a;
     SearchArgs.readFilter := SearchArgs.readFilter a;
     SearchArgs.typeFilter := SearchArgs.typeFilter a;
     SearchArgs.labelFilters := v;
     SearchArgs.hasFilters := SearchArgs.hasFilters a;
     SearchArgs.dateFilters := SearchArgs.dateFilters a;
     SearchArgs.termFilters := SearchArgs.termFilters a;
     SearchArgs.matchFilters := SearchArgs.matchFilters a;
     SearchArgs.includePending := SearchArgs.includePending a;
     SearchArgs.includeDeleted := SearchArgs.includeDeleted a;
     SearchArgs.ids := SearchArgs.ids a;
     SearchArgs.recommendedBy := SearchArgs.recommendedBy a;
     SearchArgs.includeContent := SearchArgs.includeContent a;
     SearchArgs.noFilters := SearchArgs.noFilters a |}.

Definition with_dateFilters (v : option (list DateFilter)) (a : SearchArgs.t) : SearchArgs.t :=
  {| SearchArgs.from := SearchArgs.from a;
     SearchArgs.size := SearchArgs.size a;
     SearchArgs.sort := SearchArgs.sort a;
     SearchArgs.query := SearchArgs.query a;
     SearchArgs.inFilter := SearchArgs.inFilter a;
     SearchArgs.readFilter := SearchArgs.readFilter a;
     SearchArgs.typeFilter := SearchArgs.typeFilter a;
     SearchArgs.labelFilters := SearchArgs.labelFilters a;
     SearchArgs.hasFilters := SearchArgs.hasFilters a;
     SearchArgs.dateFilters := v;
     SearchArgs.termFilters := SearchArgs.termFilters a;
     SearchArgs.matchFilters := SearchArgs.matchFilters a;
     SearchArgs.includePending := SearchArgs.includePending a;
     SearchArgs.includeDeleted := SearchArgs.includeDeleted a;
     SearchArgs.ids := SearchArgs.ids a;
     SearchArgs.recommendedBy := SearchArgs.recommendedBy a;
     SearchArgs.includeContent := SearchArgs.includeContent a;
     SearchArgs.noFilters := SearchArgs.noFilters a |}.

Definition with_includePending (v : option bool) (a : SearchArgs.t) : SearchArgs.t :=
  {| SearchArgs.from := SearchArgs.from a;
     SearchArgs.size := SearchArgs.size a;
     SearchArgs.sort := SearchArgs.sort a;
     SearchArgs.query := SearchArgs.query a;
     SearchArgs.inFilter := SearchArgs.inFilter a;
     SearchArgs.readFilter := SearchArgs.readFilter a;
     SearchArgs.typeFilter := SearchArgs.typeFilter a;
     SearchArgs.labelFilters := SearchArgs.labelFilters a;
     SearchArgs.hasFilters := SearchArgs.hasFilters a;
     SearchArgs.dateFilters := SearchArgs.dateFilters a;
     SearchArgs.termFilters := SearchArgs.termFilters a;
     SearchArgs.matchFilters := SearchArgs.matchFilters a;
     SearchArgs.includePending := v;
     SearchArgs.includeDeleted := SearchArgs.includeDeleted a;
     SearchArgs.ids := SearchArgs.ids a;
     SearchArgs.recommendedBy := SearchArgs.recommendedBy a;
     SearchArgs.includeContent := SearchArgs.includeContent a;
     SearchArgs.noFilters := SearchArgs.noFilters a |}.

Definition with_includeDeleted (v : option bool) (a : SearchArgs.t) : SearchArgs.t :=
  {| SearchArgs.from := SearchArgs.from a;
     SearchArgs.size := SearchArgs.size a;
     SearchArgs.sort := SearchArgs.sort a;
     SearchArgs.query := SearchArgs.query a;
     SearchArgs.inFilter := SearchArgs.inFilter a;
     SearchArgs.readFilter := SearchArgs.readFilter a;
     SearchArgs.typeFilter := SearchArgs.typeFilter a;
     SearchArgs.labelFilters := SearchArgs.labelFilters a;
     SearchArgs.hasFilters := SearchArgs.hasFilters a;
     SearchArgs.dateFilters := SearchArgs.dateFilters a;
     SearchArgs.termFilters := SearchArgs.termFilters a;
     SearchArgs.matchFilters := SearchArgs.matchFilters a;
     SearchArgs.includePending := SearchArgs.includePending a;
     SearchArgs.includeDeleted := v; SearchArgs.ids := SearchArgs.ids a;
     SearchArgs.recommendedBy := SearchArgs.recommendedBy a;
     SearchArgs.includeContent := SearchArgs.includeContent a;
     SearchArgs.noFilters := SearchArgs.noFilters a |}.

(** The calls of [buildWhereClause] other than those of the label
    filters. *)
Definition otherCalls (now : Z) (args : SearchArgs.t) : list Call :=
  (queryCalls args ++ typeFilterCalls args ++ inFilterCalls args
     ++ readFilterCalls args ++ hasFilterCalls args)
  ++ laterCalls now args.

(** No filter field is set: every filter is absent or has the value
    that [buildWhereClause] skips. *)
Definition noFilterSet (args : SearchArgs.t) : bool :=
  match SearchArgs.query args with Some (String _ _) => false | _ => true end
  && match SearchArgs.typeFilter args with
     | Some (String _ _) => false
     | _ => true
     end
  && match SearchArgs.inFilter args with
     | None | Some ALL => true
     | _ => false
     end
  && match SearchArgs.readFilter args with
     | None | Some READ_ALL => true
     | _ => false
     end
  && isEmpty (orEmpty (SearchArgs.hasFilters args))
  && isEmpty (orEmpty (SearchArgs.labelFilters args))
  && isEmpty (orEmpty (SearchArgs.dateFilters args))
  && isEmpty (orEmpty (SearchArgs.termFilters args))
  && isEmpty (orEmpty (SearchArgs.matchFilters args))
  && isEmpty (orEmpty (SearchArgs.ids args))
  && match SearchArgs.includePending args with Some true => false | _ => true end
  && match SearchArgs.includeDeleted args with Some true => false | _ => true end
  && isEmpty (orEmpty (SearchArgs.noFilters args))
  && match SearchArgs.recommendedBy args with
     | Some (String _ _) => false
     | _ => true
     end.

(* ===================================================================== *)
(** ** Sample data *)
(* ===================================================================== *)

(** A row with the given identity, title, state and save time; nothing
    else is set. *)
Definition mkItem (id userId title : string) (st : LibraryItemState)
    (savedAt : Z) : LibraryItem.t :=
  {| LibraryItem.id := id; LibraryItem.userId := userId;
     LibraryItem.title := title; LibraryItem.siteName := None;
     LibraryItem.originalUrl := "https://example.com/" +:+ id;
     LibraryItem.itemType := "ARTICLE"; LibraryItem.state := st;
     LibraryItem.savedAt := savedAt; LibraryItem.createdAt := savedAt;
     LibraryItem.archivedAt := None; LibraryItem.deletedAt := None;
     LibraryItem.readAt := None;
     LibraryItem.readingProgressTopPercent := 0;
     LibraryItem.readingProgressBottomPercent := 0;
     LibraryItem.wordCount := None; LibraryItem.subscription := None;
     LibraryItem.labelNames := []; LibraryItem.highlightLabels := [];
     LibraryItem.highlightAnnotations := [];
     LibraryItem.recommenderNames := [];
     LibraryItem.tsvMatch := fun _ _ => false;
     LibraryItem.tsRank := fun _ => 0%Z |}.

Definition worldOf (items : list LibraryItem.t) : World :=
  {| db := {| library_item := items; entity_labels := [];
              label_table := [] |};
     outbox := [] |}.

(** A table with one item of each of two users. *)
Definition twoUsers : World :=
  worldOf [ mkItem "a1" "alice" "World News" Succeeded 1000;
            mkItem "b1" "bob" "Wonder Times" Succeeded 2000 ].

(** A table with one item, of alice. *)
Definition aliceOnly : World :=
  worldOf [ mkItem "a1" "alice" "World News" Succeeded 1000 ].

(** What the proofs observe of a table. *)
Definition ownersAndStates (w : World)
    : list (string * string * LibraryItemState * option Z) :=
  map (fun r => (LibraryItem.id r, LibraryItem.userId r,
                 LibraryItem.state r, LibraryItem.archivedAt r))
      (library_item (db w)).

(** A pub-sub client whose every call rejects, and one that never does. *)
Definition failingPubsub : PubsubClient :=
  {| rejects := fun _ => Some (PubSubError "pubsub unavailable") |}.

Definition workingPubsub : PubsubClient := {| rejects := fun _ => None |}.

(** An item of alice that was archived and later deleted. *)
Definition trashedItem : LibraryItem.t :=
  applyPatch
    (<["deletedAt" := VDate 900]> (<["archivedAt" := VDate 800]> ∅))
    (mkItem "t1" "alice" "Old News" Deleted 500).



(** Two date filters on the save time, with disjoint ranges. *)
Definition twoDateFilters : SearchArgs.t :=
  with_dateFilters
    (Some [ {| df_field := "saved_at"; df_startDate := Some 0%Z;
               df_endDate := Some 10%Z |};
            {| df_field := "saved_at"; df_startDate := Some 100%Z;
               df_endDate := Some 200%Z |} ])
    SearchArgs.empty.

(** An item of alice in state Deleted, deleted at the given time. *)
Definition deletedItem (id : string) (deletedAt : Z) : LibraryItem.t :=
  applyPatch {[ "deletedAt" := VDate deletedAt ]}
    (mkItem id "alice" "Old News" Deleted 0).

Definition oneDay : Z := 24 * 60 * 60 * 1000.

(** The filter specification with only the scope set, to TRASH. *)
Definition trashOnly : SearchArgs.t :=
  with_inFilter (Some TRASH) SearchArgs.empty.

(** An item of alice with the given label names and highlight labels. *)
Definition labelledItem (id : string) (labelNames highlightLabels : list string)
    : LibraryItem.t :=
  {| LibraryItem.id := id; LibraryItem.userId := "alice";
     LibraryItem.title := "Labelled"; LibraryItem.siteName := None;
     LibraryItem.originalUrl := "https://example.com/" +:+ id;
     LibraryItem.itemType := "ARTICLE"; LibraryItem.state := Succeeded;
     LibraryItem.savedAt := 1000; LibraryItem.createdAt := 1000;
     LibraryItem.archivedAt := None; LibraryItem.deletedAt := None;
     LibraryItem.readAt := None;
     LibraryItem.readingProgressTopPercent := 0;
     LibraryItem.readingProgressBottomPercent := 0;
     LibraryItem.wordCount := None; LibraryItem.subscription := None;
     LibraryItem.labelNames := labelNames;
     LibraryItem.highlightLabels := highlightLabels;
     LibraryItem.highlightAnnotations := [];
     LibraryItem.recommenderNames := [];
     LibraryItem.tsvMatch := fun _ _ => false;
     LibraryItem.tsRank := fun _ => 0%Z |}.

(** Two INCLUDE and two EXCLUDE entries, interleaved. *)
Definition fourLabelFilters : SearchArgs.t :=
  with_labelFilters
    (Some [ {| lf_type := INCLUDE; lf_labels := ["a"; "b"] |};
            {| lf_type := EXCLUDE; lf_labels := ["x"] |};
            {| lf_type := INCLUDE; lf_labels := ["c"] |};
            {| lf_type := EXCLUDE; lf_labels := ["y"] |} ])
    SearchArgs.empty.

(* ===================================================================== *)
(** ** Point lookups, counting, bulk creation and deletion *)
(* ===================================================================== *)

(** The fragments of the point lookups [findLibraryItemById] and
    [findLibraryItemByUrl]. *)
Inductive PointCond :=
| PIdEq (p : string)
| POriginalUrlEq (p : string).

Definition renderPoint (c : PointCond) : string :=
  match c with
  | PIdEq p => "library_item.id = :" +:+ p
  | POriginalUrlEq p => "library_item.original_url = :" +:+ p
  end.

Definition evalPoint (ps : gmap string Value) (c : PointCond)
    (r : LibraryItem.t) : bool :=
  match c with
  | PIdEq p =>
      match ps !! p with
      | Some (VString i) => String.eqb (LibraryItem.id r) i
      | _ => false
      end
  | POriginalUrlEq p =>
      match ps !! p with
      | Some (VString u) => String.eqb (LibraryItem.originalUrl r) u
      | _ => false
      end
  end.

(** The labels the join rows attach to an item. *)
Definition attachedLabels (d : Db) (itemId : string) : list Label :=
  List.filter
    (fun l =>
       existsb (fun el => String.eqb (libraryItemId el) itemId
                          && String.eqb (labelId el) (label_id l))
               (entity_labels d))
    (label_table d).

(** [leftJoinAndSelect ('library_item.labels', 'labels')]: the entity
    comes back with its [labels] property set. *)
Definition withLabels (d : Db) (r : LibraryItem.t) : Entity.t :=
  {| Entity.row := r;
     Entity.labels := Some (attachedLabels d (LibraryItem.id r)) |}.

(** [.leftJoinAndSelect (...).where (fragment, params).getOne ()]: the
    first row the fragment selects, with the joined labels, [null] when
    there is none. *)
Definition getOne (c : PointCond) (ps : list (string * Value)) (d : Db)
    : option Entity.t :=
  withLabels d <$> List.find (evalPoint (setParameters ps ∅) c) (library_item d).

Definition findLibraryItemById (id : string) (userId : string)
    : M (option Entity.t) :=
  authTrx
    (let* d := getDb in
     ret (getOne (PIdEq "id") [("id", VString id)] d))
    (Some userId).

Definition findLibraryItemByUrl (url : string) (userId : string)
    : M (option Entity.t) :=
  authTrx
    (let* d := getDb in
     ret (getOne (POriginalUrlEq "url") [("url", VString url)] d))
    (Some userId).

(** [createLibraryItems]: [save] of an array.  Which entities stand for
    a row already is looked up in the table as it is before the call;
    those are written over their rows, in place, and the others are
    inserted, in the order of the array.  [generated i] stands for the
    columns the store fills in itself for the [i]-th entity. *)
Definition savedRow (generated : nat -> LibraryItem.t)
    (items : list LibraryItem.t) (i : nat) (entity : Patch) : LibraryItem.t :=
  match existingRow entity items with
  | Some old => applyPatch entity old
  | None => applyPatch entity (generated i)
  end.

Definition insertedRow (generated : nat -> LibraryItem.t)
    (items : list LibraryItem.t) (i : nat) (entity : Patch)
    : option LibraryItem.t :=
  match existingRow entity items with
  | Some _ => None
  | None => Some (applyPatch entity (generated i))
  end.

Definition saveRows (generated : nat -> LibraryItem.t) (entities : list Patch)
    (items : list LibraryItem.t) : list LibraryItem.t * list LibraryItem.t :=
  let updated :=
    foldl (fun acc entity =>
             match existingRow entity items with
             | Some old => updateRows (LibraryItem.id old) entity acc
             | None => acc
             end)
          items entities in
  let inserted := omap (fun x => x) (imap (insertedRow generated items) entities) in
  (updated ++ inserted, imap (savedRow generated items) entities).

(** The ids carried by the entities that are inserted.  The id is the
    primary key: the store rejects an insertion in which one occurs
    twice. *)
Definition insertedIds (entities : list Patch) (items : list LibraryItem.t)
    : list string :=
  omap (fun entity =>
          match existingRow entity items, entity !! "id" with
          | None, Some (VString i) => Some i
          | _, _ => None
          end)
       entities.

Definition repoSaveAll (generated : nat -> LibraryItem.t)
    (entities : list Patch) : M (list LibraryItem.t) :=
  let* d := getDb in
  if decide (NoDup (insertedIds entities (library_item d))) then
    let saved := saveRows generated entities (library_item d) in
    run putDb (withItems d saved.1) in
    ret saved.2
  else throw (QueryFailed "duplicate key value violates unique constraint").

Definition createLibraryItems (generated : nat -> LibraryItem.t)
    (libraryItems : list Patch) (userId : string) : M (list LibraryItem.t) :=
  authTrx (repoSaveAll generated libraryItems) (Some userId).

(** [countByCreatedAt]: [startDate] defaults to [new Date (0)] and
    [endDate] to [new Date ()]. *)
Definition countQuery (now : Z) (startDate endDate : option Z) : QueryBuilder :=
  where_ (CBetween "created_at" "startDate" "endDate")
    [ ("startDate", VDate (default 0%Z startDate));
      ("endDate", VDate (default now endDate)) ]
    createQueryBuilder.

Definition countByCreatedAt (now dbNow : Z) (userId : string)
    (startDate endDate : option Z) : M nat :=
  authTrx
    (let* d := getDb in
     ret (getCount (countQuery now startDate endDate) dbNow (library_item d)))
    (Some userId).

(** [repository.delete (criteria)]: the rows the criteria select are
    removed; the result tells how many.  Cascades of the schema onto
    other tables are not part of this module and are left out. *)
Definition repoDelete (selects : LibraryItem.t -> bool) : M nat :=
  let* d := getDb in
  run putDb (withItems d
               (List.filter (fun r => negb (selects r)) (library_item d))) in
  ret (length (List.filter selects (library_item d))).

Definition deleteLibraryItemById (id : string) (userId : option string)
    : M nat :=
  authTrx (repoDelete (fun r => String.eqb (LibraryItem.id r) id)) userId.

(** An entity as [repository.remove] hands it back: the primary key of
    a removed entity is unset ([detached_id] is its [id] property
    afterwards), its other properties are those of the entity given
    ([detached_from]). *)
Record Detached := {
  detached_id : option string;
  detached_from : LibraryItem.t
}.

Definition unsetId (item : LibraryItem.t) : Detached :=
  {| detached_id := None; detached_from := item |}.

(** [repository.remove (items)]: the rows are removed by the primary key
    of the entities, and the entities are handed back without it. *)
Definition deleteLibraryItems (items : list LibraryItem.t)
    (userId : option string) : M (list Detached) :=
  authTrx
    (run repoDelete
           (fun r =>
              existsb (fun item =>
                         String.eqb (LibraryItem.id r) (LibraryItem.id item))
                      items) in
     ret (map unsetId items))
    userId.

Definition deleteLibraryItemByUrl (url : string) (userId : option string)
    : M nat :=
  authTrx (repoDelete (fun r => String.eqb (LibraryItem.originalUrl r) url))
    userId.

Definition deleteLibraryItemsByUserId (userId : string) : M nat :=
  authTrx (repoDelete (fun r => String.eqb (LibraryItem.userId r) userId))
    (Some userId).

(** The table after a set-wide update of the rows a query selects. *)
Definition bulkRows (qb : QueryBuilder) (dbNow : Z) (values : Patch)
    (table : list LibraryItem.t) : list LibraryItem.t :=
  map (fun r => if matches qb dbNow r then applyPatch values r else r) table.

Definition labelA : Label := {| label_id := "A"; label_name := "a" |}.
Definition labelB : Label := {| label_id := "B"; label_name := "b" |}.

(** A store in which the one item of alice carries label A. *)
Definition aliceWithA : World :=
  {| db := {| library_item := [ mkItem "a1" "alice" "World News" Succeeded 1000 ];
              entity_labels := [ {| labelId := "A"; libraryItemId := "a1" |} ];
              label_table := [labelA; labelB] |};
     outbox := [] |}.

(** A character that [LIKE] reads literally, and a string of such
    characters. *)
Definition plainChar (c : ascii) : bool :=
  negb (Ascii.eqb c "%") && negb (Ascii.eqb c "_") && negb (Ascii.eqb c "\").

Fixpoint plainString (s : string) : bool :=
  match s with
  | EmptyString => true
  | String c s' => plainChar c && plainString s'
  end.

(** Whether a title or site name starts with the prefix, case folded. *)
Definition startsWithFolded (prefix : string) (r : LibraryItem.t) : bool :=
  String.prefix (toLowerCase prefix) (toLowerCase (LibraryItem.title r))
  || match LibraryItem.siteName r with
     | Some s => String.prefix (toLowerCase prefix) (toLowerCase s)
     | None => false
     end.

(** Most recently saved first. *)
Definition savedNotBefore (a b : LibraryItem.t) : Prop :=
  (LibraryItem.savedAt b <= LibraryItem.savedAt a)%Z.

(** More filter specifications that differ from a given one in one field. *)
Definition with_readFilter (v : option ReadFilter) (a : SearchArgs.t) : SearchArgs.t :=
  {| SearchArgs.from := SearchArgs.from a;
     SearchArgs.size := SearchArgs.size a;
     SearchArgs.sort := SearchArgs.sort a;
     SearchArgs.query := SearchArgs.query a;
     SearchArgs.inFilter := SearchArgs.inFilter a;
     SearchArgs.readFilter := v;
     SearchArgs.typeFilter := SearchArgs.typeFilter a;
     SearchArgs.labelFilters := SearchArgs.labelFilters a;
     SearchArgs.hasFilters := SearchArgs.hasFilters a;
     SearchArgs.dateFilters := SearchArgs.dateFilters a;
     SearchArgs.termFilters := SearchArgs.termFilters a;
     SearchArgs.matchFilters := SearchArgs.matchFilters a;
     SearchArgs.includePending := SearchArgs.includePending a;
     SearchArgs.includeDeleted := SearchArgs.includeDeleted a;
     SearchArgs.ids := SearchArgs.ids a;
     SearchArgs.recommendedBy := SearchArgs.recommendedBy a;
     SearchArgs.includeContent := SearchArgs.includeContent a;
     SearchArgs.noFilters := SearchArgs.noFilters a |}.

Definition with_termFilters (v : option (list FieldFilter)) (a : SearchArgs.t) : SearchArgs.t :=
  {| SearchArgs.from := SearchArgs.from a;
     SearchArgs.size := SearchArgs.size a;
     SearchArgs.sort := SearchArgs.sort a;
     SearchArgs.query := SearchArgs.query a;
     SearchArgs.inFilter := SearchArgs.inFilter a;
     SearchArgs.readFilter := SearchArgs.readFilter a;
     SearchArgs.typeFilter := SearchArgs.typeFilter a;
     SearchArgs.labelFilters := SearchArgs.labelFilters a;
     SearchArgs.hasFilters := SearchArgs.hasFilters a;
     SearchArgs.dateFilters := SearchArgs.dateFilters a;
     SearchArgs.termFilters := v;
     SearchArgs.matchFilters := SearchArgs.matchFilters a;
     SearchArgs.includePending := SearchArgs.includePending a;
     SearchArgs.includeDeleted := SearchArgs.includeDeleted a;
     SearchArgs.ids := SearchArgs.ids a;
     SearchArgs.recommendedBy := SearchArgs.recommendedBy a;
     SearchArgs.includeContent := SearchArgs.includeContent a;
     SearchArgs.noFilters := SearchArgs.noFilters a |}.

Definition with_typeFilter (v : option string) (a : SearchArgs.t) : SearchArgs.t :=
  {| SearchArgs.from := SearchArgs.from a;
     SearchArgs.size := SearchArgs.size a;
     SearchArgs.sort := SearchArgs.sort a;
     SearchArgs.query := SearchArgs.query a;
     SearchArgs.inFilter := SearchArgs.inFilter a;
     SearchArgs.readFilter := SearchArgs.readFilter a;
     SearchArgs.typeFilter := v;
     SearchArgs.labelFilters := SearchArgs.labelFilters a;
     SearchArgs.hasFilters := SearchArgs.hasFilters a;
     SearchArgs.dateFilters := SearchArgs.dateFilters a;
     SearchArgs.termFilters := SearchArgs.termFilters a;
     SearchArgs.matchFilters := SearchArgs.matchFilters a;
     SearchArgs.includePending := SearchArgs.includePending a;
     SearchArgs.includeDeleted := SearchArgs.includeDeleted a;
     SearchArgs.ids := SearchArgs.ids a;
     SearchArgs.recommendedBy := SearchArgs.recommendedBy a;
     SearchArgs.includeContent := SearchArgs.includeContent a;
     SearchArgs.noFilters := SearchArgs.noFilters a |}.

Definition with_ids (v : option (list string)) (a : SearchArgs.t) : SearchArgs.t :=
  {| SearchArgs.from := SearchArgs.from a;
     SearchArgs.size := SearchArgs.size a;
     SearchArgs.sort := SearchArgs.sort a;
     SearchArgs.query := SearchArgs.query a;
     SearchArgs.inFilter := SearchArgs.inFilter a;
     SearchArgs.readFilter := SearchArgs.readFilter a;
     SearchArgs.typeFilter := SearchArgs.typeFilter a;
     SearchArgs.labelFilters := SearchArgs.labelFilters a;
     SearchArgs.hasFilters := SearchArgs.hasFilters a;
     SearchArgs.dateFilters := SearchArgs.dateFilters a;
     SearchArgs.termFilters := SearchArgs.termFilters a;
     SearchArgs.matchFilters := SearchArgs.matchFilters a;
     SearchArgs.includePending := SearchArgs.includePending a;
     SearchArgs.includeDeleted := SearchArgs.includeDeleted a;
     SearchArgs.ids := v;
     SearchArgs.recommendedBy := SearchArgs.recommendedBy a;
     SearchArgs.includeContent := SearchArgs.includeContent a;
     SearchArgs.noFilters := SearchArgs.noFilters a |}.

Definition with_recommendedBy (v : option string) (a : SearchArgs.t) : SearchArgs.t :=
  {| SearchArgs.from := SearchArgs.from a;
     SearchArgs.size := SearchArgs.size a;
     SearchArgs.sort := SearchArgs.sort a;
     SearchArgs.query := SearchArgs.query a;
     SearchArgs.inFilter := SearchArgs.inFilter a;
     SearchArgs.readFilter := SearchArgs.readFilter a;
     SearchArgs.typeFilter := SearchArgs.typeFilter a;
     SearchArgs.labelFilters := SearchArgs.labelFilters a;
     SearchArgs.hasFilters := SearchArgs.hasFilters a;
     SearchArgs.dateFilters := SearchArgs.dateFilters a;
     SearchArgs.termFilters := SearchArgs.termFilters a;
     SearchArgs.matchFilters := SearchArgs.matchFilters a;
     SearchArgs.includePending := SearchArgs.includePending a;
     SearchArgs.includeDeleted := SearchArgs.includeDeleted a;
     SearchArgs.ids := SearchArgs.ids a; SearchArgs.recommendedBy := v;
     SearchArgs.includeContent := SearchArgs.includeContent a;
     SearchArgs.noFilters := SearchArgs.noFilters a |}.

Definition with_query (v : option string) (a : SearchArgs.t) : SearchArgs.t :=
  {| SearchArgs.from := SearchArgs.from a;
     SearchArgs.size := SearchArgs.size a;
     SearchArgs.sort := SearchArgs.sort a; SearchArgs.query := v;
     SearchArgs.inFilter := SearchArgs.inFilter a;
     SearchArgs.readFilter := SearchArgs.readFilter a;
     SearchArgs.typeFilter := SearchArgs.typeFilter a;
     SearchArgs.labelFilters := SearchArgs.labelFilters a;
     SearchArgs.hasFilters := SearchArgs.hasFilters a;
     SearchArgs.dateFilters := SearchArgs.dateFilters a;
     SearchArgs.termFilters := SearchArgs.termFilters a;
     SearchArgs.matchFilters := SearchArgs.matchFilters a;
     SearchArgs.includePending := SearchArgs.includePending a;
     SearchArgs.includeDeleted := SearchArgs.includeDeleted a;
     SearchArgs.ids := SearchArgs.ids a;
     SearchArgs.recommendedBy := SearchArgs.recommendedBy a;
     SearchArgs.includeContent := SearchArgs.includeContent a;
     SearchArgs.noFilters := SearchArgs.noFilters a |}.

Definition with_hasFilters (v : option (list HasFilter)) (a : SearchArgs.t) : SearchArgs.t :=
  {| SearchArgs.from := SearchArgs.from a;
     SearchArgs.size := SearchArgs.size a;
     SearchArgs.sort := SearchArgs.sort a;
     SearchArgs.query := SearchArgs.query a;
     SearchArgs.inFilter := SearchArgs.inFilter a;
     SearchArgs.readFilter := SearchArgs.readFilter a;
     SearchArgs.typeFilter := SearchArgs.typeFilter a;
     SearchArgs.labelFilters := SearchArgs.labelFilters a;
     SearchArgs.hasFilters := v;
     SearchArgs.dateFilters := SearchArgs.dateFilters a;
     SearchArgs.termFilters := SearchArgs.termFilters a;
     SearchArgs.matchFilters := SearchArgs.matchFilters a;
     SearchArgs.includePending := SearchArgs.includePending a;
     SearchArgs.includeDeleted := SearchArgs.includeDeleted a;
     SearchArgs.ids := SearchArgs.ids a;
     SearchArgs.recommendedBy := SearchArgs.recommendedBy a;
     SearchArgs.includeContent := SearchArgs.includeContent a;
     SearchArgs.noFilters := SearchArgs.noFilters a |}.

(** The predicates of [buildWhereClause], read with the parameters the
    query runs with when the builder starts from the parameters [m0]. *)
Definition selectedBy (now : Z) (args : SearchArgs.t)
    (m0 : gmap string Value) (dbNow : Z) (r : LibraryItem.t) : bool :=
  forallb
    (evalCond
       (setParameters (flat_map bindings (buildWhereClauseCalls now args)) m0)
       dbNow r)
    (flat_map addedCond (buildWhereClauseCalls now args)).

(** A single date filter on the save time with neither start nor end. *)
Definition openDateFilter : DateFilter :=
  {| df_field := "saved_at"; df_startDate := None; df_endDate := None |}.

(** An item of alice recommended by the given users. *)
Definition recommendedItem (id : string) (recommenders : list string)
    : LibraryItem.t :=
  {| LibraryItem.id := id; LibraryItem.userId := "alice";
     LibraryItem.title := "Recommended"; LibraryItem.siteName := None;
     LibraryItem.originalUrl := "https://example.com/" +:+ id;
     LibraryItem.itemType := "ARTICLE"; LibraryItem.state := Succeeded;
     LibraryItem.savedAt := 1000; LibraryItem.createdAt := 1000;
     LibraryItem.archivedAt := None; LibraryItem.deletedAt := None;
     LibraryItem.readAt := None;
     LibraryItem.readingProgressTopPercent := 0;
     LibraryItem.readingProgressBottomPercent := 0;
     LibraryItem.wordCount := None; LibraryItem.subscription := None;
     LibraryItem.labelNames := []; LibraryItem.highlightLabels := [];
     LibraryItem.highlightAnnotations := [];
     LibraryItem.recommenderNames := recommenders;
     LibraryItem.tsvMatch := fun _ _ => false;
     LibraryItem.tsRank := fun _ => 0%Z |}.

(** Higher rank for the query first. *)
Definition rankedNotBelow (q : string) (a b : LibraryItem.t) : Prop :=
  (LibraryItem.tsRank b q <= LibraryItem.tsRank a q)%Z.

(** An item of alice that matches every text query with the given rank. *)
Definition rankedItem (id : string) (rank savedAt : Z) : LibraryItem.t :=
  {| LibraryItem.id := id; LibraryItem.userId := "alice";
     LibraryItem.title := "Ranked"; LibraryItem.siteName := None;
     LibraryItem.originalUrl := "https://example.com/" +:+ id;
     LibraryItem.itemType := "ARTICLE"; LibraryItem.state := Succeeded;
     LibraryItem.savedAt := savedAt; LibraryItem.createdAt := savedAt;
     LibraryItem.archivedAt := None; LibraryItem.deletedAt := None;
     LibraryItem.readAt := None;
     LibraryItem.readingProgressTopPercent := 0;
     LibraryItem.readingProgressBottomPercent := 0;
     LibraryItem.wordCount := None; LibraryItem.subscription := None;
     LibraryItem.labelNames := []; LibraryItem.highlightLabels := [];
     LibraryItem.highlightAnnotations := [];
     LibraryItem.recommenderNames := [];
     LibraryItem.tsvMatch := fun _ _ => true;
     LibraryItem.tsRank := fun _ => rank |}.



(** The filter specification carries no free-text query: the field is
    absent or the empty string, which [if (args.query)] skips. *)
Definition noTextQuery (args : SearchArgs.t) : Prop :=
  SearchArgs.query args = None \/ SearchArgs.query args = Some "".

(* ===================================================================== *)
(** * Properties *)
(* ===================================================================== *)

(** ** The builder after a sequence of calls *)

Lemma wheres_foldl_call (cs : list Call) (qb : QueryBuilder) :
  wheres (foldl call qb cs)
  = wheres qb ++ map (fun c => (WAnd, c)) (flat_map addedCond cs).
Proof.
  revert qb. induction cs as [|c cs IH]; intros qb; simpl.
  - by rewrite app_nil_r.
  - rewrite IH. destruct c; simpl; try done.
    by rewrite <- app_assoc.
Qed.

Lemma setParameters_app (ps1 ps2 : list (string * Value)) (m : gmap string Value) :
  setParameters (ps1 ++ ps2) m = setParameters ps2 (setParameters ps1 m).
Proof. unfold setParameters. apply foldl_app. Qed.

Lemma parameters_foldl_call (cs : list Call) (qb : QueryBuilder) :
  parameters (foldl call qb cs)
  = setParameters (flat_map bindings cs) (parameters qb).
Proof.
  revert qb. induction cs as [|c cs IH]; intros qb; simpl; [done|].
  rewrite IH, setParameters_app. by destruct c.
Qed.

Lemma setParameters_notin (ps : list (string * Value)) (m : gmap string Value)
    (k : string) :
  k ∉ ps.*1 -> setParameters ps m !! k = m !! k.
Proof.
  revert m. induction ps as [|[k' v] ps IH]; intros m Hk; simpl; [done|].
  simpl in Hk. apply not_elem_of_cons in Hk as [Hne Hk].
  unfold setParameters in *. simpl. rewrite IH by done.
  by rewrite lookup_insert_ne.
Qed.

(** The last binding of a name is the one the query runs with. *)
Lemma setParameters_last (ps1 ps2 : list (string * Value))
    (m : gmap string Value) (k : string) (v : Value) :
  k ∉ ps2.*1 -> setParameters (ps1 ++ (k, v) :: ps2) m !! k = Some v.
Proof.
  intros Hk. rewrite setParameters_app.
  change ((k, v) :: ps2) with ([(k, v)] ++ ps2).
  rewrite setParameters_app, setParameters_notin by done.
  unfold setParameters. simpl. apply lookup_insert_eq.
Qed.

(** ** Conjunctive WHERE lists *)

Lemma evalWheres_and ps dbNow r (cs : list Cond) (acc : bool) :
  evalWheres ps dbNow r acc (map (fun c => (WAnd, c)) cs)
  = acc && forallb (evalCond ps dbNow r) cs.
Proof.
  revert acc. induction cs as [|c cs IH]; intros acc; simpl.
  - by rewrite andb_true_r.
  - rewrite IH. by rewrite andb_assoc.
Qed.

Lemma evalWhereList_and ps dbNow r (cs : list Cond) :
  evalWhereList ps dbNow r (map (fun c => (WAnd, c)) cs)
  = forallb (evalCond ps dbNow r) cs.
Proof.
  destruct cs as [|c cs]; simpl; [done|]. apply evalWheres_and.
Qed.

Lemma evalWhereList_simple_and ps dbNow r (c0 : Cond) (cs : list Cond) :
  evalWhereList ps dbNow r ((WSimple, c0) :: map (fun c => (WAnd, c)) cs)
  = evalCond ps dbNow r c0 && forallb (evalCond ps dbNow r) cs.
Proof. simpl. apply evalWheres_and. Qed.

(** A row selected by the query that [buildWhereClause] builds on a
    fresh builder satisfies every predicate added, each read with the
    final parameter map. *)
Lemma matches_buildWhereClause now args dbNow r :
  matches (buildWhereClause now args createQueryBuilder) dbNow r
  = forallb
      (evalCond
         (setParameters (flat_map bindings (buildWhereClauseCalls now args)) ∅)
         dbNow r)
      (flat_map addedCond (buildWhereClauseCalls now args)).
Proof.
  unfold matches, buildWhereClause.
  rewrite wheres_foldl_call, parameters_foldl_call. simpl.
  apply evalWhereList_and.
Qed.

(** ** Parameter names *)

Lemma append_nil (b : string) : "" +:+ b = b.
Proof. reflexivity. Qed.

Lemma append_cons (c : ascii) (a b : string) :
  String c a +:+ b = String c (a +:+ b).
Proof. reflexivity. Qed.

Ltac unfold_append :=
  repeat (rewrite append_cons in * || rewrite append_nil in * ).

Lemma append_endsWith (f suffix t : string) :
  f +:+ suffix = t -> endsWith suffix t = true.
Proof.
  intros <-. induction f as [|c f IH]; unfold_append.
  - destruct suffix; simpl; [done|].
    by rewrite Ascii.eqb_refl, String.eqb_refl.
  - simpl. rewrite IH. apply orb_true_r.
Qed.

Lemma lastChar_append (a b : string) :
  b <> "" -> lastChar (a +:+ b) = lastChar b.
Proof.
  intros Hb. induction a as [|c a IH]; unfold_append; [done|].
  simpl. rewrite IH. destruct (a +:+ b) eqn:E; [|done].
  destruct a; unfold_append; [congruence|discriminate].
Qed.


Lemma pretty_N_char_digit (x : N) : isDigit (pretty_N_char x).
Proof.
  unfold pretty_N_char, isDigit.
  repeat case_match; compute; lia.
Qed.

Lemma pretty_N_go_suffix (x : N) (s : string) :
  exists d, pretty_N_go x s = d +:+ s.
Proof.
  revert s. induction (N.lt_wf_0 x) as [x _ IH]; intros s.
  destruct (decide (x = 0)%N) as [->|Hx].
  - exists "". by rewrite pretty_N_go_0.
  - rewrite pretty_N_go_step by lia.
    destruct (IH (x `div` 10)%N) with
      (s := String (pretty_N_char (x `mod` 10)) s) as [d Hd].
    { apply N.div_lt; lia. }
    exists (d +:+ String (pretty_N_char (x `mod` 10)) "").
    rewrite Hd. clear. induction d as [|c d IHd]; unfold_append; [done|].
    by rewrite IHd.
Qed.

Lemma pretty_nat_lastChar (i : nat) :
  exists c, lastChar (pretty i) = Some c /\ isDigit c.
Proof.
  unfold pretty, pretty_nat, pretty, pretty_N.
  case_decide as Hi.
  - exists "0"%char. split; [done|]. compute. lia.
  - rewrite pretty_N_go_step by lia.
    destruct (pretty_N_go_suffix (N.of_nat i `div` 10)
                (String (pretty_N_char (N.of_nat i `mod` 10)) "")) as [d ->].
    eexists. split; [by rewrite lastChar_append|].
    apply pretty_N_char_digit.
Qed.

Lemma includeLabelParam_lastChar (i : nat) :
  exists c, lastChar (includeLabelParam i) = Some c /\ isDigit c.
Proof.
  destruct (pretty_nat_lastChar i) as (c & Hc & Hd).
  exists c. split; [|done].
  unfold includeLabelParam. rewrite lastChar_append; [done|].
  intros E. rewrite E in Hc. discriminate.
Qed.

Lemma includeLabelParam_inj (i j : nat) :
  includeLabelParam i = includeLabelParam j -> i = j.
Proof.
  unfold includeLabelParam. intros H.
  apply (inj pretty). unfold_append. congruence.
Qed.


Lemma elem_of_flat_map_boundNames (cs : list Call) (k : string) :
  k ∈ flat_map boundNames cs <-> exists c, c ∈ cs /\ k ∈ boundNames c.
Proof.
  rewrite list_elem_of_In, in_flat_map. split.
  - intros (c & Hc & Hk). exists c. by rewrite !list_elem_of_In.
  - intros (c & Hc & Hk). exists c. by rewrite <- !list_elem_of_In.
Qed.

Lemma fmap_fst_flat_map_bindings (cs : list Call) :
  (flat_map bindings cs).*1 = flat_map boundNames cs.
Proof.
  induction cs as [|c cs IH]; simpl; [done|].
  by rewrite fmap_app, IH.
Qed.

(** Names bound by the label filters, and by the filters that run after
    them. *)
Lemma labelFilterCalls_names args k :
  k ∈ flat_map boundNames (labelFilterCalls args) ->
  (exists i, k = includeLabelParam i) \/ k = "excludeLabels".
Proof.
  unfold labelFilterCalls. rewrite flat_map_app, elem_of_app.
  intros [H|H].
  - left. apply elem_of_flat_map_boundNames in H as (c & Hc & Hk).
    unfold includeLabelCalls in Hc.
    apply elem_of_lookup_imap in Hc as (i & e & -> & _).
    exists i. simpl in Hk. by apply list_elem_of_singleton in Hk.
  - right. unfold excludeLabelCalls in H.
    destruct (List.filter isExclude _); simpl in H; [by apply elem_of_nil in H|].
    by apply list_elem_of_singleton in H.
Qed.

Lemma dateFilterCalls_names now args k :
  k ∈ flat_map boundNames (dateFilterCalls now args) ->
  exists f, k = f +:+ "_start" \/ k = f +:+ "_end".
Proof.
  intros H. apply elem_of_flat_map_boundNames in H as (c & Hc & Hk).
  unfold dateFilterCalls in Hc. apply list_elem_of_fmap in Hc as (f & -> & _).
  exists (df_field f). simpl in Hk.
  apply elem_of_cons in Hk as [->|Hk]; [by left|].
  apply list_elem_of_singleton in Hk as ->. by right.
Qed.

Lemma termFilterCalls_names args k :
  k ∈ flat_map boundNames (termFilterCalls args) ->
  exists f, k = "term_" +:+ f.
Proof.
  intros H. apply elem_of_flat_map_boundNames in H as (c & Hc & Hk).
  unfold termFilterCalls in Hc. apply list_elem_of_fmap in Hc as (f & -> & _).
  exists (ff_field f). simpl in Hk. by apply list_elem_of_singleton in Hk.
Qed.

Lemma matchFilterCalls_names args k :
  k ∈ flat_map boundNames (matchFilterCalls args) ->
  exists f, k = "match_" +:+ f.
Proof.
  intros H. apply elem_of_flat_map_boundNames in H as (c & Hc & Hk).
  unfold matchFilterCalls in Hc. apply list_elem_of_fmap in Hc as (f & -> & _).
  exists (ff_field f). simpl in Hk. by apply list_elem_of_singleton in Hk.
Qed.


Lemma laterCalls_names now args k :
  k ∈ flat_map boundNames (laterCalls now args) -> LaterName k.
Proof.
  unfold laterCalls. rewrite !flat_map_app, !elem_of_app.
  intros [H|[H|[H|[H|[H|[H|[H|H]]]]]]].
  - apply dateFilterCalls_names in H as (f & [->| ->]); auto.
  - apply termFilterCalls_names in H as (f & ->); auto.
  - apply matchFilterCalls_names in H as (f & ->); auto.
  - unfold idsCalls in H. destruct (SearchArgs.ids args) as [[|? ?]|];
      simpl in H; try by apply elem_of_nil in H.
    apply list_elem_of_singleton in H as ->. auto.
  - unfold includePendingCalls in H.
    destruct (SearchArgs.includePending args) as [[|]|];
      simpl in H; try (by apply elem_of_nil in H);
      apply list_elem_of_singleton in H as ->; auto.
  - unfold includeDeletedCalls in H.
    destruct (SearchArgs.includeDeleted args) as [[|]|],
      (SearchArgs.inFilter args) as [[]|];
      simpl in H; try (by apply elem_of_nil in H);
      apply list_elem_of_singleton in H as ->; auto.
  - apply elem_of_flat_map_boundNames in H as (c & Hc & Hk).
    unfold noFilterCalls in Hc. apply list_elem_of_fmap in Hc as (f & -> & _).
    by apply elem_of_nil in Hk.
  - unfold recommendedByCalls in H.
    destruct (SearchArgs.recommendedBy args) as [[|c s]|];
      [by apply elem_of_nil in H| |by apply elem_of_nil in H].
    destruct (String.eqb (String c s) "*");
      [by apply elem_of_nil in H|].
    apply list_elem_of_singleton in H as ->. auto.
Qed.

Lemma earlierCalls_names args k :
  k ∈ flat_map boundNames
        (queryCalls args ++ typeFilterCalls args ++ inFilterCalls args
           ++ readFilterCalls args ++ hasFilterCalls args) ->
  BoundName k.
Proof.
  rewrite !flat_map_app, !elem_of_app.
  intros [H|[H|[H|[H|H]]]].
  - unfold queryCalls in H. destruct (SearchArgs.query args) as [[|c s]|];
      simpl in H; try by apply elem_of_nil in H.
    apply list_elem_of_singleton in H as ->. auto.
  - unfold typeFilterCalls in H.
    destruct (SearchArgs.typeFilter args) as [[|c s]|];
      simpl in H; try by apply elem_of_nil in H.
    apply list_elem_of_singleton in H as ->. auto.
  - unfold inFilterCalls in H.
    destruct (SearchArgs.inFilter args) as [[]|];
      simpl in H; by apply elem_of_nil in H.
  - unfold readFilterCalls in H.
    destruct (SearchArgs.readFilter args) as [[]|];
      simpl in H; by apply elem_of_nil in H.
  - apply elem_of_flat_map_boundNames in H as (c & Hc & Hk).
    unfold hasFilterCalls in Hc. apply list_elem_of_fmap in Hc as (f & -> & _).
    destruct f; by apply elem_of_nil in Hk.
Qed.

Lemma buildWhereClauseCalls_split now args :
  buildWhereClauseCalls now args
  = (queryCalls args ++ typeFilterCalls args ++ inFilterCalls args
       ++ readFilterCalls args ++ hasFilterCalls args)
    ++ labelFilterCalls args ++ laterCalls now args.
Proof.
  unfold buildWhereClauseCalls, laterCalls. by rewrite <- !app_assoc.
Qed.

(** Every name [buildWhereClause] binds has one of the listed shapes. *)
Lemma buildWhereClauseCalls_names now args k :
  k ∈ flat_map boundNames (buildWhereClauseCalls now args) -> BoundName k.
Proof.
  rewrite buildWhereClauseCalls_split. intros H.
  rewrite flat_map_app in H. apply elem_of_app in H as [H|H].
  { by apply earlierCalls_names in H. }
  rewrite flat_map_app in H. apply elem_of_app in H as [H|H].
  - apply labelFilterCalls_names in H as [[i ->]| ->]; auto.
  - apply laterCalls_names in H. by destruct H.
Qed.

(** [userId] is none of them. *)
Lemma userId_not_bound : ~ BoundName "userId".
Proof.
  intros H. inversion H as
    [ | |i Hi| |f Hf|f Hf|f Hf|f Hf| | | ];
    unfold includeLabelParam in *; unfold_append; try discriminate.
  - apply append_endsWith in Hf. discriminate.
  - apply append_endsWith in Hf. discriminate.
Qed.

(** ** Ordering and pagination keep to the selected rows *)

Lemma elem_of_insertRow ps obs (x y : LibraryItem.t) (l : list LibraryItem.t) :
  y ∈ insertRow ps obs x l <-> y = x \/ y ∈ l.
Proof.
  induction l as [|z l IH]; simpl.
  - rewrite list_elem_of_singleton, elem_of_nil. tauto.
  - destruct (compareRows ps obs x z); rewrite !elem_of_cons;
      try rewrite IH; tauto.
Qed.

Lemma elem_of_sortRows ps obs (y : LibraryItem.t) (l : list LibraryItem.t) :
  y ∈ sortRows ps obs l <-> y ∈ l.
Proof.
  unfold sortRows. induction l as [|x l IH]; simpl; [done|].
  rewrite elem_of_insertRow, IH, elem_of_cons. tauto.
Qed.

Lemma length_insertRow ps obs (x : LibraryItem.t) (l : list LibraryItem.t) :
  length (insertRow ps obs x l) = S (length l).
Proof.
  induction l as [|z l IH]; simpl; [done|].
  destruct (compareRows ps obs x z); simpl; by rewrite ?IH.
Qed.

Lemma length_sortRows ps obs (l : list LibraryItem.t) :
  length (sortRows ps obs l) = length l.
Proof.
  unfold sortRows. induction l as [|x l IH]; simpl; [done|].
  by rewrite length_insertRow, IH.
Qed.

Lemma elem_of_paginate {A} (offset limit : option nat) (l : list A) (x : A) :
  x ∈ paginate offset limit l -> x ∈ l.
Proof.
  unfold paginate. intros H.
  assert (x ∈ match offset with Some n => skipn n l | None => l end) as H'.
  { destruct limit as [n|]; [|done]. by apply (subseteq_take n _). }
  destruct offset as [n|]; [|done]. by apply (subseteq_drop n l).
Qed.

Lemma elem_of_getMany qb dbNow table (r : LibraryItem.t) :
  r ∈ getMany qb dbNow table -> r ∈ table /\ matches qb dbNow r = true.
Proof.
  unfold getMany, selected. intros H.
  apply elem_of_paginate, elem_of_sortRows in H.
  rewrite list_elem_of_In in *. by apply filter_In in H.
Qed.

(** ** [searchLibraryItems] *)

(** The builder [searchLibraryItems] runs: the search query with the
    ordering and the page added. *)
Lemma searchLibraryItems_run now dbNow args userId (w : World) :
  searchLibraryItems now dbNow args userId w
  = (w, Ok (getMany
              (take (pageSize args)
                 (skip (pageFrom args)
                    (addOrderBy (KColumn (sortField args)) (sortOrder args)
                       true (searchQuery now args userId))))
              dbNow (library_item (db w)),
            length (selected (searchQuery now args userId) dbNow
                      (library_item (db w))))).
Proof. by destruct w. Qed.

Lemma searchQuery_userId now args userId :
  parameters (searchQuery now args userId) !! "userId"
  = Some (VString userId).
Proof.
  unfold searchQuery, buildWhereClause. rewrite parameters_foldl_call.
  rewrite setParameters_notin; [done|].
  rewrite fmap_fst_flat_map_bindings. intros H.
  apply buildWhereClauseCalls_names in H. by apply userId_not_bound.
Qed.

(** The search query is the ownership predicate in conjunction with the
    predicates of [buildWhereClause]. *)
Lemma matches_searchQuery now args userId dbNow r :
  matches (searchQuery now args userId) dbNow r
  = String.eqb (LibraryItem.userId r) userId
    && forallb (evalCond (parameters (searchQuery now args userId)) dbNow r)
         (flat_map addedCond (buildWhereClauseCalls now args)).
Proof.
  unfold matches. 
  pose proof (searchQuery_userId now args userId) as Hu.
  unfold searchQuery, buildWhereClause in *.
  rewrite wheres_foldl_call. simpl wheres.
  change ([(WSimple, CUserIdEq "userId")] ++ ?l)
    with ((WSimple, CUserIdEq "userId") :: l).
  rewrite evalWhereList_simple_and. f_equal.
  simpl. by rewrite Hu.
Qed.


(** ** Single-item mutations *)

Lemma updateLibraryItem_run now id patch userId pubsub (w : World) e :
  findRow id (updateRows id (resetTimestamps now patch) (library_item (db w)))
  = Some e ->
  updateLibraryItem now id patch userId pubsub w
  = ({| db := withItems (db w)
                (updateRows id (resetTimestamps now patch)
                   (library_item (db w)));
        outbox := outbox w
                  ++ [EntityUpdated PAGE
                        (<["id" := VString id]> (resetTimestamps now patch))
                        userId] |},
     afterNotification pubsub
       (EntityUpdated PAGE
          (<["id" := VString id]> (resetTimestamps now patch)) userId) e).
Proof.
  intros H. destruct w as [d o].
  unfold updateLibraryItem, bind, authTrx, repoUpdate, findOneByOrFail, bind,
    getDb, putDb, entityUpdated, publish, afterNotification, ret. simpl in *.
  rewrite H. simpl. by destruct (rejects pubsub _).
Qed.

(** When the re-fetch finds no row the transaction is rolled back and
    nothing is published. *)
Lemma updateLibraryItem_not_found now id patch userId pubsub (w : World) :
  findRow id (updateRows id (resetTimestamps now patch) (library_item (db w)))
  = None ->
  updateLibraryItem now id patch userId pubsub w = (w, Throw EntityNotFound).
Proof.
  intros H. destruct w as [d o].
  unfold updateLibraryItem, bind, authTrx, repoUpdate, findOneByOrFail, bind,
    getDb, putDb, throw. simpl in *.
  by rewrite H.
Qed.

Lemma createLibraryItem_run generated libraryItem userId pubsub (w : World) :
  let saved :=
    saveRow generated (withWordCount libraryItem) (library_item (db w)) in
  createLibraryItem generated libraryItem userId pubsub w
  = ({| db := withItems (db w) saved.1;
        outbox := outbox w ++ [EntityCreated PAGE saved.2 userId] |},
     afterNotification pubsub (EntityCreated PAGE saved.2 userId) saved.2).
Proof.
  destruct w as [d o].
  unfold createLibraryItem, bind, authTrx, repoSave, bind, getDb, putDb,
    entityCreated, publish, afterNotification, ret. simpl.
  by destruct (rejects pubsub _).
Qed.

(** An entity that stands for no row of the table is appended. *)
Lemma saveRow_fresh generated (entity : Patch) (items : list LibraryItem.t) :
  existingRow entity items = None ->
  saveRow generated entity items
  = (items ++ [applyPatch entity generated], applyPatch entity generated).
Proof. unfold saveRow. by intros ->. Qed.

(** An entity that stands for a row is written over it, in place. *)
Lemma saveRow_existing generated (entity : Patch) (items : list LibraryItem.t)
    old :
  existingRow entity items = Some old ->
  saveRow generated entity items
  = (updateRows (LibraryItem.id old) entity items, applyPatch entity old).
Proof. unfold saveRow. by intros ->. Qed.

(** C2, the claim as stated fails: with a pub-sub client that rejects,
    updating item [a1] to Archived rejects with the client's error
    instead of returning the entity, although the row is archived in the
    store. *)
Lemma C2_counterexample :
  let out := updateLibraryItem 5000 "a1" {[ "state" := VState Archived ]}
               "alice" failingPubsub twoUsers in
  out.2 = Throw (PubSubError "pubsub unavailable")
  /\ ~ (exists entity, out.2 = Ok entity)
  /\ ownersAndStates out.1
     = [ ("a1", "alice", Archived, Some 5000%Z);
         ("b1", "bob", Succeeded, None) ].
Proof.
  split; [by vm_compute|]. split; [|by vm_compute].
  intros [entity H]. vm_compute in H. discriminate.
Qed.

(** C2 (amended).  For the three mutations, once the transaction has
    committed, a failure of the notification does not undo it: the table
    holds the written rows whatever the pub-sub client does.  The
    outcome, however, is that of the awaited notification
    ([afterNotification]): the persisted entity when the client
    resolves, the client's error when it rejects.  The rows
    [createLibraryItem] writes are those of [save]: the table with the
    new row appended when the entity stands for no row yet. *)
Theorem C2_notification_failure_is_propagated
    now id patch userId generated newItem pubsub (w : World) e1 e2 :
  findRow id (updateRows id (resetTimestamps now patch) (library_item (db w)))
  = Some e1 ->
  findRow id (updateRows id (resetTimestamps now (restorePatch now))
                (library_item (db w)))
  = Some e2 ->
  let upd := updateLibraryItem now id patch userId pubsub w in
  let res := restoreLibraryItem now id userId pubsub w in
  let cre := createLibraryItem generated newItem userId pubsub w in
  let created := applyPatch (withWordCount newItem) generated in
  let saved :=
    saveRow generated (withWordCount newItem) (library_item (db w)) in
  (library_item (db upd.1)
   = updateRows id (resetTimestamps now patch) (library_item (db w))
   /\ upd.2 = afterNotification pubsub
                (EntityUpdated PAGE
                   (<["id" := VString id]> (resetTimestamps now patch)) userId)
                e1)
  /\ (library_item (db res.1)
      = updateRows id (resetTimestamps now (restorePatch now))
          (library_item (db w))
      /\ res.2 = afterNotification pubsub
                   (EntityUpdated PAGE
                      (<["id" := VString id]>
                         (resetTimestamps now (restorePatch now))) userId)
                   e2)
  /\ (library_item (db cre.1) = saved.1
      /\ cre.2 = afterNotification pubsub
                   (EntityCreated PAGE saved.2 userId) saved.2
      /\ (existingRow (withWordCount newItem) (library_item (db w)) = None ->
          library_item (db cre.1) = library_item (db w) ++ [created]
          /\ cre.2 = afterNotification pubsub
                       (EntityCreated PAGE created userId) created)).
Proof.
  intros H1 H2. simpl. unfold restoreLibraryItem.
  rewrite (updateLibraryItem_run _ _ _ _ _ _ _ H1),
    (updateLibraryItem_run _ _ _ _ _ _ _ H2),
    createLibraryItem_run.
  split; [done|]. split; [done|]. split; [done|]. split; [done|].
  intros Hfresh. simpl. by rewrite (saveRow_fresh _ _ _ Hfresh).
Qed.

Lemma C2_witness :
  let w := twoUsers in
  let patch : Patch := {[ "state" := VState Archived ]} in
  let generated := mkItem "c1" "alice" "" Processing 5000 in
  let newItem : Patch := {[ "title" := VString "Fresh" ]} in
  let upd := updateLibraryItem 5000 "a1" patch "alice" failingPubsub w in
  let res := restoreLibraryItem 5000 "a1" "alice" failingPubsub w in
  let cre := createLibraryItem generated newItem "alice" failingPubsub w in
  upd.2 = Throw (PubSubError "pubsub unavailable")
  /\ res.2 = Throw (PubSubError "pubsub unavailable")
  /\ cre.2 = Throw (PubSubError "pubsub unavailable")
  /\ length (library_item (db cre.1)) = 3.
Proof.
  intros w patch generated newItem upd res cre.
  destruct (C2_notification_failure_is_propagated 5000 "a1" patch "alice"
              generated newItem failingPubsub w
              (applyPatch (resetTimestamps 5000 patch)
                 (mkItem "a1" "alice" "World News" Succeeded 1000))
              (applyPatch (resetTimestamps 5000 (restorePatch 5000))
                 (mkItem "a1" "alice" "World News" Succeeded 1000))
              eq_refl eq_refl)
    as ((_ & Hu) & (_ & Hr) & (_ & _ & Hc)).
  destruct (Hc eq_refl) as [Hc1 Hc2].
  split; [exact Hu|]. split; [exact Hr|]. split; [exact Hc2|].
  subst cre. rewrite Hc1. reflexivity.
Defined.

Lemma findRow_updateRows id (p : Patch) (items : list LibraryItem.t) e :
  findRow id (updateRows id p items) = Some e ->
  exists r0, r0 ∈ items /\ LibraryItem.id r0 = id /\ e = applyPatch p r0.
Proof.
  unfold findRow, updateRows.
  induction items as [|r items IH]; simpl; [done|].
  destruct (String.eqb (LibraryItem.id r) id) eqn:Er.
  - destruct (String.eqb (LibraryItem.id (applyPatch p r)) id) eqn:Ep.
    + intros [= <-]. exists r. split; [left|]. by apply String.eqb_eq in Er.
    + intros H. destruct (IH H) as (r0 & ? & ? & ?).
      exists r0. split; [by right|done].
  - rewrite Er. intros H. destruct (IH H) as (r0 & ? & ? & ?).
    exists r0. split; [by right|done].
Qed.

(** What the switch on [libraryItem.state] writes into the patch. *)
Lemma resetTimestamps_Archived now (patch : Patch) :
  patch !! "state" = Some (VState Archived) ->
  resetTimestamps now patch = <["archivedAt" := VDate now]> patch.
Proof. unfold resetTimestamps. by intros ->. Qed.

Lemma resetTimestamps_Deleted now (patch : Patch) :
  patch !! "state" = Some (VState Deleted) ->
  resetTimestamps now patch = <["deletedAt" := VDate now]> patch.
Proof. unfold resetTimestamps. by intros ->. Qed.

Lemma resetTimestamps_active now (patch : Patch) :
  patch !! "state" = Some (VState Processing)
  \/ patch !! "state" = Some (VState Succeeded) ->
  resetTimestamps now patch
  = <["deletedAt" := VNull]> (<["archivedAt" := VNull]> patch).
Proof. unfold resetTimestamps. by intros [-> | ->]. Qed.

Lemma resetTimestamps_no_state now (patch : Patch) :
  patch !! "state" = None -> resetTimestamps now patch = patch.
Proof. unfold resetTimestamps. by intros ->. Qed.

(** C7.  Whenever [updateLibraryItem] finds the row again after the
    write, the table holds the rows patched with the caller's patch as
    completed by the switch on its state, the re-fetched entity [e] is
    such a row, and: with state Archived, archivedAt is the current time
    and deletedAt is what the caller's patch alone gives (the switch
    does not touch it); with state Deleted, deletedAt is the current
    time; with state Processing or Succeeded both are null, whatever
    they were before; with no state field the patch is written as the
    caller gave it. *)
Theorem C7_state_derives_timestamps
    now id (patch : Patch) userId pubsub (w : World) e :
  findRow id (updateRows id (resetTimestamps now patch) (library_item (db w)))
  = Some e ->
  let out := updateLibraryItem now id patch userId pubsub w in
  exists r0,
    r0 ∈ library_item (db w) /\ LibraryItem.id r0 = id
    /\ library_item (db out.1)
       = updateRows id (resetTimestamps now patch) (library_item (db w))
    /\ e = applyPatch (resetTimestamps now patch) r0
    /\ (patch !! "state" = Some (VState Archived) ->
        LibraryItem.archivedAt e = Some now
        /\ resetTimestamps now patch !! "deletedAt" = patch !! "deletedAt"
        /\ LibraryItem.deletedAt e = LibraryItem.deletedAt (applyPatch patch r0))
    /\ (patch !! "state" = Some (VState Deleted) ->
        LibraryItem.deletedAt e = Some now
        /\ resetTimestamps now patch !! "archivedAt" = patch !! "archivedAt"
        /\ LibraryItem.archivedAt e
           = LibraryItem.archivedAt (applyPatch patch r0))
    /\ (patch !! "state" = Some (VState Processing)
        \/ patch !! "state" = Some (VState Succeeded) ->
        resetTimestamps now patch !! "archivedAt" = Some VNull
        /\ resetTimestamps now patch !! "deletedAt" = Some VNull
        /\ LibraryItem.archivedAt e = None
        /\ LibraryItem.deletedAt e = None)
    /\ (patch !! "state" = None -> resetTimestamps now patch = patch).
Proof.
  intros Hfind out.
  destruct (findRow_updateRows _ _ _ _ Hfind) as (r0 & Hin & Hid & He).
  exists r0. split; [done|]. split; [done|].
  split. { subst out. by rewrite (updateLibraryItem_run _ _ _ _ _ _ _ Hfind). }
  split; [done|]. subst e.
  split; [|split; [|split]].
  - intros Hs. rewrite (resetTimestamps_Archived _ _ Hs).
    simpl. unfold patchOptDate.
    rewrite lookup_insert_eq, lookup_insert_ne by done. done.
  - intros Hs. rewrite (resetTimestamps_Deleted _ _ Hs).
    simpl. unfold patchOptDate.
    rewrite lookup_insert_eq, lookup_insert_ne by done. done.
  - intros Hs. rewrite (resetTimestamps_active _ _ Hs).
    simpl. unfold patchOptDate.
    rewrite lookup_insert_eq, lookup_insert_ne, lookup_insert_eq by done.
    done.
  - apply resetTimestamps_no_state.
Qed.

Lemma C7_witness :
  let w := worldOf [trashedItem] in
  let out := updateLibraryItem 5000 "t1" {[ "state" := VState Succeeded ]}
               "alice" workingPubsub w in
  exists r0,
    r0 ∈ library_item (db w)
    /\ LibraryItem.archivedAt r0 = Some 800%Z
    /\ LibraryItem.deletedAt r0 = Some 900%Z
    /\ map LibraryItem.archivedAt (library_item (db out.1)) = [None]
    /\ map LibraryItem.deletedAt (library_item (db out.1)) = [None].
Proof.
  intros w out.
  assert (findRow "t1"
            (updateRows "t1"
               (resetTimestamps 5000 {[ "state" := VState Succeeded ]})
               (library_item (db w)))
          = Some (applyPatch
                    (resetTimestamps 5000 {[ "state" := VState Succeeded ]})
                    trashedItem)) as Hfind
    by (vm_compute; reflexivity).
  destruct (C7_state_derives_timestamps 5000 "t1"
              {[ "state" := VState Succeeded ]} "alice" workingPubsub w _
              Hfind)
    as (r0 & Hin & _ & Htable & _).
  exists r0. split; [exact Hin|].
  apply list_elem_of_singleton in Hin. subst r0.
  split; [reflexivity|]. split; [reflexivity|].
  subst out. rewrite Htable. split; reflexivity.
Defined.

(** C8, the claim as stated fails: the caller passes only a state, and
    the payload of the notification also carries [archivedAt], which
    the switch wrote into the patch before it was published. *)
Lemma C8_counterexample :
  let patch : Patch := {[ "state" := VState Archived ]} in
  let out := updateLibraryItem 5000 "a1" patch "alice" workingPubsub twoUsers in
  exists payload,
    outbox out.1 = [EntityUpdated PAGE payload "alice"]
    /\ payload !! "archivedAt" = Some (VDate 5000)
    /\ patch !! "archivedAt" = None
    /\ payload <> <["id" := VString "a1"]> patch.
Proof.
  intros patch out.
  exists (<["id" := VString "a1"]> (<["archivedAt" := VDate 5000]> patch)).
  split; [by vm_compute|]. split; [by vm_compute|]. split; [by vm_compute|].
  intros H. apply (f_equal (fun m : Patch => m !! "archivedAt")) in H.
  vm_compute in H. discriminate.
Qed.

(** The switch leaves "id" alone, and it leaves the whole patch alone
    exactly when the patch already holds what it assigns. *)
Lemma resetTimestamps_id now (patch : Patch) :
  resetTimestamps now patch !! "id" = patch !! "id".
Proof.
  unfold resetTimestamps.
  repeat case_match; rewrite ?lookup_insert_ne by done; done.
Qed.

Lemma insert_fixed (k : string) (v : Value) (m : Patch) :
  <[k := v]> m = m <-> m !! k = Some v.
Proof.
  split.
  - intros H. rewrite <- H. apply lookup_insert_eq.
  - apply insert_id.
Qed.

Lemma resetTimestamps_fixed now (patch : Patch) :
  resetTimestamps now patch = patch <->
  match patch !! "state" with
  | Some (VState Archived) => patch !! "archivedAt" = Some (VDate now)
  | Some (VState Deleted) => patch !! "deletedAt" = Some (VDate now)
  | Some (VState Processing) | Some (VState Succeeded) =>
      patch !! "archivedAt" = Some VNull /\ patch !! "deletedAt" = Some VNull
  | _ => True
  end.
Proof.
  assert (<["deletedAt" := VNull]> (<["archivedAt" := VNull]> patch) = patch
          <-> patch !! "archivedAt" = Some VNull
              /\ patch !! "deletedAt" = Some VNull) as Hboth.
  { split.
    - intros H. split; rewrite <- H.
      + rewrite lookup_insert_ne by done. apply lookup_insert_eq.
      + apply lookup_insert_eq.
    - intros [Ha Hd]. rewrite (insert_id _ _ _ Ha). by apply insert_id. }
  unfold resetTimestamps.
  destruct (patch !! "state") as [[| | | | |[]]|]; try done;
    solve [apply insert_fixed | exact Hboth].
Qed.

(** C8 (amended).  Whenever [updateLibraryItem] finds the row again
    after the write, it publishes exactly one update notification, whose
    payload is the patch as completed by the switch on its state, with
    the item id laid over it.  The payload agrees with the caller's
    patch on every field but [id], [archivedAt] and [deletedAt].  It is
    the caller's patch plus the id if and only if the switch changes
    nothing in the patch, that is: the patch sets no state of the
    enumeration, or it already holds what the switch assigns (archivedAt
    at the current time for Archived, deletedAt at the current time for
    Deleted, both null for Processing and Succeeded).  The patch of
    [restoreLibraryItem] is of the last kind: it sets a state and is
    published as it is, plus the id. *)
Theorem C8_payload_is_the_completed_patch
    now id (patch : Patch) userId pubsub (w : World) e :
  findRow id (updateRows id (resetTimestamps now patch) (library_item (db w)))
  = Some e ->
  let out := updateLibraryItem now id patch userId pubsub w in
  let payload := <["id" := VString id]> (resetTimestamps now patch) in
  outbox out.1 = outbox w ++ [EntityUpdated PAGE payload userId]
  /\ payload !! "id" = Some (VString id)
  /\ (forall k, k <> "id" -> k <> "archivedAt" -> k <> "deletedAt" ->
      payload !! k = patch !! k)
  /\ (patch !! "state" = None -> payload = <["id" := VString id]> patch)
  /\ (payload = <["id" := VString id]> patch <->
      match patch !! "state" with
      | Some (VState Archived) => patch !! "archivedAt" = Some (VDate now)
      | Some (VState Deleted) => patch !! "deletedAt" = Some (VDate now)
      | Some (VState Processing) | Some (VState Succeeded) =>
          patch !! "archivedAt" = Some VNull
          /\ patch !! "deletedAt" = Some VNull
      | _ => True
      end)
  /\ (restorePatch now !! "state" = Some (VState Succeeded)
      /\ <["id" := VString id]> (resetTimestamps now (restorePatch now))
         = <["id" := VString id]> (restorePatch now)).
Proof.
  intros Hfind out payload. subst out payload.
  rewrite (updateLibraryItem_run _ _ _ _ _ _ _ Hfind). simpl.
  split; [done|]. split; [apply lookup_insert_eq|]. split; [|split; [|split]].
  - intros k Hid Ha Hd. rewrite lookup_insert_ne by done.
    unfold resetTimestamps.
    repeat case_match; rewrite ?lookup_insert_ne by done; done.
  - intros Hs. by rewrite resetTimestamps_no_state.
  - rewrite <- resetTimestamps_fixed. split; [|by intros ->].
    intros H. apply map_eq. intros k.
    destruct (decide (k = "id")) as [->|Hk]; [apply resetTimestamps_id|].
    apply (f_equal (fun m : Patch => m !! k)) in H.
    by rewrite !lookup_insert_ne in H by done.
  - split; [done|]. by f_equal.
Qed.

Lemma C8_witness :
  let patch : Patch := {[ "title" := VString "Renamed" ]} in
  let out := updateLibraryItem 5000 "a1" patch "alice" workingPubsub twoUsers in
  outbox out.1
  = [EntityUpdated PAGE (<["id" := VString "a1"]> patch) "alice"].
Proof.
  intros patch out.
  assert (findRow "a1"
            (updateRows "a1" (resetTimestamps 5000 patch)
               (library_item (db twoUsers)))
          = Some (applyPatch (resetTimestamps 5000 patch)
                    (mkItem "a1" "alice" "World News" Succeeded 1000)))
    as Hfind by (vm_compute; reflexivity).
  destruct (C8_payload_is_the_completed_patch 5000 "a1" patch "alice"
              workingPubsub twoUsers _ Hfind) as (Hout & _ & _ & Heq & _).
  subst out. rewrite Hout. simpl. rewrite Heq; reflexivity.
Defined.

(** ** The ordering *)

Lemma compareBy_antisym ps ob (a b : LibraryItem.t) :
  compareBy ps ob b a = CompOpp (compareBy ps ob a b).
Proof.
  unfold compareBy.
  destruct (orderValue ps (ob_key ob) a) as [x|],
    (orderValue ps (ob_key ob) b) as [y|],
    (ob_order ob), (ob_nullsLast ob); simpl;
    try reflexivity; apply Z.compare_antisym.
Qed.

Lemma compareRows_antisym ps obs (a b : LibraryItem.t) :
  compareRows ps obs b a = CompOpp (compareRows ps obs a b).
Proof.
  induction obs as [|ob obs IH]; simpl; [done|].
  rewrite (compareBy_antisym ps ob a b).
  by destruct (compareBy ps ob a b); simpl.
Qed.



Lemma insertRow_Sorted ps obs (x : LibraryItem.t) (l : list LibraryItem.t) :
  Sorted (notAfter ps obs) l -> Sorted (notAfter ps obs) (insertRow ps obs x l).
Proof.
  induction l as [|y l IH]; intros Hs; simpl.
  - by repeat constructor.
  - inversion Hs as [|? ? Hl Hhd]; subst.
    destruct (compareRows ps obs x y) eqn:E.
    + constructor; [done|]. constructor. unfold notAfter. by rewrite E.
    + constructor; [done|]. constructor. unfold notAfter. by rewrite E.
    + constructor; [by apply IH|].
      assert (notAfter ps obs y x) as Hyx.
      { unfold notAfter. rewrite compareRows_antisym, E. done. }
      destruct l as [|z l]; simpl.
      * by constructor.
      * inversion Hhd; subst.
        destruct (compareRows ps obs x z); by constructor.
Qed.

Lemma sortRows_Sorted ps obs (l : list LibraryItem.t) :
  Sorted (notAfter ps obs) (sortRows ps obs l).
Proof.
  unfold sortRows. induction l as [|x l IH]; simpl; [constructor|].
  by apply insertRow_Sorted.
Qed.

(** Only the free-text query touches the ordering. *)
Lemma orderBys_foldl_andWhere (cs : list Call) (qb : QueryBuilder) :
  Forall isAndWhere cs -> orderBys (foldl call qb cs) = orderBys qb.
Proof.
  revert qb. induction cs as [|c cs IH]; intros qb H; simpl; [done|].
  inversion H as [|? ? Hc Hcs]; subst. rewrite IH by done.
  by destruct c.
Qed.

Lemma calls_after_query_andWhere now args :
  Forall isAndWhere
    (typeFilterCalls args ++ inFilterCalls args ++ readFilterCalls args
       ++ hasFilterCalls args ++ labelFilterCalls args
       ++ dateFilterCalls now args ++ termFilterCalls args
       ++ matchFilterCalls args ++ idsCalls args ++ includePendingCalls args
       ++ includeDeletedCalls args ++ noFilterCalls args
       ++ recommendedByCalls args).
Proof.
  repeat apply Forall_app_2.
  - unfold typeFilterCalls. destruct (SearchArgs.typeFilter args) as [[|]|];
      repeat constructor.
  - unfold inFilterCalls. destruct (SearchArgs.inFilter args) as [[]|];
      repeat constructor.
  - unfold readFilterCalls. destruct (SearchArgs.readFilter args) as [[]|];
      repeat constructor.
  - unfold hasFilterCalls. apply Forall_forall. intros c Hc.
    apply list_elem_of_fmap in Hc as (f & -> & _). by destruct f.
  - apply Forall_forall. intros c Hc. unfold includeLabelCalls in Hc.
    by apply elem_of_lookup_imap in Hc as (i & e & -> & _).
  - unfold excludeLabelCalls. destruct (List.filter isExclude _);
      repeat constructor.
  - apply Forall_forall. intros c Hc.
    by apply list_elem_of_fmap in Hc as (f & -> & _).
  - apply Forall_forall. intros c Hc.
    by apply list_elem_of_fmap in Hc as (f & -> & _).
  - apply Forall_forall. intros c Hc.
    by apply list_elem_of_fmap in Hc as (f & -> & _).
  - unfold idsCalls. destruct (SearchArgs.ids args) as [[|]|];
      repeat constructor.
  - unfold includePendingCalls.
    destruct (SearchArgs.includePending args) as [[|]|]; repeat constructor.
  - unfold includeDeletedCalls.
    destruct (SearchArgs.includeDeleted args) as [[|]|],
      (SearchArgs.inFilter args) as [[]|]; repeat constructor.
  - apply Forall_forall. intros c Hc.
    by apply list_elem_of_fmap in Hc as (f & -> & _).
  - unfold recommendedByCalls.
    destruct (SearchArgs.recommendedBy args) as [[|c s]|];
      try destruct (String.eqb _ _); repeat constructor.
Qed.


Lemma searchLibraryItems_paged now dbNow args userId (w : World) :
  searchLibraryItems now dbNow args userId w
  = (w, Ok (firstn (pageSize args)
              (skipn (pageFrom args)
                 (sortRows (parameters (pagedQuery now args userId))
                    (orderBys (pagedQuery now args userId))
                    (selected (searchQuery now args userId) dbNow
                       (library_item (db w))))),
            length (selected (searchQuery now args userId) dbNow
                      (library_item (db w))))).
Proof. by rewrite searchLibraryItems_run. Qed.



(** ** Bulk actions *)

(** C10.  An action outside the enumeration makes [updateLibraryItems]
    reject with "Invalid bulk action" before the transaction is opened;
    AddLabels without a label set makes it reject with "Labels are
    required for this action", and already the body of the transaction
    rejects without having written anything (there is nothing to roll
    back).  In both cases the world, that is the item table, the join
    table and the outbox, is left as it was. *)
Theorem C10_invalid_bulk_action_writes_nothing :
  (forall now dbNow tag args labels (w : World),
     updateLibraryItems now dbNow (UnknownAction tag) args labels w
     = (w, Throw InvalidBulkAction))
  /\ (forall now dbNow args (w : World),
        bulkScript now AddLabels = Ok (∅, true)
        /\ bulkWork now dbNow ∅ true args None w = (w, Throw LabelsRequired)
        /\ updateLibraryItems now dbNow AddLabels args None w
           = (w, Throw LabelsRequired))
  /\ errorMessage InvalidBulkAction = "Invalid bulk action"
  /\ errorMessage LabelsRequired = "Labels are required for this action".
Proof.
  split; [done|]. split; [|done].
  intros now dbNow args [d o]. done.
Qed.

(** ** The default visibility exclusions and the parameter [state] *)

(** With no filter set, [buildWhereClause] makes two calls; both bind
    the parameter [state]. *)
Lemma buildWhereClauseCalls_empty now :
  buildWhereClauseCalls now SearchArgs.empty
  = [ AndWhere (CStateNe "state") [("state", VState Processing)];
      AndWhere (CStateNe "state") [("state", VState Deleted)] ].
Proof. reflexivity. Qed.

(** C4, at the filter specification with no field set.  The two calls
    of [buildWhereClause] are the two visibility exclusions and nothing
    else, but both are the fragment [library_item.state != :state] on
    the one parameter [state], which the second call overwrites.  The
    query that runs excludes the Deleted rows only: it selects a row
    exactly when its state is not Deleted, and in particular it selects
    a row in state Processing. *)
Theorem C4_default_exclusions_overwrite_state now dbNow :
  let qb := buildWhereClause now SearchArgs.empty createQueryBuilder in
  map render (flat_map addedCond (buildWhereClauseCalls now SearchArgs.empty))
  = [ "library_item.state != :state"; "library_item.state != :state" ]
  /\ flat_map bindings (buildWhereClauseCalls now SearchArgs.empty)
     = [ ("state", VState Processing); ("state", VState Deleted) ]
  /\ wheres qb = [ (WAnd, CStateNe "state"); (WAnd, CStateNe "state") ]
  /\ parameters qb = {[ "state" := VState Deleted ]}
  /\ (forall r, matches qb dbNow r
                = negb (LibraryItemState_eqb (LibraryItem.state r) Deleted))
  /\ matches qb dbNow (mkItem "p1" "alice" "Pending" Processing 1000) = true.
Proof.
  intros qb. split; [done|]. split; [done|]. split; [done|].
  assert (parameters qb = {[ "state" := VState Deleted ]}) as Hps.
  { subst qb. unfold buildWhereClause. rewrite parameters_foldl_call.
    rewrite buildWhereClauseCalls_empty. unfold setParameters. simpl.
    apply insert_insert_eq. }
  split; [done|]. split; [|by vm_compute].
  intros r. unfold matches. rewrite Hps. subst qb. simpl.
  rewrite lookup_singleton_eq. by rewrite andb_diag.
Qed.

(** C3, at two inputs.  With no filter set the names bound are [state]
    twice.  With two date filters on the save time, ranges 0..10 and
    100..200, both filters bind [saved_at_start] and [saved_at_end]; the
    second overwrites the first, and a row saved at 150, outside the
    first range, is selected. *)
Theorem C3_bound_names_collide now dbNow :
  flat_map boundNames (buildWhereClauseCalls now SearchArgs.empty)
  = ["state"; "state"]
  /\ ~ NoDup (flat_map boundNames (buildWhereClauseCalls now SearchArgs.empty))
  /\ flat_map boundNames (buildWhereClauseCalls now twoDateFilters)
     = ["saved_at_start"; "saved_at_end"; "saved_at_start"; "saved_at_end";
        "state"; "state"]
  /\ parameters (buildWhereClause now twoDateFilters createQueryBuilder)
       !! "saved_at_start" = Some (VDate 100)
  /\ matches (buildWhereClause now twoDateFilters createQueryBuilder) dbNow
       (mkItem "a1" "alice" "World News" Succeeded 150) = true.
Proof.
  split; [done|]. split.
  { rewrite buildWhereClauseCalls_empty. simpl. intros H.
    apply NoDup_cons in H as [H _]. apply H. by left. }
  split; [done|]. split; by vm_compute.
Qed.

(** ** The TRASH scope *)

(** A selected row satisfies every predicate [buildWhereClause] added. *)
Lemma matches_evalCond now args dbNow r (c : Cond) :
  matches (buildWhereClause now args createQueryBuilder) dbNow r = true ->
  c ∈ flat_map addedCond (buildWhereClauseCalls now args) ->
  evalCond (parameters (buildWhereClause now args createQueryBuilder))
    dbNow r c = true.
Proof.
  rewrite matches_buildWhereClause. intros H Hc.
  unfold buildWhereClause. rewrite parameters_foldl_call. simpl.
  rewrite forallb_forall in H. apply H. by apply list_elem_of_In.
Qed.

Lemma searchQuery_evalCond now args userId dbNow r (c : Cond) :
  matches (searchQuery now args userId) dbNow r = true ->
  c ∈ flat_map addedCond (buildWhereClauseCalls now args) ->
  evalCond (parameters (searchQuery now args userId)) dbNow r c = true.
Proof.
  rewrite matches_searchQuery. intros H Hc.
  apply andb_true_iff in H as [_ H].
  rewrite forallb_forall in H. apply H. by apply list_elem_of_In.
Qed.

Lemma trash_adds_window now args :
  SearchArgs.inFilter args = Some TRASH ->
  CDeletedWithin14Days ∈ flat_map addedCond (buildWhereClauseCalls now args).
Proof.
  intros Hin. unfold buildWhereClauseCalls.
  rewrite !flat_map_app, !elem_of_app. right. right. left.
  unfold inFilterCalls. rewrite Hin. simpl. by left.
Qed.

Lemma evalCond_window ps dbNow r :
  evalCond ps dbNow r CDeletedWithin14Days = true ->
  exists d, LibraryItem.deletedAt r = Some d /\ (dbNow - fourteenDays <= d)%Z.
Proof.
  simpl. destruct (LibraryItem.deletedAt r) as [d|]; [|done].
  intros H. exists d. split; [done|]. by apply Z.leb_le.
Qed.

(** C6, the claim as stated fails: the TRASH scope has a lower bound
    only.  An item whose deletedAt lies a day after the store's clock
    is selected, although it is outside the window from fourteen days
    ago to now. *)
Lemma C6_counterexample :
  let dbNow := (100 * oneDay)%Z in
  let r := deletedItem "t1" (dbNow + oneDay) in
  matches (buildWhereClause 0 trashOnly createQueryBuilder) dbNow r = true
  /\ LibraryItem.deletedAt r = Some (dbNow + oneDay)%Z
  /\ ~ (dbNow - fourteenDays <= dbNow + oneDay <= dbNow)%Z.
Proof.
  split; [by vm_compute|]. split; [by vm_compute|].
  unfold oneDay, fourteenDays. lia.
Qed.

(** C6 (amended).  With the scope TRASH, every row selected, by the
    query [buildWhereClause] builds on a fresh builder and by the search
    query alike, has a deletedAt that is not null and not earlier than
    fourteen days before the store's clock; a row deleted fifteen days
    ago is not selected; and the exclusion of the Deleted state is not
    added.  When the scope is the only field set, the rows selected are
    exactly those deleted no earlier than fourteen days ago whose state
    is not Processing, rows in state Deleted included. *)
Theorem C6_trash_window now dbNow args userId r :
  SearchArgs.inFilter args = Some TRASH ->
  (matches (buildWhereClause now args createQueryBuilder) dbNow r = true ->
   exists d, LibraryItem.deletedAt r = Some d /\ (dbNow - fourteenDays <= d)%Z)
  /\ (matches (searchQuery now args userId) dbNow r = true ->
      exists d, LibraryItem.deletedAt r = Some d
                /\ (dbNow - fourteenDays <= d)%Z)
  /\ (LibraryItem.deletedAt r = Some (dbNow - 15 * oneDay)%Z ->
      matches (buildWhereClause now args createQueryBuilder) dbNow r = false
      /\ matches (searchQuery now args userId) dbNow r = false)
  /\ includeDeletedCalls args = []
  /\ matches (buildWhereClause now trashOnly createQueryBuilder) dbNow r
     = match LibraryItem.deletedAt r with
       | Some d => (dbNow - fourteenDays <=? d)%Z
       | None => false
       end
       && negb (LibraryItemState_eqb (LibraryItem.state r) Processing).
Proof.
  intros Hin.
  assert (matches (buildWhereClause now args createQueryBuilder) dbNow r = true ->
          exists d, LibraryItem.deletedAt r = Some d
                    /\ (dbNow - fourteenDays <= d)%Z) as H1.
  { intros H. eapply evalCond_window, matches_evalCond; [done|].
    by apply trash_adds_window. }
  assert (matches (searchQuery now args userId) dbNow r = true ->
          exists d, LibraryItem.deletedAt r = Some d
                    /\ (dbNow - fourteenDays <= d)%Z) as H2.
  { intros H. eapply evalCond_window, searchQuery_evalCond; [done|].
    by apply trash_adds_window. }
  split; [done|]. split; [done|]. split; [|split].
  - intros Hd. split.
    + destruct (matches (buildWhereClause _ _ _) dbNow r) eqn:E; [|done].
      destruct (H1 eq_refl) as (d & Hd' & Hle). rewrite Hd in Hd'.
      injection Hd' as <-. unfold oneDay, fourteenDays in Hle. lia.
    + destruct (matches (searchQuery _ _ _) dbNow r) eqn:E; [|done].
      destruct (H2 eq_refl) as (d & Hd' & Hle). rewrite Hd in Hd'.
      injection Hd' as <-. unfold oneDay, fourteenDays in Hle. lia.
  - unfold includeDeletedCalls. rewrite Hin.
    by destruct (SearchArgs.includeDeleted args) as [[|]|].
  - rewrite matches_buildWhereClause. simpl.
    unfold setParameters. simpl. rewrite lookup_insert_eq.
    by rewrite andb_true_r.
Qed.

Lemma C6_witness :
  let dbNow := (100 * oneDay)%Z in
  matches (buildWhereClause 0 trashOnly createQueryBuilder) dbNow
    (deletedItem "t15" (dbNow - 15 * oneDay)) = false
  /\ matches (buildWhereClause 0 trashOnly createQueryBuilder) dbNow
       (deletedItem "t14" (dbNow - 14 * oneDay)) = true.
Proof.
  intros dbNow.
  destruct (C6_trash_window 0 dbNow trashOnly "alice"
              (deletedItem "t15" (dbNow - 15 * oneDay)) eq_refl)
    as (_ & _ & H15 & _ & _).
  destruct (C6_trash_window 0 dbNow trashOnly "alice"
              (deletedItem "t14" (dbNow - 14 * oneDay)) eq_refl)
    as (_ & _ & _ & _ & H14).
  split.
  - apply H15. vm_compute. reflexivity.
  - rewrite H14. vm_compute. reflexivity.
Defined.

(** ** Label filters *)

Lemma later_name_not_include k i : LaterName k -> k <> includeLabelParam i.
Proof.
  intros H E. destruct (includeLabelParam_lastChar i) as (c & Hc & Hd).
  rewrite <- E in Hc.
  destruct H; unfold_append; try (rewrite lastChar_append in Hc by done);
    try (simpl in Hc; injection Hc as <-; compute in Hd; lia);
    unfold includeLabelParam in E; unfold_append; discriminate.
Qed.

Lemma later_name_not_exclude k : LaterName k -> k <> "excludeLabels".
Proof.
  intros H E. destruct H; unfold_append; try discriminate.
  - apply append_endsWith in E. discriminate.
  - apply append_endsWith in E. discriminate.
Qed.

Lemma includeLabelParam_not_exclude i : includeLabelParam i <> "excludeLabels".
Proof. unfold includeLabelParam. unfold_append. discriminate. Qed.

(** The bindings and the predicates of the INCLUDE entries. *)
Lemma flat_map_bindings_imap {A} (c : nat -> A -> Cond)
    (b : nat -> A -> string * Value) (l : list A) :
  flat_map bindings (imap (fun i e => AndWhere (c i e) [b i e]) l) = imap b l.
Proof.
  revert c b. induction l as [|x l IH]; intros c b; simpl; [done|].
  f_equal. apply (IH (fun i => c (S i)) (fun i => b (S i))).
Qed.

Lemma flat_map_addedCond_imap {A} (c : nat -> A -> Cond)
    (b : nat -> A -> string * Value) (l : list A) :
  flat_map addedCond (imap (fun i e => AndWhere (c i e) [b i e]) l) = imap c l.
Proof.
  revert c b. induction l as [|x l IH]; intros c b; simpl; [done|].
  f_equal. apply (IH (fun i => c (S i)) (fun i => b (S i))).
Qed.

Lemma includeLabelCalls_bindings (l : list LabelFilter) :
  flat_map bindings (includeLabelCalls l)
  = imap (fun i e => (includeLabelParam i, VStrings (lf_labels e))) l.
Proof. apply flat_map_bindings_imap. Qed.

Lemma includeLabelCalls_addedCond (l : list LabelFilter) :
  flat_map addedCond (includeLabelCalls l)
  = imap (fun i _ => CLabelsOverlap (includeLabelParam i)) l.
Proof.
  apply (flat_map_addedCond_imap
           (fun i _ => CLabelsOverlap (includeLabelParam i))).
Qed.

(** The parameter of the [i]-th INCLUDE entry is bound once among the
    INCLUDE entries. *)
Lemma include_bindings_split (l : list LabelFilter) i e :
  l !! i = Some e ->
  exists before after,
    imap (fun i e => (includeLabelParam i, VStrings (lf_labels e))) l
    = before ++ (includeLabelParam i, VStrings (lf_labels e)) :: after
    /\ includeLabelParam i ∉ after.*1.
Proof.
  intros Hi.
  set (bs := imap (fun i e => (includeLabelParam i, VStrings (lf_labels e))) l).
  assert (bs !! i = Some (includeLabelParam i, VStrings (lf_labels e))) as Hb.
  { subst bs. by rewrite list_lookup_imap, Hi. }
  exists (firstn i bs), (skipn (S i) bs). split.
  { symmetry. by apply take_drop_middle. }
  intros Hin. apply list_elem_of_fmap in Hin as ([k v] & Hk & Hin).
  simpl in Hk. apply list_elem_of_lookup in Hin as (j & Hj).
  rewrite lookup_drop in Hj. subst bs.
  rewrite list_lookup_imap in Hj.
  destruct (l !! (S i + j)) as [e'|]; [|done].
  simpl in Hj. injection Hj as <- <-.
  apply includeLabelParam_inj in Hk. lia.
Qed.

Lemma excludeLabelCalls_names (l : list LabelFilter) k :
  k ∈ (flat_map bindings (excludeLabelCalls l)).*1 -> k = "excludeLabels".
Proof.
  destruct l; intros H.
  - change (k ∈ @nil string) in H. by apply elem_of_nil in H.
  - change (k ∈ ["excludeLabels"]) in H.
    by apply list_elem_of_singleton in H.
Qed.

Lemma laterCalls_bindings_names now args k :
  k ∈ (flat_map bindings (laterCalls now args)).*1 -> LaterName k.
Proof. rewrite fmap_fst_flat_map_bindings. apply laterCalls_names. Qed.

Lemma bindings_split now args :
  flat_map bindings (buildWhereClauseCalls now args)
  = flat_map bindings
      (queryCalls args ++ typeFilterCalls args ++ inFilterCalls args
         ++ readFilterCalls args ++ hasFilterCalls args)
    ++ flat_map bindings
         (includeLabelCalls
            (List.filter isInclude (orEmpty (SearchArgs.labelFilters args))))
    ++ flat_map bindings
         (excludeLabelCalls
            (List.filter isExclude (orEmpty (SearchArgs.labelFilters args))))
    ++ flat_map bindings (laterCalls now args).
Proof.
  rewrite buildWhereClauseCalls_split. unfold labelFilterCalls.
  by rewrite !flat_map_app, <- !app_assoc.
Qed.

(** The query runs with the labels of each INCLUDE entry bound to the
    parameter of that entry, and with the labels of all EXCLUDE entries
    bound to [excludeLabels]: no later call overwrites them. *)
Lemma include_parameter_final now args (m : gmap string Value) i e :
  List.filter isInclude (orEmpty (SearchArgs.labelFilters args)) !! i = Some e ->
  setParameters (flat_map bindings (buildWhereClauseCalls now args)) m
    !! includeLabelParam i
  = Some (VStrings (lf_labels e)).
Proof.
  intros Hi. rewrite bindings_split, includeLabelCalls_bindings.
  destruct (include_bindings_split _ _ _ Hi) as (before & after & -> & Hafter).
  match goal with
  | |- setParameters (?E ++ (_ ++ ?b :: _) ++ ?X ++ ?L) _ !! _ = _ =>
      replace (E ++ (before ++ b :: after) ++ X ++ L)
        with ((E ++ before) ++ b :: (after ++ X ++ L))
        by (by rewrite <- !app_assoc)
  end.
  apply setParameters_last.
  rewrite !fmap_app, !elem_of_app. intros [H|[H|H]].
  - done.
  - apply excludeLabelCalls_names in H.
    by apply includeLabelParam_not_exclude in H.
  - apply laterCalls_bindings_names in H.
    by apply (later_name_not_include _ i) in H.
Qed.

Lemma exclude_parameter_final now args (m : gmap string Value) :
  List.filter isExclude (orEmpty (SearchArgs.labelFilters args)) <> [] ->
  setParameters (flat_map bindings (buildWhereClauseCalls now args)) m
    !! "excludeLabels"
  = Some (VStrings
            (flat_map lf_labels
               (List.filter isExclude
                  (orEmpty (SearchArgs.labelFilters args))))).
Proof.
  intros Hne. rewrite bindings_split.
  destruct (List.filter isExclude _) as [|x excludes] eqn:E; [done|].
  simpl excludeLabelCalls. simpl (flat_map bindings [_]).
  match goal with
  | |- setParameters (?E ++ ?I ++ [?b] ++ ?L) _ !! _ = _ =>
      replace (E ++ I ++ [b] ++ L) with ((E ++ I) ++ b :: L)
        by (by rewrite <- !app_assoc)
  end.
  apply setParameters_last.
  intros H. apply laterCalls_bindings_names in H.
  by apply later_name_not_exclude in H.
Qed.

Lemma overlap_nil_r (a : list string) : overlap a [] = false.
Proof. unfold overlap. by induction a. Qed.

Lemma forallb_include_conds ps dbNow r (l : list LabelFilter)
    (p : nat -> string) :
  (forall i e, l !! i = Some e -> ps !! p i = Some (VStrings (lf_labels e))) ->
  forallb (evalCond ps dbNow r) (imap (fun i _ => CLabelsOverlap (p i)) l)
  = forallb (fun e => overlap (foldedLabels r) (lf_labels e)) l.
Proof.
  revert p. induction l as [|x l IH]; intros p H; simpl; [done|].
  rewrite (H 0 x eq_refl). f_equal.
  apply (IH (fun i => p (S i))). intros i e Hi. by apply (H (S i)).
Qed.

(** The predicates of the label filters, read with the parameters the
    query runs with. *)
Lemma labelFilterCalls_eval now args (m : gmap string Value) dbNow r :
  forallb
    (evalCond
       (setParameters (flat_map bindings (buildWhereClauseCalls now args)) m)
       dbNow r)
    (flat_map addedCond (labelFilterCalls args))
  = forallb (fun e => overlap (foldedLabels r) (lf_labels e))
      (List.filter isInclude (orEmpty (SearchArgs.labelFilters args)))
    && negb (overlap (foldedLabels r)
               (flat_map lf_labels
                  (List.filter isExclude
                     (orEmpty (SearchArgs.labelFilters args))))).
Proof.
  unfold labelFilterCalls. rewrite flat_map_app, forallb_app.
  rewrite includeLabelCalls_addedCond. f_equal.
  - apply forallb_include_conds. intros i e Hi.
    by apply include_parameter_final.
  - destruct (List.filter isExclude _) as [|x excludes] eqn:E.
    + simpl. by rewrite overlap_nil_r.
    + simpl excludeLabelCalls. simpl flat_map at 1. simpl forallb.
      pose proof (exclude_parameter_final now args m) as H.
      rewrite E in H. simpl evalCond. rewrite H by done.
      by rewrite andb_true_r.
Qed.

Lemma forallb_calls_split now args (f : Cond -> bool) :
  forallb f (flat_map addedCond (buildWhereClauseCalls now args))
  = forallb f (flat_map addedCond (otherCalls now args))
    && forallb f (flat_map addedCond (labelFilterCalls args)).
Proof.
  rewrite buildWhereClauseCalls_split. unfold otherCalls.
  rewrite !flat_map_app, !forallb_app.
  destruct (forallb f (flat_map addedCond (labelFilterCalls args)));
    destruct (forallb f (flat_map addedCond (laterCalls now args)));
    by rewrite ?andb_true_r, ?andb_false_r.
Qed.

(** C5.  The label filters are split into the INCLUDE and the EXCLUDE
    entries (every entry is one or the other).  They add one overlap
    predicate per INCLUDE entry, on a parameter of its own, followed by
    a single negated overlap predicate when there is an EXCLUDE entry.
    The query runs with the labels of the [i]-th INCLUDE entry bound to
    its parameter and with the concatenation of the labels of all
    EXCLUDE entries bound to [excludeLabels].  Hence a row is selected
    exactly when it satisfies the other predicates, its case-folded
    label names and highlight labels overlap the label set of every
    INCLUDE entry, and they do not overlap the union of the EXCLUDE
    label sets; the same holds of the search query. *)
Theorem C5_label_filters now dbNow args userId r :
  let lfs := orEmpty (SearchArgs.labelFilters args) in
  let includes := List.filter isInclude lfs in
  let excludes := List.filter isExclude lfs in
  let qb := buildWhereClause now args createQueryBuilder in
  let labelsOk :=
    forallb (fun e => overlap (foldedLabels r) (lf_labels e)) includes
    && negb (overlap (foldedLabels r) (flat_map lf_labels excludes)) in
  (forall f, isInclude f = negb (isExclude f))
  /\ flat_map addedCond (labelFilterCalls args)
     = imap (fun i _ => CLabelsOverlap (includeLabelParam i)) includes
       ++ (if isEmpty excludes then []
           else [CNotLabelsOverlap "excludeLabels"])
  /\ (forall i e, includes !! i = Some e ->
      parameters qb !! includeLabelParam i = Some (VStrings (lf_labels e)))
  /\ (excludes <> [] ->
      parameters qb !! "excludeLabels"
      = Some (VStrings (flat_map lf_labels excludes)))
  /\ matches qb dbNow r
     = forallb (evalCond (parameters qb) dbNow r)
         (flat_map addedCond (otherCalls now args))
       && labelsOk
  /\ (matches (searchQuery now args userId) dbNow r = true -> labelsOk = true).
Proof.
  intros lfs includes excludes qb labelsOk.
  assert (parameters qb
          = setParameters (flat_map bindings (buildWhereClauseCalls now args)) ∅)
    as Hps.
  { subst qb. unfold buildWhereClause. by rewrite parameters_foldl_call. }
  split; [by intros [[] ?]|]. split.
  { unfold labelFilterCalls. fold lfs. fold includes. fold excludes.
    rewrite flat_map_app, includeLabelCalls_addedCond. f_equal.
    by destruct excludes. }
  split. { intros i e Hi. rewrite Hps. by apply include_parameter_final. }
  split. { intros Hne. rewrite Hps. by apply exclude_parameter_final. }
  split.
  - subst qb. rewrite matches_buildWhereClause, forallb_calls_split.
    rewrite labelFilterCalls_eval. by rewrite <- Hps.
  - rewrite matches_searchQuery. intros H.
    apply andb_true_iff in H as [_ H].
    rewrite forallb_calls_split in H. apply andb_true_iff in H as [_ H].
    unfold searchQuery, buildWhereClause in H.
    rewrite parameters_foldl_call in H.
    by rewrite labelFilterCalls_eval in H.
Qed.

Lemma C5_witness :
  let qb := buildWhereClause 0 fourLabelFilters createQueryBuilder in
  parameters qb !! "includeLabels_0" = Some (VStrings ["a"; "b"])
  /\ parameters qb !! "includeLabels_1" = Some (VStrings ["c"])
  /\ parameters qb !! "excludeLabels" = Some (VStrings ["x"; "y"])
  /\ matches qb 0 (labelledItem "l1" ["A"] ["C"]) = true
  /\ matches qb 0 (labelledItem "l2" ["A"; "B"] []) = false
  /\ matches qb 0 (labelledItem "l3" ["A"; "C"] ["Y"]) = false.
Proof.
  intros qb.
  destruct (C5_label_filters 0 0 fourLabelFilters "alice"
              (labelledItem "l1" ["A"] ["C"]))
    as (_ & _ & Hinc & Hexc & H1 & _).
  destruct (C5_label_filters 0 0 fourLabelFilters "alice"
              (labelledItem "l2" ["A"; "B"] []))
    as (_ & _ & _ & _ & H2 & _).
  destruct (C5_label_filters 0 0 fourLabelFilters "alice"
              (labelledItem "l3" ["A"; "C"] ["Y"]))
    as (_ & _ & _ & _ & H3 & _).
  split; [exact (Hinc 0 _ eq_refl)|].
  split; [exact (Hinc 1 _ eq_refl)|].
  split; [apply Hexc; discriminate|].
  subst qb. rewrite H1, H2, H3.
  split; [vm_compute; reflexivity|]. split; vm_compute; reflexivity.
Defined.

(** ** Supplements on parameter names *)

(** The parameters of the INCLUDE entries are pairwise distinct: this
    is the part of the naming that carries an index. *)
Lemma includeLabelCalls_names_NoDup (l : list LabelFilter) :
  NoDup (flat_map boundNames (includeLabelCalls l)).
Proof.
  rewrite <- fmap_fst_flat_map_bindings, includeLabelCalls_bindings.
  rewrite fmap_imap.
  rewrite (imap_ext _ (fun i _ => includeLabelParam i)) by done.
  rewrite imap_seq_0. apply NoDup_fmap_2; [|apply NoDup_seq].
  intros i j. apply includeLabelParam_inj.
Qed.

(** Whenever no filter field is set the calls are the two visibility
    exclusions, both on the parameter [state]. *)
Lemma buildWhereClauseCalls_noFilterSet now args :
  noFilterSet args = true ->
  buildWhereClauseCalls now args
  = [ AndWhere (CStateNe "state") [("state", VState Processing)];
      AndWhere (CStateNe "state") [("state", VState Deleted)] ].
Proof.
  unfold noFilterSet. rewrite !andb_true_iff.
  intros [[[[[[[[[[[[[Hq Ht] Hi] Hr] Hh] Hl] Hd] Hte] Hm] Hids] Hp] Hdel] Hn] Hrec].
  unfold buildWhereClauseCalls.
  assert (queryCalls args = []) as ->.
  { unfold queryCalls. by destruct (SearchArgs.query args) as [[|]|]. }
  assert (typeFilterCalls args = []) as ->.
  { unfold typeFilterCalls. by destruct (SearchArgs.typeFilter args) as [[|]|]. }
  assert (inFilterCalls args = []) as ->.
  { unfold inFilterCalls. by destruct (SearchArgs.inFilter args) as [[]|]. }
  assert (readFilterCalls args = []) as ->.
  { unfold readFilterCalls. by destruct (SearchArgs.readFilter args) as [[]|]. }
  assert (hasFilterCalls args = []) as ->.
  { unfold hasFilterCalls. by destruct (orEmpty (SearchArgs.hasFilters args)). }
  assert (labelFilterCalls args = []) as ->.
  { unfold labelFilterCalls.
    by destruct (orEmpty (SearchArgs.labelFilters args)). }
  assert (dateFilterCalls now args = []) as ->.
  { unfold dateFilterCalls. by destruct (orEmpty (SearchArgs.dateFilters args)). }
  assert (termFilterCalls args = []) as ->.
  { unfold termFilterCalls. by destruct (orEmpty (SearchArgs.termFilters args)). }
  assert (matchFilterCalls args = []) as ->.
  { unfold matchFilterCalls.
    by destruct (orEmpty (SearchArgs.matchFilters args)). }
  assert (idsCalls args = []) as ->.
  { unfold idsCalls. by destruct (SearchArgs.ids args) as [[|]|]. }
  assert (noFilterCalls args = []) as ->.
  { unfold noFilterCalls. by destruct (orEmpty (SearchArgs.noFilters args)). }
  assert (recommendedByCalls args = []) as ->.
  { unfold recommendedByCalls.
    by destruct (SearchArgs.recommendedBy args) as [[|]|]. }
  unfold includePendingCalls, includeDeletedCalls.
  destruct (SearchArgs.includePending args) as [[|]|]; try done;
    destruct (SearchArgs.includeDeleted args) as [[|]|]; try done;
    by destruct (SearchArgs.inFilter args) as [[]|].
Qed.

(** When only one of the two exclusions is added it works as written:
    the name [state] is bound once. *)
Lemma single_exclusion now dbNow r :
  matches (buildWhereClause now
             (with_includeDeleted (Some true) SearchArgs.empty)
             createQueryBuilder) dbNow r
  = negb (LibraryItemState_eqb (LibraryItem.state r) Processing)
  /\ matches (buildWhereClause now
                (with_includePending (Some true) SearchArgs.empty)
                createQueryBuilder) dbNow r
     = negb (LibraryItemState_eqb (LibraryItem.state r) Deleted).
Proof.
  split; rewrite matches_buildWhereClause; simpl;
    unfold setParameters; simpl; rewrite lookup_insert_eq;
    by rewrite andb_true_r.
Qed.

(* ===================================================================== *)
(** * Further properties *)
(* ===================================================================== *)

(** ** [updateLibraryItem] and [restoreLibraryItem] *)

Lemma updateRows_no_row id (p : Patch) (items : list LibraryItem.t) :
  findRow id items = None -> updateRows id p items = items.
Proof.
  unfold findRow, updateRows. induction items as [|r items IH]; simpl; [done|].
  destruct (String.eqb (LibraryItem.id r) id); [done|].
  intros H. by rewrite IH.
Qed.

(** X1.  Updating or restoring an id that no row carries rejects with
    the not-found error of the re-fetch and leaves the world exactly as
    it was: the table is untouched and no notification is handed to the
    pub-sub client, whatever the patch and the client. *)
Theorem update_missing_id_changes_nothing
    now id (patch : Patch) userId pubsub (w : World) :
  findRow id (library_item (db w)) = None ->
  updateLibraryItem now id patch userId pubsub w = (w, Throw EntityNotFound)
  /\ restoreLibraryItem now id userId pubsub w = (w, Throw EntityNotFound).
Proof.
  intros H. unfold restoreLibraryItem.
  split; apply updateLibraryItem_not_found; by rewrite updateRows_no_row.
Qed.

Lemma update_missing_id_witness :
  updateLibraryItem 5000 "zz" {[ "state" := VState Archived ]} "alice"
    workingPubsub twoUsers
  = (twoUsers, Throw EntityNotFound).
Proof.
  apply (update_missing_id_changes_nothing 5000 "zz"
           {[ "state" := VState Archived ]} "alice" workingPubsub twoUsers).
  reflexivity.
Defined.

Lemma updateRows_length id (p : Patch) (items : list LibraryItem.t) :
  length (updateRows id p items) = length items.
Proof. unfold updateRows. apply length_map. Qed.

Lemma updateRows_lookup_other id (p : Patch) (items : list LibraryItem.t) i r :
  items !! i = Some r -> LibraryItem.id r <> id ->
  updateRows id p items !! i = Some r.
Proof.
  intros Hi Hne. unfold updateRows. rewrite list_lookup_fmap, Hi. simpl.
  destruct (String.eqb (LibraryItem.id r) id) eqn:E; [|done].
  by apply String.eqb_eq in E.
Qed.

Lemma findRow_Some_id id (items : list LibraryItem.t) e :
  findRow id items = Some e -> LibraryItem.id e = id.
Proof.
  unfold findRow. intros H. apply find_some in H as [_ H].
  by apply String.eqb_eq in H.
Qed.

(** What [updateLibraryItem] resolved to determines the re-fetched row. *)
Lemma updateLibraryItem_Ok now id (patch : Patch) userId pubsub (w : World) e :
  (updateLibraryItem now id patch userId pubsub w).2 = Ok e ->
  findRow id (updateRows id (resetTimestamps now patch) (library_item (db w)))
  = Some e.
Proof.
  destruct (findRow id (updateRows id (resetTimestamps now patch)
                          (library_item (db w)))) as [e'|] eqn:E.
  - rewrite (updateLibraryItem_run _ _ _ _ _ _ _ E). simpl.
    unfold afterNotification. destruct (rejects pubsub _); [done|].
    by intros [= ->].
  - by rewrite (updateLibraryItem_not_found _ _ _ _ _ _ E).
Qed.

(** X2.  When [updateLibraryItem] resolves, the entity it returns
    carries the requested id, the table has as many rows as before, every
    row with another id stands unchanged at its place, the join table
    is untouched and exactly one notification has been published. *)
Theorem update_touches_only_the_id
    now id (patch : Patch) userId pubsub (w : World) e :
  let out := updateLibraryItem now id patch userId pubsub w in
  out.2 = Ok e ->
  LibraryItem.id e = id
  /\ length (library_item (db out.1)) = length (library_item (db w))
  /\ (forall i r, library_item (db w) !! i = Some r -> LibraryItem.id r <> id ->
      library_item (db out.1) !! i = Some r)
  /\ entity_labels (db out.1) = entity_labels (db w)
  /\ length (outbox out.1) = S (length (outbox w)).
Proof.
  intros out Hok. apply updateLibraryItem_Ok in Hok as Hfind.
  subst out. rewrite (updateLibraryItem_run _ _ _ _ _ _ _ Hfind). simpl.
  split; [by apply findRow_Some_id in Hfind|].
  split; [apply updateRows_length|].
  split; [intros i r; apply updateRows_lookup_other|].
  split; [done|]. rewrite length_app. simpl. lia.
Qed.

Lemma update_touches_only_the_id_witness :
  let out := updateLibraryItem 5000 "a1" {[ "state" := VState Archived ]}
               "alice" workingPubsub twoUsers in
  library_item (db out.1) !! 1
  = Some (mkItem "b1" "bob" "Wonder Times" Succeeded 2000).
Proof.
  intros out.
  assert (out.2 = Ok (applyPatch
                        (resetTimestamps 5000 {[ "state" := VState Archived ]})
                        (mkItem "a1" "alice" "World News" Succeeded 1000)))
    as Hok by (vm_compute; reflexivity).
  destruct (update_touches_only_the_id 5000 "a1"
              {[ "state" := VState Archived ]} "alice" workingPubsub twoUsers
              _ Hok) as (_ & _ & Hother & _).
  apply Hother; [reflexivity|discriminate].
Defined.

(** ** The visibility exclusions, in general *)

Lemma tail_calls_names args k :
  k ∈ (flat_map bindings (noFilterCalls args ++ recommendedByCalls args)).*1 ->
  k = "recommendedBy".
Proof.
  rewrite fmap_fst_flat_map_bindings, flat_map_app, elem_of_app.
  intros [H|H].
  - apply elem_of_flat_map_boundNames in H as (c & Hc & Hk).
    unfold noFilterCalls in Hc. apply list_elem_of_fmap in Hc as (f & -> & _).
    by apply elem_of_nil in Hk.
  - unfold recommendedByCalls in H.
    destruct (SearchArgs.recommendedBy args) as [[|c s]|];
      [by apply elem_of_nil in H| |by apply elem_of_nil in H].
    destruct (String.eqb (String c s) "*"); [by apply elem_of_nil in H|].
    by apply list_elem_of_singleton in H.
Qed.

Lemma bindings_tail_split now args :
  flat_map bindings (buildWhereClauseCalls now args)
  = flat_map bindings
      (queryCalls args ++ typeFilterCalls args ++ inFilterCalls args
         ++ readFilterCalls args ++ hasFilterCalls args
         ++ labelFilterCalls args ++ dateFilterCalls now args
         ++ termFilterCalls args ++ matchFilterCalls args ++ idsCalls args)
    ++ flat_map bindings (includePendingCalls args)
    ++ flat_map bindings (includeDeletedCalls args)
    ++ flat_map bindings (noFilterCalls args ++ recommendedByCalls args).
Proof.
  unfold buildWhereClauseCalls. by rewrite !flat_map_app, <- !app_assoc.
Qed.

(** The value of [state] the query runs with. *)
Lemma state_parameter_Deleted now args (m : gmap string Value) :
  includeDeletedCalls args <> [] ->
  setParameters (flat_map bindings (buildWhereClauseCalls now args)) m !! "state"
  = Some (VState Deleted).
Proof.
  intros Hd. rewrite bindings_tail_split.
  assert (flat_map bindings (includeDeletedCalls args)
          = [("state", VState Deleted)]) as ->.
  { unfold includeDeletedCalls in *.
    by destruct (SearchArgs.includeDeleted args) as [[|]|],
      (SearchArgs.inFilter args) as [[]|]. }
  rewrite app_assoc. simpl app at 2.
  apply setParameters_last. intros H%tail_calls_names. discriminate.
Qed.

Lemma state_parameter_Processing now args (m : gmap string Value) :
  includePendingCalls args <> [] -> includeDeletedCalls args = [] ->
  setParameters (flat_map bindings (buildWhereClauseCalls now args)) m !! "state"
  = Some (VState Processing).
Proof.
  intros Hp Hd. rewrite bindings_tail_split, Hd.
  assert (flat_map bindings (includePendingCalls args)
          = [("state", VState Processing)]) as ->.
  { unfold includePendingCalls in *.
    by destruct (SearchArgs.includePending args) as [[|]|]. }
  simpl app. apply setParameters_last. intros H%tail_calls_names. discriminate.
Qed.

Lemma stateNe_added now args :
  includePendingCalls args <> [] \/ includeDeletedCalls args <> [] ->
  CStateNe "state" ∈ flat_map addedCond (buildWhereClauseCalls now args).
Proof.
  intros H. unfold buildWhereClauseCalls.
  rewrite !flat_map_app, !elem_of_app.
  do 10 right. destruct H as [H|H].
  - left. unfold includePendingCalls in *.
    destruct (SearchArgs.includePending args) as [[|]|]; try done;
      simpl; by left.
  - right. left. unfold includeDeletedCalls in *.
    destruct (SearchArgs.includeDeleted args) as [[|]|],
      (SearchArgs.inFilter args) as [[]|]; try done; simpl; by left.
Qed.

(** X3.  For every filter specification: unless [includeDeleted] is
    true or the scope is TRASH, no row in state Deleted is selected,
    neither by the query built on a fresh builder nor by the search
    query.  When that exclusion is off and [includePending] is not true,
    no row in state Processing is selected. *)
Theorem visibility_exclusions now dbNow args userId r :
  (SearchArgs.includeDeleted args <> Some true ->
   SearchArgs.inFilter args <> Some TRASH ->
   (matches (buildWhereClause now args createQueryBuilder) dbNow r = true ->
    LibraryItem.state r <> Deleted)
   /\ (matches (searchQuery now args userId) dbNow r = true ->
       LibraryItem.state r <> Deleted))
  /\ (SearchArgs.includePending args <> Some true ->
      SearchArgs.includeDeleted args = Some true
      \/ SearchArgs.inFilter args = Some TRASH ->
      (matches (buildWhereClause now args createQueryBuilder) dbNow r = true ->
       LibraryItem.state r <> Processing)
      /\ (matches (searchQuery now args userId) dbNow r = true ->
          LibraryItem.state r <> Processing)).
Proof.
  split.
  - intros Hd Ht.
    assert (includeDeletedCalls args <> []) as Hc.
    { unfold includeDeletedCalls.
      by destruct (SearchArgs.includeDeleted args) as [[|]|],
        (SearchArgs.inFilter args) as [[]|]. }
    split; intros H Hs.
    + eapply matches_evalCond in H; [|apply stateNe_added; by right].
      unfold buildWhereClause in H. rewrite parameters_foldl_call in H.
      simpl in H. rewrite state_parameter_Deleted in H by done.
      by rewrite Hs in H.
    + eapply searchQuery_evalCond in H; [|apply stateNe_added; by right].
      unfold searchQuery, buildWhereClause in H.
      rewrite parameters_foldl_call in H.
      simpl in H. rewrite state_parameter_Deleted in H by done.
      by rewrite Hs in H.
  - intros Hp Hd.
    assert (includePendingCalls args <> []) as Hpc.
    { unfold includePendingCalls.
      by destruct (SearchArgs.includePending args) as [[|]|]. }
    assert (includeDeletedCalls args = []) as Hdc.
    { unfold includeDeletedCalls. destruct Hd as [-> | ->]; [done|].
      by destruct (SearchArgs.includeDeleted args) as [[|]|]. }
    split; intros H Hs.
    + eapply matches_evalCond in H; [|apply stateNe_added; by left].
      unfold buildWhereClause in H. rewrite parameters_foldl_call in H.
      simpl in H. rewrite state_parameter_Processing in H by done.
      by rewrite Hs in H.
    + eapply searchQuery_evalCond in H; [|apply stateNe_added; by left].
      unfold searchQuery, buildWhereClause in H.
      rewrite parameters_foldl_call in H.
      simpl in H. rewrite state_parameter_Processing in H by done.
      by rewrite Hs in H.
Qed.

Lemma visibility_exclusions_witness :
  matches (buildWhereClause 0 SearchArgs.empty createQueryBuilder) 0
    (mkItem "d1" "alice" "Gone" Deleted 1000) = false
  /\ matches (buildWhereClause 0 trashOnly createQueryBuilder) 0
       (mkItem "p1" "alice" "Pending" Processing 1000) = false.
Proof.
  destruct (visibility_exclusions 0 0 SearchArgs.empty "alice"
              (mkItem "d1" "alice" "Gone" Deleted 1000)) as [Hd _].
  destruct (visibility_exclusions 0 0 trashOnly "alice"
              (mkItem "p1" "alice" "Pending" Processing 1000)) as [_ Hp].
  split.
  - destruct (matches _ 0 (mkItem "d1" _ _ _ _)) eqn:E; [|reflexivity].
    destruct (Hd ltac:(discriminate) ltac:(discriminate)) as [H _].
    exfalso. by apply (H eq_refl).
  - destruct (matches _ 0 (mkItem "p1" _ _ _ _)) eqn:E; [|reflexivity].
    destruct (Hp ltac:(discriminate) ltac:(right; reflexivity)) as [H _].
    exfalso. by apply (H eq_refl).
Defined.

(** ** Restoring an item *)

(** The search query with no filter set: ownership and not Deleted. *)
Lemma default_search_matches now userId dbNow r :
  matches (searchQuery now SearchArgs.empty userId) dbNow r
  = ownedBy userId r
    && negb (LibraryItemState_eqb (LibraryItem.state r) Deleted).
Proof.
  rewrite matches_searchQuery. unfold ownedBy. f_equal.
  unfold searchQuery, buildWhereClause. rewrite parameters_foldl_call.
  rewrite buildWhereClauseCalls_empty. simpl.
  unfold setParameters. simpl. rewrite lookup_insert_eq.
  by rewrite andb_true_r, andb_diag.
Qed.

Lemma inbox_search_matches now userId dbNow r :
  matches (searchQuery now (with_inFilter (Some INBOX) SearchArgs.empty) userId)
    dbNow r
  = ownedBy userId r
    && (isNull (LibraryItem.archivedAt r)
        && negb (LibraryItemState_eqb (LibraryItem.state r) Deleted)).
Proof.
  rewrite matches_searchQuery. unfold ownedBy. f_equal.
  unfold searchQuery, buildWhereClause. rewrite parameters_foldl_call.
  change (buildWhereClauseCalls now (with_inFilter (Some INBOX) SearchArgs.empty))
    with [ AndWhere CArchivedIsNull [];
           AndWhere (CStateNe "state") [("state", VState Processing)];
           AndWhere (CStateNe "state") [("state", VState Deleted)] ].
  simpl. unfold setParameters. simpl. rewrite lookup_insert_eq.
  by rewrite andb_true_r, andb_diag.
Qed.

(** X4.  When [restoreLibraryItem] resolves, the entity it returns is in
    state Succeeded, saved at the current time, neither archived nor
    deleted, whatever it was before; it is therefore selected by the
    default search of its owner, and also by the owner's search of the
    inbox with no other filter set. *)
Theorem restore_makes_item_visible now id userId pubsub (w : World) e :
  (restoreLibraryItem now id userId pubsub w).2 = Ok e ->
  LibraryItem.state e = Succeeded
  /\ LibraryItem.savedAt e = now
  /\ LibraryItem.archivedAt e = None
  /\ LibraryItem.deletedAt e = None
  /\ (forall now' dbNow,
      matches (searchQuery now' SearchArgs.empty (LibraryItem.userId e))
        dbNow e = true
      /\ matches (searchQuery now' (with_inFilter (Some INBOX) SearchArgs.empty)
                    (LibraryItem.userId e)) dbNow e = true).
Proof.
  unfold restoreLibraryItem. intros Hok.
  apply updateLibraryItem_Ok, findRow_updateRows in Hok
    as (r0 & _ & _ & ->).
  assert (LibraryItem.state
            (applyPatch (resetTimestamps now (restorePatch now)) r0)
          = Succeeded) as Hs by (by vm_compute).
  assert (LibraryItem.archivedAt
            (applyPatch (resetTimestamps now (restorePatch now)) r0)
          = None) as Ha by (by vm_compute).
  split; [done|]. split; [by vm_compute|]. split; [done|].
  split; [by vm_compute|].
  intros now' dbNow. split.
  - rewrite default_search_matches, Hs. unfold ownedBy.
    by rewrite String.eqb_refl.
  - rewrite inbox_search_matches, Hs, Ha. unfold ownedBy.
    by rewrite String.eqb_refl.
Qed.

Lemma restore_makes_item_visible_witness :
  let out := restoreLibraryItem 5000 "t1" "alice" workingPubsub
               (worldOf [trashedItem]) in
  exists e, out.2 = Ok e
    /\ matches (searchQuery 0 SearchArgs.empty "alice") 0 trashedItem = false
    /\ matches (searchQuery 0 SearchArgs.empty "alice") 0 e = true.
Proof.
  intros out.
  exists (applyPatch (resetTimestamps 5000 (restorePatch 5000)) trashedItem).
  assert (out.2 = Ok (applyPatch (resetTimestamps 5000 (restorePatch 5000))
                        trashedItem)) as Hok by (vm_compute; reflexivity).
  split; [exact Hok|]. split; [vm_compute; reflexivity|].
  destruct (restore_makes_item_visible 5000 "t1" "alice" workingPubsub
              (worldOf [trashedItem]) _ Hok) as (_ & _ & _ & _ & Hvis).
  destruct (Hvis 0%Z 0%Z) as [H _].
  exact H.
Defined.

(** ** Bulk updates *)

(** The ordering of the builder a bulk action runs on: the rank of the
    free-text query when there is one, none otherwise. *)
Lemma orderBys_bulkQuery now args :
  orderBys (buildWhereClause now args createQueryBuilder)
  = match SearchArgs.query args with
    | Some (String _ _) =>
        [ {| ob_key := KRank "query"; ob_order := DESCENDING;
             ob_nullsLast := false |} ]
    | _ => []
    end.
Proof.
  unfold buildWhereClause, buildWhereClauseCalls.
  rewrite foldl_app, orderBys_foldl_andWhere
    by apply calls_after_query_andWhere.
  unfold queryCalls. by destruct (SearchArgs.query args) as [[|c q]|].
Qed.

Lemma orderBys_bulkQuery_no_query now args :
  noTextQuery args ->
  orderBys (buildWhereClause now args createQueryBuilder) = [].
Proof. rewrite orderBys_bulkQuery. by intros [-> | ->]. Qed.

Lemma updateLibraryItems_run now dbNow action args labels (w : World) values :
  bulkScript now action = Ok (values, false) ->
  noTextQuery args ->
  updateLibraryItems now dbNow action args labels w
  = ({| db := withItems (db w)
                (bulkRows (buildWhereClause now args createQueryBuilder) dbNow
                   values (library_item (db w)));
        outbox := outbox w |},
     Ok tt).
Proof.
  intros H Hq. unfold updateLibraryItems, bulkWork, executeUpdate.
  rewrite H, (orderBys_bulkQuery_no_query _ _ Hq). by destruct w.
Qed.

(** With a free-text query the UPDATE carries the ordering by rank and
    the store rejects it; the transaction leaves the world as it was. *)
Lemma updateLibraryItems_query_rejected
    now dbNow action args labels (w : World) values c q :
  bulkScript now action = Ok (values, false) ->
  SearchArgs.query args = Some (String c q) ->
  updateLibraryItems now dbNow action args labels w
  = (w, Throw (QueryFailed "syntax error at or near ORDER")).
Proof.
  intros H Hq. unfold updateLibraryItems, bulkWork, executeUpdate.
  rewrite H, orderBys_bulkQuery, Hq. by destruct w.
Qed.

Lemma bulkScript_values now action values :
  bulkScript now action = Ok (values, false) ->
  values !! "id" = None /\ values !! "userId" = None.
Proof. destruct action; intros [= <-]; by vm_compute. Qed.

Lemma applyPatch_id (p : Patch) r :
  p !! "id" = None -> LibraryItem.id (applyPatch p r) = LibraryItem.id r.
Proof. intros H. simpl. unfold patchString. by rewrite H. Qed.

Lemma applyPatch_userId (p : Patch) r :
  p !! "userId" = None ->
  LibraryItem.userId (applyPatch p r) = LibraryItem.userId r.
Proof. intros H. simpl. unfold patchString. by rewrite H. Qed.

Lemma bulkRows_lookup qb dbNow (values : Patch) table i r :
  table !! i = Some r ->
  bulkRows qb dbNow values table !! i
  = Some (if matches qb dbNow r then applyPatch values r else r).
Proof. intros H. unfold bulkRows. by rewrite list_lookup_fmap, H. Qed.

(** X5.  The bulk actions Archive, Delete and MarkAsRead, whatever the
    label argument.  When the filter carries a free-text query, the
    UPDATE carries its ordering by rank, the store rejects the
    statement, and the action rejects with the world as it was.  When
    it carries none, the action resolves: it keeps the number of rows
    and, place by place, the id and the owner of every row; a row the
    filter does not select stands unchanged; the join table and the
    outbox are untouched (no notification is published). *)
Theorem bulk_update_frame now dbNow action args labels (w : World) values :
  bulkScript now action = Ok (values, false) ->
  let qb := buildWhereClause now args createQueryBuilder in
  let out := updateLibraryItems now dbNow action args labels w in
  (forall c q, SearchArgs.query args = Some (String c q) ->
   out = (w, Throw (QueryFailed "syntax error at or near ORDER")))
  /\ (noTextQuery args ->
      out.2 = Ok tt
      /\ map LibraryItem.id (library_item (db out.1))
         = map LibraryItem.id (library_item (db w))
      /\ map LibraryItem.userId (library_item (db out.1))
         = map LibraryItem.userId (library_item (db w))
      /\ (forall i r, library_item (db w) !! i = Some r ->
          matches qb dbNow r = false -> library_item (db out.1) !! i = Some r)
      /\ entity_labels (db out.1) = entity_labels (db w)
      /\ outbox out.1 = outbox w)
  /\ out = updateLibraryItems now dbNow action args None w.
Proof.
  intros Hs qb out. subst out. split; [|split].
  - intros c q Hq. by apply (updateLibraryItems_query_rejected _ _ _ _ _ _ values c q).
  - intros Hq. rewrite (updateLibraryItems_run _ _ _ _ _ _ _ Hs Hq). simpl.
    destruct (bulkScript_values _ _ _ Hs) as [Hid Hu].
    split; [done|]. split; [|split; [|split; [|done]]].
    + unfold bulkRows. rewrite map_map. apply map_ext. intros r.
      destruct (matches _ dbNow r); [by apply applyPatch_id|done].
    + unfold bulkRows. rewrite map_map. apply map_ext. intros r.
      destruct (matches _ dbNow r); [by apply applyPatch_userId|done].
    + intros i r Hi Hm. rewrite (bulkRows_lookup _ _ _ _ _ _ Hi).
      fold qb. by rewrite Hm.
  - unfold updateLibraryItems. rewrite Hs. unfold bulkWork. done.
Qed.

Lemma bulk_update_frame_witness :
  let out := updateLibraryItems 5000 5000 MarkAsRead
               (with_includeDeleted (Some true) SearchArgs.empty) None
               (worldOf [ mkItem "p1" "alice" "Pending" Processing 1000;
                          mkItem "a1" "alice" "World News" Succeeded 1000 ]) in
  library_item (db out.1) !! 0
  = Some (mkItem "p1" "alice" "Pending" Processing 1000).
Proof.
  intros out.
  destruct (bulk_update_frame 5000 5000 MarkAsRead
              (with_includeDeleted (Some true) SearchArgs.empty) None
              (worldOf [ mkItem "p1" "alice" "Pending" Processing 1000;
                         mkItem "a1" "alice" "World News" Succeeded 1000 ])
              _ eq_refl) as (_ & H & _).
  destruct (H (or_introl eq_refl)) as (_ & _ & _ & H' & _).
  apply H'; [reflexivity|vm_compute; reflexivity].
Defined.

(** What a search after a bulk action sees. *)
Lemma searchQuery_excludes_Deleted now args userId dbNow r :
  SearchArgs.includeDeleted args <> Some true ->
  SearchArgs.inFilter args <> Some TRASH ->
  LibraryItem.state r = Deleted ->
  matches (searchQuery now args userId) dbNow r = false.
Proof.
  intros Hd Ht Hs.
  assert (includeDeletedCalls args <> []) as Hc.
  { unfold includeDeletedCalls.
    by destruct (SearchArgs.includeDeleted args) as [[|]|],
      (SearchArgs.inFilter args) as [[]|]. }
  destruct (matches _ dbNow r) eqn:E; [|done].
  eapply searchQuery_evalCond in E; [|apply stateNe_added; by right].
  unfold searchQuery, buildWhereClause in E.
  rewrite parameters_foldl_call in E.
  simpl in E. rewrite state_parameter_Deleted in E by done.
  by rewrite Hs in E.
Qed.

Lemma inbox_adds_not_archived now args :
  SearchArgs.inFilter args = Some INBOX ->
  CArchivedIsNull ∈ flat_map addedCond (buildWhereClauseCalls now args).
Proof.
  intros Hin. unfold buildWhereClauseCalls.
  rewrite !flat_map_app, !elem_of_app. right. right. left.
  unfold inFilterCalls. rewrite Hin. simpl. by left.
Qed.

Lemma searchQuery_inbox_excludes_archived now args userId dbNow r t :
  SearchArgs.inFilter args = Some INBOX ->
  LibraryItem.archivedAt r = Some t ->
  matches (searchQuery now args userId) dbNow r = false.
Proof.
  intros Hin Ha. destruct (matches _ dbNow r) eqn:E; [|done].
  eapply searchQuery_evalCond in E; [|by apply inbox_adds_not_archived].
  simpl in E. by rewrite Ha in E.
Qed.

Lemma trash_search_matches now userId dbNow r :
  matches (searchQuery now trashOnly userId) dbNow r
  = ownedBy userId r
    && (match LibraryItem.deletedAt r with
        | Some d => (dbNow - fourteenDays <=? d)%Z
        | None => false
        end
        && negb (LibraryItemState_eqb (LibraryItem.state r) Processing)).
Proof.
  rewrite matches_searchQuery. unfold ownedBy. f_equal.
  unfold searchQuery, buildWhereClause. rewrite parameters_foldl_call.
  change (buildWhereClauseCalls now trashOnly)
    with [ AndWhere CDeletedWithin14Days [];
           AndWhere (CStateNe "state") [("state", VState Processing)] ].
  simpl. unfold setParameters. simpl. rewrite lookup_insert_eq.
  by rewrite andb_true_r.
Qed.

(** X6.  After the bulk action MarkAsRead on a filter without free-text
    query (with one, the action rejects), every row the filter selected
    has readAt at the current time and both reading progress values at
    100, with its state as before; it satisfies the predicate of the
    read filter READ and not that of UNREAD, whatever the parameters. *)
Theorem bulk_mark_as_read now dbNow args labels (w : World) i r :
  let qb := buildWhereClause now args createQueryBuilder in
  let out := updateLibraryItems now dbNow MarkAsRead args labels w in
  noTextQuery args ->
  library_item (db w) !! i = Some r ->
  matches qb dbNow r = true ->
  exists r',
    library_item (db out.1) !! i = Some r'
    /\ LibraryItem.readAt r' = Some now
    /\ LibraryItem.readingProgressTopPercent r' = 100%Z
    /\ LibraryItem.readingProgressBottomPercent r' = 100%Z
    /\ LibraryItem.state r' = LibraryItem.state r
    /\ (forall ps dbNow', evalCond ps dbNow' r' CReadGe98 = true
                          /\ evalCond ps dbNow' r' CReadLt98 = false).
Proof.
  intros qb out Hq Hi Hm. eexists. split.
  { subst out.
    rewrite (updateLibraryItems_run now dbNow MarkAsRead args labels w _ eq_refl Hq).
    simpl.
    rewrite (bulkRows_lookup _ _ _ _ _ _ Hi). fold qb. by rewrite Hm. }
  repeat split; by vm_compute.
Qed.

Lemma bulk_mark_as_read_witness :
  let out := updateLibraryItems 5000 5000 MarkAsRead SearchArgs.empty None
               aliceOnly in
  exists r', library_item (db out.1) !! 0 = Some r'
             /\ LibraryItem.readAt r' = Some 5000%Z.
Proof.
  intros out.
  destruct (bulk_mark_as_read 5000 5000 SearchArgs.empty None aliceOnly 0
              (mkItem "a1" "alice" "World News" Succeeded 1000)
              (or_introl eq_refl) eq_refl)
    as (r' & H1 & H2 & _).
  { vm_compute. reflexivity. }
  exists r'. split; [exact H1|exact H2].
Defined.

(** X7.  After the bulk action Archive on a filter without free-text
    query (with one, the action rejects), every row the filter selected is
    in state Archived with archivedAt at the current time and deletedAt
    as before; no search of the inbox selects it afterwards, whatever the
    other filters, the user and the clocks. *)
Theorem bulk_archive_leaves_inbox now dbNow args labels (w : World) i r :
  let qb := buildWhereClause now args createQueryBuilder in
  let out := updateLibraryItems now dbNow Archive args labels w in
  noTextQuery args ->
  library_item (db w) !! i = Some r ->
  matches qb dbNow r = true ->
  exists r',
    library_item (db out.1) !! i = Some r'
    /\ LibraryItem.state r' = Archived
    /\ LibraryItem.archivedAt r' = Some now
    /\ LibraryItem.deletedAt r' = LibraryItem.deletedAt r
    /\ (forall now' dbNow' args' userId,
        SearchArgs.inFilter args' = Some INBOX ->
        matches (searchQuery now' args' userId) dbNow' r' = false).
Proof.
  intros qb out Hq Hi Hm. eexists. split.
  { subst out.
    rewrite (updateLibraryItems_run now dbNow Archive args labels w _ eq_refl Hq).
    simpl.
    rewrite (bulkRows_lookup _ _ _ _ _ _ Hi). fold qb. by rewrite Hm. }
  split; [by vm_compute|]. split; [by vm_compute|]. split; [by vm_compute|].
  intros now' dbNow' args' userId Hin.
  apply (searchQuery_inbox_excludes_archived _ _ _ _ _ now); [done|].
  by vm_compute.
Qed.

Lemma bulk_archive_leaves_inbox_witness :
  let out := updateLibraryItems 5000 5000 Archive SearchArgs.empty None
               aliceOnly in
  exists r', library_item (db out.1) !! 0 = Some r'
             /\ LibraryItem.state r' = Archived
             /\ matches (searchQuery 0 (with_inFilter (Some INBOX)
                                          SearchArgs.empty) "alice") 0 r'
                = false.
Proof.
  intros out.
  destruct (bulk_archive_leaves_inbox 5000 5000 SearchArgs.empty None aliceOnly
              0 (mkItem "a1" "alice" "World News" Succeeded 1000)
              (or_introl eq_refl) eq_refl)
    as (r' & H1 & H2 & _ & _ & H3).
  { vm_compute. reflexivity. }
  exists r'. split; [exact H1|]. split; [exact H2|].
  apply H3. reflexivity.
Defined.

(** X8.  After the bulk action Delete on a filter without free-text
    query (with one, the action rejects), every row the filter selected is
    in state Deleted with deletedAt at the current time.  No search
    selects it afterwards unless it includes deleted items or has the
    scope TRASH; and the owner's search of the trash, with no other
    filter set, selects it as long as the store's clock is at most
    fourteen days past the time of the deletion. *)
Theorem bulk_delete_moves_to_trash now dbNow args labels (w : World) i r :
  let qb := buildWhereClause now args createQueryBuilder in
  let out := updateLibraryItems now dbNow Delete args labels w in
  noTextQuery args ->
  library_item (db w) !! i = Some r ->
  matches qb dbNow r = true ->
  exists r',
    library_item (db out.1) !! i = Some r'
    /\ LibraryItem.state r' = Deleted
    /\ LibraryItem.deletedAt r' = Some now
    /\ (forall now' dbNow' args' userId,
        SearchArgs.includeDeleted args' <> Some true ->
        SearchArgs.inFilter args' <> Some TRASH ->
        matches (searchQuery now' args' userId) dbNow' r' = false)
    /\ (forall now' dbNow',
        (dbNow' - fourteenDays <= now)%Z ->
        matches (searchQuery now' trashOnly (LibraryItem.userId r)) dbNow' r'
        = true).
Proof.
  intros qb out Hq Hi Hm. eexists. split.
  { subst out.
    rewrite (updateLibraryItems_run now dbNow Delete args labels w _ eq_refl Hq).
    simpl.
    rewrite (bulkRows_lookup _ _ _ _ _ _ Hi). fold qb. by rewrite Hm. }
  split; [by vm_compute|]. split; [by vm_compute|]. split.
  - intros now' dbNow' args' userId Hd Ht.
    apply searchQuery_excludes_Deleted; [done|done|by vm_compute].
  - intros now' dbNow' Hle. rewrite trash_search_matches.
    apply andb_true_iff. split.
    + unfold ownedBy. rewrite applyPatch_userId by (by vm_compute).
      apply String.eqb_refl.
    + apply andb_true_iff. split; [|by vm_compute].
      assert (LibraryItem.deletedAt
                (applyPatch
                   (<["state" := VState Deleted]>
                      (<["deletedAt" := VDate now]> ∅)) r) = Some now) as ->
        by (by vm_compute).
      by apply Z.leb_le.
Qed.

Lemma bulk_delete_moves_to_trash_witness :
  let out := updateLibraryItems 5000 5000 Delete SearchArgs.empty None
               aliceOnly in
  exists r', library_item (db out.1) !! 0 = Some r'
             /\ matches (searchQuery 0 SearchArgs.empty "alice") 5000 r' = false
             /\ matches (searchQuery 0 trashOnly "alice") 5000 r' = true.
Proof.
  intros out.
  destruct (bulk_delete_moves_to_trash 5000 5000 SearchArgs.empty None aliceOnly
              0 (mkItem "a1" "alice" "World News" Succeeded 1000)
              (or_introl eq_refl) eq_refl)
    as (r' & H1 & _ & _ & H2 & H3).
  { vm_compute. reflexivity. }
  exists r'. split; [exact H1|]. split.
  - apply H2; discriminate.
  - apply (H3 0%Z 5000%Z). unfold fourteenDays. lia.
Defined.

(** ** The bulk action AddLabels *)









(** ** The prefix lookup *)

Lemma like_percent (s : list ascii) : like ["%"%char] s = true.
Proof. induction s as [|c s IH]; simpl in *; [done|]. exact IH. Qed.

Lemma plainChar_lower (c : ascii) : plainChar (lower_ascii c) = plainChar c.
Proof. destruct c as [[] [] [] [] [] [] [] []]; reflexivity. Qed.

Lemma plainString_lower (s : string) :
  plainString (toLowerCase s) = plainString s.
Proof.
  induction s as [|c s IH]; simpl; [done|]. by rewrite plainChar_lower, IH.
Qed.

Lemma toLowerCase_append (a b : string) :
  toLowerCase (a +:+ b) = toLowerCase a +:+ toLowerCase b.
Proof.
  induction a as [|c a IH]; unfold_append; [done|]. simpl. by rewrite IH.
Qed.

(** A pattern of literal characters followed by [%] matches the strings
    that start with those characters. *)
Lemma like_plain_prefix (p s : string) :
  plainString p = true ->
  like (list_ascii_of_string (p +:+ "%")) (list_ascii_of_string s)
  = String.prefix p s.
Proof.
  revert s. induction p as [|c p IH]; intros s Hp; unfold_append.
  - rewrite like_percent. by destruct s.
  - simpl in Hp. apply andb_true_iff in Hp as [Hc Hp].
    unfold plainChar in Hc. rewrite !andb_true_iff, !negb_true_iff in Hc.
    destruct Hc as [[H1 H2] H3].
    change (list_ascii_of_string (String c (p +:+ "%")))
      with (c :: list_ascii_of_string (p +:+ "%")).
    destruct s as [|d s]; simpl; rewrite H1, H2, H3; [done|].
    rewrite IH by done.
    destruct (ascii_dec c d) as [->|Hne].
    + by rewrite Ascii.eqb_refl.
    + apply Ascii.eqb_neq in Hne. by rewrite Hne.
Qed.

Lemma ilike_plain_prefix (prefix s : string) :
  plainString prefix = true ->
  ilike s (prefix +:+ "%")
  = String.prefix (toLowerCase prefix) (toLowerCase s).
Proof.
  intros Hp. unfold ilike. rewrite toLowerCase_append.
  change (toLowerCase "%") with "%".
  apply like_plain_prefix. by rewrite plainString_lower.
Qed.

Lemma ilike_percent (s : string) : ilike s "%" = true.
Proof. unfold ilike. apply like_percent. Qed.

(** The rows the prefix lookup selects. *)
Lemma matches_prefixQuery prefix limit dbNow r :
  matches (prefixQuery prefix limit) dbNow r
  = ilike (LibraryItem.title r) (prefix +:+ "%")
    || match LibraryItem.siteName r with
       | Some s => ilike s (prefix +:+ "%")
       | None => false
       end.
Proof.
  unfold matches, prefixQuery. simpl. unfold setParameters. simpl.
  rewrite !lookup_insert_eq. by destruct (LibraryItem.siteName r).
Qed.

Lemma findLibraryItemsByPrefix_run dbNow prefix limit (w : World) :
  findLibraryItemsByPrefix dbNow prefix limit w
  = (w, Ok (getMany (prefixQuery prefix (default 5 limit)) dbNow
              (library_item (db w)))).
Proof. by destruct w. Qed.

Lemma Sorted_firstn {A} (R : A -> A -> Prop) (l : list A) n :
  Sorted R l -> Sorted R (firstn n l).
Proof.
  revert n. induction l as [|x l IH]; intros n Hs; destruct n; simpl;
    try constructor.
  - apply IH. by inversion Hs.
  - inversion Hs as [|? ? _ Hhd]; subst.
    destruct l as [|y l]; destruct n; simpl; constructor.
    by inversion Hhd.
Qed.

Lemma Sorted_weaken {A} (R R' : A -> A -> Prop) (l : list A) :
  (forall a b, R a b -> R' a b) -> Sorted R l -> Sorted R' l.
Proof.
  intros HR. induction 1 as [|x l _ IH Hhd]; constructor; [done|].
  destruct Hhd; constructor. by apply HR.
Qed.

Lemma notAfter_savedAt ps (a b : LibraryItem.t) :
  notAfter ps
    [{| ob_key := KColumn "savedAt"; ob_order := DESCENDING;
        ob_nullsLast := false |}] a b ->
  savedNotBefore a b.
Proof.
  unfold notAfter, savedNotBefore. simpl. unfold compareBy. simpl.
  destruct (LibraryItem.savedAt b ?= LibraryItem.savedAt a)%Z eqn:E;
    intros H; try done.
  - apply Z.compare_eq_iff in E. rewrite E. apply Z.le_refl.
  - apply Z.compare_lt_iff in E. by apply Z.lt_le_incl.
Qed.

(** X10.  [findLibraryItemsByPrefix] always resolves and leaves the
    world as it is.  It returns at most [limit] rows, five when no limit
    is given; every row returned is a row of the table whose title or
    site name matches the pattern made of the prefix and [%], without
    regard to case; and the rows come most recently saved first. *)
Theorem prefix_lookup_result dbNow prefix limit (w : World) :
  exists rows,
    findLibraryItemsByPrefix dbNow prefix limit w = (w, Ok rows)
    /\ length rows <= default 5 limit
    /\ Forall (fun r =>
                 r ∈ library_item (db w)
                 /\ (ilike (LibraryItem.title r) (prefix +:+ "%") = true
                     \/ exists s, LibraryItem.siteName r = Some s
                                  /\ ilike s (prefix +:+ "%") = true))
         rows
    /\ Sorted savedNotBefore rows.
Proof.
  eexists. split; [apply findLibraryItemsByPrefix_run|].
  split; [|split].
  - unfold getMany, paginate. simpl. rewrite length_take. lia.
  - apply Forall_forall. intros r Hr.
    apply elem_of_getMany in Hr as [Hin Hm]. split; [done|].
    rewrite matches_prefixQuery in Hm. apply orb_true_iff in Hm as [Hm|Hm].
    + by left.
    + right. destruct (LibraryItem.siteName r) as [s|]; [|done]. by exists s.
  - unfold getMany, paginate. simpl. apply Sorted_firstn.
    eapply Sorted_weaken; [|apply sortRows_Sorted].
    intros a b. apply notAfter_savedAt.
Qed.

(** X11.  For a prefix without the characters [%], [_] and backslash,
    the prefix lookup selects exactly the rows whose title or site name
    starts with the prefix, both case folded. *)
Theorem prefix_lookup_plain prefix limit dbNow r :
  plainString prefix = true ->
  matches (prefixQuery prefix limit) dbNow r = startsWithFolded prefix r.
Proof.
  intros Hp. rewrite matches_prefixQuery. unfold startsWithFolded.
  rewrite ilike_plain_prefix by done.
  destruct (LibraryItem.siteName r) as [s|]; [|done].
  by rewrite ilike_plain_prefix.
Qed.

Lemma prefix_lookup_plain_witness :
  matches (prefixQuery "Wo" 5) 0
    (mkItem "a1" "alice" "World News" Succeeded 1000) = true
  /\ matches (prefixQuery "wO" 5) 0
       (mkItem "n1" "alice" "News of the World" Succeeded 1000) = false.
Proof.
  split.
  - rewrite (prefix_lookup_plain "Wo" 5 0
               (mkItem "a1" "alice" "World News" Succeeded 1000) eq_refl).
    reflexivity.
  - rewrite (prefix_lookup_plain "wO" 5 0
               (mkItem "n1" "alice" "News of the World" Succeeded 1000)
               eq_refl).
    reflexivity.
Defined.

(** X12.  The prefix is not escaped.  With the empty prefix the pattern
    is [%], which every title matches: the lookup then returns the most
    recently saved rows of the whole table, as many as the limit allows. *)
Theorem prefix_lookup_empty dbNow limit (w : World) :
  (forall r, matches (prefixQuery "" (default 5 limit)) dbNow r = true)
  /\ exists rows,
       findLibraryItemsByPrefix dbNow "" limit w = (w, Ok rows)
       /\ length rows = min (default 5 limit) (length (library_item (db w))).
Proof.
  assert (forall r, matches (prefixQuery "" (default 5 limit)) dbNow r = true)
    as Hall.
  { intros r. rewrite matches_prefixQuery. change ("" +:+ "%") with "%".
    by rewrite ilike_percent. }
  split; [done|].
  eexists. split; [apply findLibraryItemsByPrefix_run|].
  unfold getMany, paginate. simpl. rewrite length_take, length_sortRows.
  f_equal. unfold selected.
  induction (library_item (db w)) as [|r l IH]; simpl; [done|].
  rewrite Hall. simpl. by rewrite IH.
Qed.

(** ** Scope and read filters partition the rows *)

Lemma matches_fresh_selectedBy now args dbNow r :
  matches (buildWhereClause now args createQueryBuilder) dbNow r
  = selectedBy now args ∅ dbNow r.
Proof. apply matches_buildWhereClause. Qed.

Lemma matches_search_selectedBy now args userId dbNow r :
  matches (searchQuery now args userId) dbNow r
  = ownedBy userId r
    && selectedBy now args {[ "userId" := VString userId ]} dbNow r.
Proof.
  rewrite matches_searchQuery. unfold ownedBy, selectedBy. f_equal.
  unfold searchQuery, buildWhereClause. by rewrite parameters_foldl_call.
Qed.

(** Changing the scope among the values other than TRASH changes only
    the predicates of the scope. *)
Lemma selectedBy_inFilter now args m0 dbNow r (v : option InFilter) :
  v <> Some TRASH ->
  selectedBy now (with_inFilter v args) m0 dbNow r
  = selectedBy now (with_inFilter (Some ALL) args) m0 dbNow r
    && forallb (evalCond ∅ dbNow r)
         (flat_map addedCond (inFilterCalls (with_inFilter v args))).
Proof.
  intros Hv. unfold selectedBy.
  assert (flat_map bindings (buildWhereClauseCalls now (with_inFilter v args))
          = flat_map bindings
              (buildWhereClauseCalls now (with_inFilter (Some ALL) args)))
    as ->.
  { unfold buildWhereClauseCalls. rewrite !flat_map_app. f_equal. f_equal.
    f_equal; [by destruct v as [[]|]|].
    do 7 f_equal. f_equal.
    unfold includeDeletedCalls. simpl.
    by destruct (SearchArgs.includeDeleted args) as [[|]|], v as [[]|]. }
  set (ps := setParameters _ m0).
  unfold buildWhereClauseCalls. rewrite !flat_map_app, !forallb_app.
  assert (includeDeletedCalls (with_inFilter v args)
          = includeDeletedCalls (with_inFilter (Some ALL) args)) as ->.
  { unfold includeDeletedCalls. simpl.
    by destruct (SearchArgs.includeDeleted args) as [[|]|], v as [[]|]. }
  assert (forallb (evalCond ps dbNow r)
            (flat_map addedCond (inFilterCalls (with_inFilter v args)))
          = forallb (evalCond ∅ dbNow r)
              (flat_map addedCond (inFilterCalls (with_inFilter v args))))
    as ->.
  { by destruct v as [[]|]. }
  simpl (forallb _ (flat_map addedCond
                      (inFilterCalls (with_inFilter (Some ALL) args)))).
  change (queryCalls (with_inFilter v args)) with (queryCalls args).
  change (queryCalls (with_inFilter (Some ALL) args)) with (queryCalls args).
  change (typeFilterCalls (with_inFilter v args)) with (typeFilterCalls args).
  change (typeFilterCalls (with_inFilter (Some ALL) args))
    with (typeFilterCalls args).
  match goal with
  | |- ?a && (?b && (?x && ?c)) = ?a && (?b && (true && ?c')) && ?x =>
      change c' with c; by destruct a, b, x, c
  end.
Qed.

Lemma selectedBy_scopes now args m0 dbNow r :
  let sel v := selectedBy now (with_inFilter v args) m0 dbNow r in
  let archived := negb (isNull (LibraryItem.archivedAt r)) in
  let subscribed := negb (isNull (LibraryItem.subscription r)) in
  let library := ilikeAny "library" (LibraryItem.labelNames r) in
  sel None = sel (Some ALL)
  /\ sel (Some INBOX) = sel (Some ALL) && negb archived
  /\ sel (Some ARCHIVE) = sel (Some ALL) && archived
  /\ sel (Some SUBSCRIPTION)
     = sel (Some ALL) && negb archived && (subscribed && negb library)
  /\ sel (Some LIBRARY)
     = sel (Some ALL) && negb archived && (negb subscribed || library).
Proof.
  intros sel archived subscribed library. subst sel. cbv beta.
  rewrite (selectedBy_inFilter now args m0 dbNow r None) by done.
  rewrite (selectedBy_inFilter now args m0 dbNow r (Some INBOX)) by done.
  rewrite (selectedBy_inFilter now args m0 dbNow r (Some ARCHIVE)) by done.
  rewrite (selectedBy_inFilter now args m0 dbNow r (Some SUBSCRIPTION)) by done.
  rewrite (selectedBy_inFilter now args m0 dbNow r (Some LIBRARY)) by done.
  subst archived subscribed library. simpl.
  destruct (selectedBy now (with_inFilter (Some ALL) args) m0 dbNow r),
    (isNull (LibraryItem.archivedAt r)),
    (isNull (LibraryItem.subscription r)),
    (ilikeAny "library" (LibraryItem.labelNames r)); done.
Qed.

(** X13.  For every filter specification and row, with all other
    filters fixed: leaving the scope unset selects the same rows as the
    scope ALL; the scopes INBOX and ARCHIVE split the rows of ALL in
    two, by whether archivedAt is null, and no row is in both.  This
    holds of the query built on a fresh builder (the target set of the
    bulk actions) and of the search query. *)
Theorem scope_inbox_archive_partition now dbNow args userId r :
  let m v := matches (buildWhereClause now (with_inFilter v args)
                        createQueryBuilder) dbNow r in
  let s v := matches (searchQuery now (with_inFilter v args) userId) dbNow r in
  (m None = m (Some ALL)
   /\ m (Some INBOX) = m (Some ALL) && isNull (LibraryItem.archivedAt r)
   /\ m (Some ARCHIVE) = m (Some ALL) && negb (isNull (LibraryItem.archivedAt r))
   /\ m (Some ALL) = m (Some INBOX) || m (Some ARCHIVE)
   /\ m (Some INBOX) && m (Some ARCHIVE) = false)
  /\ (s None = s (Some ALL)
      /\ s (Some INBOX) = s (Some ALL) && isNull (LibraryItem.archivedAt r)
      /\ s (Some ARCHIVE)
         = s (Some ALL) && negb (isNull (LibraryItem.archivedAt r))
      /\ s (Some ALL) = s (Some INBOX) || s (Some ARCHIVE)
      /\ s (Some INBOX) && s (Some ARCHIVE) = false).
Proof.
  intros m s. subst m s. cbv beta.
  rewrite !matches_fresh_selectedBy, !matches_search_selectedBy.
  destruct (selectedBy_scopes now args ∅ dbNow r) as (-> & -> & -> & _).
  destruct (selectedBy_scopes now args {[ "userId" := VString userId ]} dbNow r)
    as (-> & -> & -> & _).
  destruct (selectedBy now (with_inFilter (Some ALL) args) ∅ dbNow r),
    (selectedBy now (with_inFilter (Some ALL) args)
       {[ "userId" := VString userId ]} dbNow r),
    (isNull (LibraryItem.archivedAt r)), (ownedBy userId r); done.
Qed.

(** X14.  With all other filters fixed, the scopes SUBSCRIPTION and
    LIBRARY split the rows of INBOX in two: SUBSCRIPTION takes the rows
    that have a subscription and no label matching [library], LIBRARY
    the others; no row is in both. *)
Theorem scope_subscription_library_partition now dbNow args userId r :
  let m v := matches (buildWhereClause now (with_inFilter v args)
                        createQueryBuilder) dbNow r in
  let s v := matches (searchQuery now (with_inFilter v args) userId) dbNow r in
  let feed := negb (isNull (LibraryItem.subscription r))
              && negb (ilikeAny "library" (LibraryItem.labelNames r)) in
  (m (Some SUBSCRIPTION) = m (Some INBOX) && feed
   /\ m (Some LIBRARY) = m (Some INBOX) && negb feed
   /\ m (Some INBOX) = m (Some SUBSCRIPTION) || m (Some LIBRARY)
   /\ m (Some SUBSCRIPTION) && m (Some LIBRARY) = false)
  /\ (s (Some SUBSCRIPTION) = s (Some INBOX) && feed
      /\ s (Some LIBRARY) = s (Some INBOX) && negb feed
      /\ s (Some INBOX) = s (Some SUBSCRIPTION) || s (Some LIBRARY)
      /\ s (Some SUBSCRIPTION) && s (Some LIBRARY) = false).
Proof.
  intros m s feed. subst m s feed. cbv beta.
  rewrite !matches_fresh_selectedBy, !matches_search_selectedBy.
  destruct (selectedBy_scopes now args ∅ dbNow r) as (_ & -> & _ & -> & ->).
  destruct (selectedBy_scopes now args {[ "userId" := VString userId ]} dbNow r)
    as (_ & -> & _ & -> & ->).
  destruct (selectedBy now (with_inFilter (Some ALL) args) ∅ dbNow r),
    (selectedBy now (with_inFilter (Some ALL) args)
       {[ "userId" := VString userId ]} dbNow r),
    (isNull (LibraryItem.archivedAt r)), (ownedBy userId r),
    (isNull (LibraryItem.subscription r)),
    (ilikeAny "library" (LibraryItem.labelNames r)); done.
Qed.

Lemma selectedBy_readFilter now args m0 dbNow r (v : option ReadFilter) :
  selectedBy now (with_readFilter v args) m0 dbNow r
  = selectedBy now (with_readFilter (Some READ_ALL) args) m0 dbNow r
    && forallb (evalCond ∅ dbNow r)
         (flat_map addedCond (readFilterCalls (with_readFilter v args))).
Proof.
  unfold selectedBy.
  assert (flat_map bindings (buildWhereClauseCalls now (with_readFilter v args))
          = flat_map bindings
              (buildWhereClauseCalls now (with_readFilter (Some READ_ALL) args)))
    as ->.
  { unfold buildWhereClauseCalls. rewrite !flat_map_app. do 3 f_equal.
    f_equal. by destruct v as [[]|]. }
  set (ps := setParameters _ m0).
  unfold buildWhereClauseCalls. rewrite !flat_map_app, !forallb_app.
  assert (forallb (evalCond ps dbNow r)
            (flat_map addedCond (readFilterCalls (with_readFilter v args)))
          = forallb (evalCond ∅ dbNow r)
              (flat_map addedCond (readFilterCalls (with_readFilter v args))))
    as ->.
  { by destruct v as [[]|]. }
  simpl (forallb _ (flat_map addedCond
                      (readFilterCalls (with_readFilter (Some READ_ALL) args)))).
  change (queryCalls (with_readFilter v args)) with (queryCalls args).
  change (queryCalls (with_readFilter (Some READ_ALL) args))
    with (queryCalls args).
  change (typeFilterCalls (with_readFilter v args)) with (typeFilterCalls args).
  change (typeFilterCalls (with_readFilter (Some READ_ALL) args))
    with (typeFilterCalls args).
  change (inFilterCalls (with_readFilter v args)) with (inFilterCalls args).
  change (inFilterCalls (with_readFilter (Some READ_ALL) args))
    with (inFilterCalls args).
  match goal with
  | |- ?a && (?b && (?c0 && (?x && ?c)))
       = ?a && (?b && (?c0 && (true && ?c'))) && ?x =>
      change c' with c; by destruct a, b, c0, x, c
  end.
Qed.

(** X15.  With all other filters fixed, leaving the read filter unset
    selects the same rows as ALL, and the read filters READ and UNREAD
    split those rows in two at a top reading progress of 98: READ takes
    98 and above, UNREAD everything below, no row is in both. *)
Theorem read_filter_partition now dbNow args userId r :
  let m v := matches (buildWhereClause now (with_readFilter v args)
                        createQueryBuilder) dbNow r in
  let s v := matches (searchQuery now (with_readFilter v args) userId) dbNow r in
  let read := (98 <=? LibraryItem.readingProgressTopPercent r)%Z in
  (m None = m (Some READ_ALL)
   /\ m (Some READ) = m (Some READ_ALL) && read
   /\ m (Some UNREAD) = m (Some READ_ALL) && negb read
   /\ m (Some READ_ALL) = m (Some READ) || m (Some UNREAD)
   /\ m (Some READ) && m (Some UNREAD) = false)
  /\ (s None = s (Some READ_ALL)
      /\ s (Some READ) = s (Some READ_ALL) && read
      /\ s (Some UNREAD) = s (Some READ_ALL) && negb read
      /\ s (Some READ_ALL) = s (Some READ) || s (Some UNREAD)
      /\ s (Some READ) && s (Some UNREAD) = false).
Proof.
  intros m s read. subst m s read. cbv beta.
  rewrite !matches_fresh_selectedBy, !matches_search_selectedBy.
  rewrite (selectedBy_readFilter now args ∅ dbNow r None),
    (selectedBy_readFilter now args ∅ dbNow r (Some READ)),
    (selectedBy_readFilter now args ∅ dbNow r (Some UNREAD)),
    (selectedBy_readFilter now args _ dbNow r None),
    (selectedBy_readFilter now args _ dbNow r (Some READ)),
    (selectedBy_readFilter now args _ dbNow r (Some UNREAD)).
  simpl forallb. simpl evalCond. rewrite !Z.ltb_antisym.
  destruct (selectedBy now (with_readFilter (Some READ_ALL) args) ∅ dbNow r),
    (selectedBy now (with_readFilter (Some READ_ALL) args)
       {[ "userId" := VString userId ]} dbNow r),
    (98 <=? LibraryItem.readingProgressTopPercent r)%Z, (ownedBy userId r);
    done.
Qed.

(** ** Single filters, whatever the other filters *)

(** Names bound after the date filters, after the term filters, and
    after the id filter. *)
Lemma after_ids_names args k :
  k ∈ (flat_map bindings
         (includePendingCalls args ++ includeDeletedCalls args
            ++ noFilterCalls args ++ recommendedByCalls args)).*1 ->
  k = "state" \/ k = "recommendedBy".
Proof.
  rewrite flat_map_app, fmap_app, elem_of_app. intros [H|H].
  { left. unfold includePendingCalls in H.
    destruct (SearchArgs.includePending args) as [[|]|];
      try (by apply elem_of_nil in H); by apply list_elem_of_singleton in H. }
  rewrite flat_map_app, fmap_app, elem_of_app in H. destruct H as [H|H].
  { left. unfold includeDeletedCalls in H.
    destruct (SearchArgs.includeDeleted args) as [[|]|],
      (SearchArgs.inFilter args) as [[]|];
      try (by apply elem_of_nil in H); by apply list_elem_of_singleton in H. }
  right. by apply (tail_calls_names args) in H.
Qed.

Lemma after_match_names args k :
  k ∈ (flat_map bindings
         (idsCalls args ++ includePendingCalls args ++ includeDeletedCalls args
            ++ noFilterCalls args ++ recommendedByCalls args)).*1 ->
  k = "ids" \/ k = "state" \/ k = "recommendedBy".
Proof.
  rewrite flat_map_app, fmap_app, elem_of_app. intros [H|H].
  - left. unfold idsCalls in H.
    destruct (SearchArgs.ids args) as [[|? ?]|];
      try (by apply elem_of_nil in H); by apply list_elem_of_singleton in H.
  - right. by apply (after_ids_names args).
Qed.

Lemma after_term_names args k :
  k ∈ (flat_map bindings
         (matchFilterCalls args ++ idsCalls args ++ includePendingCalls args
            ++ includeDeletedCalls args ++ noFilterCalls args
            ++ recommendedByCalls args)).*1 ->
  (exists f, k = "match_" +:+ f)
  \/ k = "ids" \/ k = "state" \/ k = "recommendedBy".
Proof.
  rewrite flat_map_app, fmap_app, elem_of_app. intros [H|H].
  - left. rewrite fmap_fst_flat_map_bindings in H.
    by apply matchFilterCalls_names in H.
  - right. by apply (after_match_names args).
Qed.

Lemma after_date_names args k :
  k ∈ (flat_map bindings
         (termFilterCalls args ++ matchFilterCalls args ++ idsCalls args
            ++ includePendingCalls args ++ includeDeletedCalls args
            ++ noFilterCalls args ++ recommendedByCalls args)).*1 ->
  (exists f, k = "term_" +:+ f) \/ (exists f, k = "match_" +:+ f)
  \/ k = "ids" \/ k = "state" \/ k = "recommendedBy".
Proof.
  rewrite flat_map_app, fmap_app, elem_of_app. intros [H|H].
  - left. rewrite fmap_fst_flat_map_bindings in H.
    by apply termFilterCalls_names in H.
  - right. by apply (after_term_names args).
Qed.

Lemma setParameters_before (ps1 ps2 : list (string * Value))
    (m : gmap string Value) (k : string) :
  k ∉ ps2.*1 ->
  setParameters (ps1 ++ ps2) m !! k = setParameters ps1 m !! k.
Proof. intros H. by rewrite setParameters_app, setParameters_notin. Qed.

Lemma dateColumn_known col r t :
  dateColumn col r = Some t ->
  col ∈ ["saved_at"; "created_at"; "archived_at"; "deleted_at"; "read_at"].
Proof.
  unfold dateColumn. intros H.
  destruct (String.eqb col "saved_at") eqn:E1;
    [apply String.eqb_eq in E1 as ->; set_solver|].
  destruct (String.eqb col "created_at") eqn:E2;
    [apply String.eqb_eq in E2 as ->; set_solver|].
  destruct (String.eqb col "archived_at") eqn:E3;
    [apply String.eqb_eq in E3 as ->; set_solver|].
  destruct (String.eqb col "deleted_at") eqn:E4;
    [apply String.eqb_eq in E4 as ->; set_solver|].
  destruct (String.eqb col "read_at") eqn:E5;
    [apply String.eqb_eq in E5 as ->; set_solver|].
  done.
Qed.

Lemma bindings_date_split now args :
  flat_map bindings (buildWhereClauseCalls now args)
  = flat_map bindings
      (queryCalls args ++ typeFilterCalls args ++ inFilterCalls args
         ++ readFilterCalls args ++ hasFilterCalls args
         ++ labelFilterCalls args)
    ++ flat_map bindings (dateFilterCalls now args)
    ++ flat_map bindings
         (termFilterCalls args ++ matchFilterCalls args ++ idsCalls args
            ++ includePendingCalls args ++ includeDeletedCalls args
            ++ noFilterCalls args ++ recommendedByCalls args).
Proof.
  unfold buildWhereClauseCalls. by rewrite !flat_map_app, <- !app_assoc.
Qed.

Lemma date_names_not_later args (f suffix : string) :
  f ∈ ["saved_at"; "created_at"; "archived_at"; "deleted_at"; "read_at"] ->
  suffix = "_start" \/ suffix = "_end" ->
  f +:+ suffix
  ∉ (flat_map bindings
       (termFilterCalls args ++ matchFilterCalls args ++ idsCalls args
          ++ includePendingCalls args ++ includeDeletedCalls args
          ++ noFilterCalls args ++ recommendedByCalls args)).*1.
Proof.
  intros Hf Hs H. apply after_date_names in H.
  repeat (apply elem_of_cons in Hf as [->|Hf]);
    [..|by apply elem_of_nil in Hf];
    destruct Hs as [-> | ->];
    destruct H as [[f' H]|[[f' H]|[H|[H|H]]]];
    unfold_append; discriminate.
Qed.

(** The parameters of a single date filter on a column of the table. *)
Lemma date_parameters_final now args (m : gmap string Value) flt :
  SearchArgs.dateFilters args = Some [flt] ->
  df_field flt
  ∈ ["saved_at"; "created_at"; "archived_at"; "deleted_at"; "read_at"] ->
  let ps := setParameters (flat_map bindings (buildWhereClauseCalls now args)) m in
  ps !! (df_field flt +:+ "_start")
  = Some (VDate (default 0%Z (df_startDate flt)))
  /\ ps !! (df_field flt +:+ "_end")
     = Some (VDate (default now (df_endDate flt))).
Proof.
  intros Hd Hf ps. subst ps. rewrite bindings_date_split.
  unfold dateFilterCalls. rewrite Hd. simpl orEmpty. simpl map.
  simpl (flat_map bindings [_]).
  set (pre := flat_map bindings (queryCalls args ++ _)).
  set (post := flat_map bindings (termFilterCalls args ++ _)).
  split.
  - change (pre ++ [?a; ?b] ++ post) with (pre ++ a :: (b :: post)).
    apply setParameters_last. simpl. intros H.
    apply elem_of_cons in H as [H|H].
    + apply (inj (String.append (df_field flt))) in H. discriminate.
    + revert H. apply date_names_not_later; [done|by left].
  - replace (pre ++ [(df_field flt +:+ "_start",
                      VDate (default 0%Z (df_startDate flt)));
                     (df_field flt +:+ "_end",
                      VDate (default now (df_endDate flt)))] ++ post)
      with ((pre ++ [(df_field flt +:+ "_start",
                      VDate (default 0%Z (df_startDate flt)))])
            ++ (df_field flt +:+ "_end",
                VDate (default now (df_endDate flt))) :: post)
      by (by rewrite <- app_assoc).
    apply setParameters_last.
    apply date_names_not_later; [done|by right].
Qed.

Lemma date_filter_added now args flt :
  SearchArgs.dateFilters args = Some [flt] ->
  CBetween (df_field flt) (df_field flt +:+ "_start") (df_field flt +:+ "_end")
  ∈ flat_map addedCond (buildWhereClauseCalls now args).
Proof.
  intros Hd. unfold buildWhereClauseCalls.
  rewrite !flat_map_app, !elem_of_app. do 6 right. left.
  unfold dateFilterCalls. rewrite Hd. simpl. by left.
Qed.

Lemma evalCond_between ps dbNow r col ps1 pe1 s e :
  evalCond ps dbNow r (CBetween col ps1 pe1) = true ->
  (forall t, dateColumn col r = Some t ->
             ps !! ps1 = Some (VDate s) /\ ps !! pe1 = Some (VDate e)) ->
  exists t, dateColumn col r = Some t /\ (s <= t <= e)%Z.
Proof.
  simpl. intros H Hps.
  destruct (dateColumn col r) as [t|] eqn:Et; [|done].
  destruct (Hps t eq_refl) as [Hs He]. rewrite Hs, He in H.
  apply andb_true_iff in H as [H1 H2].
  exists t. split; [done|]. split; by apply Z.leb_le.
Qed.

(** X16.  With a single date filter, whatever the other filters: every
    row selected has a value in the filtered column that lies between
    the start and the end of the filter, both included; an omitted start
    stands for the epoch and an omitted end for the current time of the
    application. *)
Theorem date_filter_bounds now dbNow args userId flt r :
  SearchArgs.dateFilters args = Some [flt] ->
  matches (buildWhereClause now args createQueryBuilder) dbNow r = true
  \/ matches (searchQuery now args userId) dbNow r = true ->
  exists t,
    dateColumn (df_field flt) r = Some t
    /\ (default 0 (df_startDate flt) <= t <= default now (df_endDate flt))%Z.
Proof.
  intros Hd [H|H].
  - eapply matches_evalCond in H; [|by apply date_filter_added].
    eapply evalCond_between; [exact H|].
    intros t Ht. unfold buildWhereClause. rewrite parameters_foldl_call.
    apply date_parameters_final; [done|by apply dateColumn_known in Ht].
  - eapply searchQuery_evalCond in H; [|by apply date_filter_added].
    eapply evalCond_between; [exact H|].
    intros t Ht. unfold searchQuery, buildWhereClause.
    rewrite parameters_foldl_call.
    apply date_parameters_final; [done|by apply dateColumn_known in Ht].
Qed.

Lemma date_filter_bounds_witness :
  exists t,
    dateColumn "saved_at" (mkItem "a1" "alice" "World News" Succeeded 1000)
    = Some t
    /\ (0 <= t <= 5000)%Z.
Proof.
  apply (date_filter_bounds 5000 0
           (with_dateFilters (Some [openDateFilter]) SearchArgs.empty)
           "alice" openDateFilter
           (mkItem "a1" "alice" "World News" Succeeded 1000) eq_refl).
  left. vm_compute. reflexivity.
Defined.

(** *** Term and type filters *)

Lemma bindings_term_split now args :
  flat_map bindings (buildWhereClauseCalls now args)
  = flat_map bindings
      (queryCalls args ++ typeFilterCalls args ++ inFilterCalls args
         ++ readFilterCalls args ++ hasFilterCalls args
         ++ labelFilterCalls args ++ dateFilterCalls now args)
    ++ flat_map bindings (termFilterCalls args)
    ++ flat_map bindings
         (matchFilterCalls args ++ idsCalls args
            ++ includePendingCalls args ++ includeDeletedCalls args
            ++ noFilterCalls args ++ recommendedByCalls args).
Proof.
  unfold buildWhereClauseCalls. by rewrite !flat_map_app, <- !app_assoc.
Qed.

Lemma term_parameter_final now args (m : gmap string Value) flt :
  SearchArgs.termFilters args = Some [flt] ->
  setParameters (flat_map bindings (buildWhereClauseCalls now args)) m
    !! ("term_" +:+ ff_field flt)
  = Some (VString (toLowerCase (ff_value flt))).
Proof.
  intros Ht. rewrite bindings_term_split.
  unfold termFilterCalls. rewrite Ht. simpl orEmpty. simpl map.
  simpl (flat_map bindings [_]).
  change (?pre ++ [?a] ++ ?post) with (pre ++ a :: post).
  apply setParameters_last. intros H. apply after_term_names in H.
  destruct H as [[f' H]|[H|[H|H]]]; unfold_append; discriminate.
Qed.

Lemma term_filter_added now args flt :
  SearchArgs.termFilters args = Some [flt] ->
  CLowerEq (ff_field flt) ("term_" +:+ ff_field flt)
  ∈ flat_map addedCond (buildWhereClauseCalls now args).
Proof.
  intros Ht. unfold buildWhereClauseCalls.
  rewrite !flat_map_app, !elem_of_app. do 7 right. left.
  unfold termFilterCalls. rewrite Ht. simpl. by left.
Qed.

Lemma bindings_type_split now args :
  flat_map bindings (buildWhereClauseCalls now args)
  = flat_map bindings (queryCalls args)
    ++ flat_map bindings (typeFilterCalls args)
    ++ flat_map bindings
         (inFilterCalls args ++ readFilterCalls args ++ hasFilterCalls args)
    ++ flat_map bindings (labelFilterCalls args)
    ++ flat_map bindings (laterCalls now args).
Proof.
  unfold buildWhereClauseCalls, laterCalls.
  by rewrite !flat_map_app, <- !app_assoc.
Qed.

Lemma scope_read_has_bind_nothing args :
  flat_map bindings
    (inFilterCalls args ++ readFilterCalls args ++ hasFilterCalls args) = [].
Proof.
  rewrite !flat_map_app.
  assert (flat_map bindings (inFilterCalls args) = []) as ->.
  { unfold inFilterCalls. by destruct (SearchArgs.inFilter args) as [[]|]. }
  assert (flat_map bindings (readFilterCalls args) = []) as ->.
  { unfold readFilterCalls. by destruct (SearchArgs.readFilter args) as [[]|]. }
  unfold hasFilterCalls.
  induction (orEmpty (SearchArgs.hasFilters args)) as [|[] l IH]; try done.
Qed.

Lemma typeFilter_parameter_final now args (m : gmap string Value) c t :
  SearchArgs.typeFilter args = Some (String c t) ->
  setParameters (flat_map bindings (buildWhereClauseCalls now args)) m
    !! "typeFilter"
  = Some (VString (toLowerCase (String c t))).
Proof.
  intros Ht. rewrite bindings_type_split, scope_read_has_bind_nothing.
  unfold typeFilterCalls. rewrite Ht. simpl (flat_map bindings [_]).
  simpl app at 3.
  change (?pre ++ [?a] ++ ?post) with (pre ++ a :: post).
  apply setParameters_last. rewrite fmap_app, elem_of_app.
  rewrite !fmap_fst_flat_map_bindings. intros [H|H].
  - apply labelFilterCalls_names in H as [[i H]|H];
      [unfold includeLabelParam in H; unfold_append|]; discriminate.
  - apply laterCalls_names in H. inversion H as [f Hf|f Hf|f Hf|f Hf| | | ];
      unfold_append; try discriminate.
    + apply append_endsWith in Hf. discriminate.
    + apply append_endsWith in Hf. discriminate.
Qed.

Lemma typeFilter_added now args c t :
  SearchArgs.typeFilter args = Some (String c t) ->
  CLowerEq "item_type" "typeFilter"
  ∈ flat_map addedCond (buildWhereClauseCalls now args).
Proof.
  intros Ht. unfold buildWhereClauseCalls.
  rewrite !flat_map_app, !elem_of_app. right. left.
  unfold typeFilterCalls. rewrite Ht. simpl. by left.
Qed.

Lemma evalCond_lowerEq ps dbNow r col p v :
  evalCond ps dbNow r (CLowerEq col p) = true ->
  ps !! p = Some (VString v) ->
  exists s, textColumn col r = Some s /\ toLowerCase s = v.
Proof.
  simpl. intros H Hp. rewrite Hp in H.
  destruct (textColumn col r) as [s|]; [|done].
  exists s. split; [done|]. by apply String.eqb_eq.
Qed.

(** X17.  With a single term filter, whatever the other filters: every
    row selected has a value in the filtered column that equals the
    value of the filter when both are case folded.  Likewise with a type
    filter every row selected has an item type equal to the filter up
    to case. *)
Theorem term_and_type_filters_fold_case now dbNow args userId r :
  matches (buildWhereClause now args createQueryBuilder) dbNow r = true
  \/ matches (searchQuery now args userId) dbNow r = true ->
  (forall flt, SearchArgs.termFilters args = Some [flt] ->
   exists s, textColumn (ff_field flt) r = Some s
             /\ toLowerCase s = toLowerCase (ff_value flt))
  /\ (forall c t, SearchArgs.typeFilter args = Some (String c t) ->
      toLowerCase (LibraryItem.itemType r) = toLowerCase (String c t)).
Proof.
  intros Hm. split.
  - intros flt Ht. destruct Hm as [H|H].
    + eapply matches_evalCond in H; [|by apply term_filter_added].
      eapply evalCond_lowerEq; [exact H|].
      unfold buildWhereClause. rewrite parameters_foldl_call.
      by apply term_parameter_final.
    + eapply searchQuery_evalCond in H; [|by apply term_filter_added].
      eapply evalCond_lowerEq; [exact H|].
      unfold searchQuery, buildWhereClause. rewrite parameters_foldl_call.
      by apply term_parameter_final.
  - intros c t Ht.
    assert (exists s, textColumn "item_type" r = Some s
                      /\ toLowerCase s = toLowerCase (String c t))
      as (s & Hs & <-).
    { destruct Hm as [H|H].
      + eapply matches_evalCond in H; [|by eapply typeFilter_added].
        eapply evalCond_lowerEq; [exact H|].
        unfold buildWhereClause. rewrite parameters_foldl_call.
        by apply typeFilter_parameter_final.
      + eapply searchQuery_evalCond in H; [|by eapply typeFilter_added].
        eapply evalCond_lowerEq; [exact H|].
        unfold searchQuery, buildWhereClause. rewrite parameters_foldl_call.
        by apply typeFilter_parameter_final. }
    by injection Hs as ->.
Qed.

Lemma term_and_type_filters_fold_case_witness :
  toLowerCase "ARTICLE" = toLowerCase "Article"
  /\ exists s, textColumn "title"
                 (mkItem "a1" "alice" "World News" Succeeded 1000) = Some s
               /\ toLowerCase s = toLowerCase "WORLD news".
Proof.
  destruct (term_and_type_filters_fold_case 0 0
              (with_typeFilter (Some "Article")
                 (with_termFilters
                    (Some [{| ff_field := "title"; ff_value := "WORLD news" |}])
                    SearchArgs.empty))
              "alice" (mkItem "a1" "alice" "World News" Succeeded 1000))
    as [Hterm Htype].
  { left. vm_compute. reflexivity. }
  split.
  - exact (Htype _ _ eq_refl).
  - exact (Hterm _ eq_refl).
Defined.

(** *** The id filter and the recommendation filter *)

Lemma bindings_ids_split now args :
  flat_map bindings (buildWhereClauseCalls now args)
  = flat_map bindings
      (queryCalls args ++ typeFilterCalls args ++ inFilterCalls args
         ++ readFilterCalls args ++ hasFilterCalls args
         ++ labelFilterCalls args ++ dateFilterCalls now args
         ++ termFilterCalls args ++ matchFilterCalls args)
    ++ flat_map bindings (idsCalls args)
    ++ flat_map bindings
         (includePendingCalls args ++ includeDeletedCalls args
            ++ noFilterCalls args ++ recommendedByCalls args).
Proof.
  unfold buildWhereClauseCalls. by rewrite !flat_map_app, <- !app_assoc.
Qed.

Lemma ids_parameter_final now args (m : gmap string Value) i l :
  SearchArgs.ids args = Some (i :: l) ->
  setParameters (flat_map bindings (buildWhereClauseCalls now args)) m !! "ids"
  = Some (VStrings (i :: l)).
Proof.
  intros Hi. rewrite bindings_ids_split.
  unfold idsCalls. rewrite Hi. simpl (flat_map bindings [_]).
  change (?pre ++ [?a] ++ ?post) with (pre ++ a :: post).
  apply setParameters_last. intros H. apply after_ids_names in H.
  destruct H; discriminate.
Qed.

Lemma ids_filter_added now args i l :
  SearchArgs.ids args = Some (i :: l) ->
  CIdIn "ids" ∈ flat_map addedCond (buildWhereClauseCalls now args).
Proof.
  intros Hi. unfold buildWhereClauseCalls.
  rewrite !flat_map_app, !elem_of_app. do 9 right. left.
  unfold idsCalls. rewrite Hi. simpl. by left.
Qed.

Lemma bindings_recommendedBy_split now args :
  flat_map bindings (buildWhereClauseCalls now args)
  = flat_map bindings
      (queryCalls args ++ typeFilterCalls args ++ inFilterCalls args
         ++ readFilterCalls args ++ hasFilterCalls args
         ++ labelFilterCalls args ++ dateFilterCalls now args
         ++ termFilterCalls args ++ matchFilterCalls args ++ idsCalls args
         ++ includePendingCalls args ++ includeDeletedCalls args
         ++ noFilterCalls args)
    ++ flat_map bindings (recommendedByCalls args).
Proof.
  unfold buildWhereClauseCalls. by rewrite !flat_map_app, <- !app_assoc.
Qed.

Lemma recommendedBy_added now args (c : Cond) :
  c ∈ flat_map addedCond (recommendedByCalls args) ->
  c ∈ flat_map addedCond (buildWhereClauseCalls now args).
Proof.
  intros H. unfold buildWhereClauseCalls.
  rewrite !flat_map_app, !elem_of_app. by do 13 right.
Qed.

(** X18.  With a non-empty id filter, whatever the other filters, every
    row selected has an id of the list. *)
Theorem ids_filter_selects_listed now dbNow args userId i l r :
  SearchArgs.ids args = Some (i :: l) ->
  matches (buildWhereClause now args createQueryBuilder) dbNow r = true
  \/ matches (searchQuery now args userId) dbNow r = true ->
  LibraryItem.id r ∈ i :: l.
Proof.
  intros Hi Hm.
  assert (exists ps, evalCond ps dbNow r (CIdIn "ids") = true
                     /\ ps !! "ids" = Some (VStrings (i :: l)))
    as (ps & H & Hps).
  { destruct Hm as [H|H].
    - eapply matches_evalCond in H; [|by eapply ids_filter_added].
      eexists. split; [exact H|].
      unfold buildWhereClause. rewrite parameters_foldl_call.
      by apply ids_parameter_final.
    - eapply searchQuery_evalCond in H; [|by eapply ids_filter_added].
      eexists. split; [exact H|].
      unfold searchQuery, buildWhereClause. rewrite parameters_foldl_call.
      by apply ids_parameter_final. }
  simpl in H. rewrite Hps in H. apply existsb_exists in H as (x & Hx & He).
  apply String.eqb_eq in He. subst x. by apply list_elem_of_In.
Qed.

Lemma ids_filter_selects_listed_witness :
  LibraryItem.id (mkItem "a1" "alice" "World News" Succeeded 1000)
  ∈ ["b7"; "a1"].
Proof.
  apply (ids_filter_selects_listed 0 0
           (with_ids (Some ["b7"; "a1"]) SearchArgs.empty) "alice" "b7" ["a1"]
           (mkItem "a1" "alice" "World News" Succeeded 1000) eq_refl).
  left. vm_compute. reflexivity.
Defined.

(** X19.  With the recommendation filter [*], whatever the other
    filters, every row selected has a recommender; with any other
    non-empty value, every row selected has a recommender whose name
    equals the value up to case. *)
Theorem recommendedBy_filter now dbNow args userId c v r :
  SearchArgs.recommendedBy args = Some (String c v) ->
  matches (buildWhereClause now args createQueryBuilder) dbNow r = true
  \/ matches (searchQuery now args userId) dbNow r = true ->
  if String.eqb (String c v) "*"
  then LibraryItem.recommenderNames r <> []
  else exists name, name ∈ LibraryItem.recommenderNames r
                    /\ toLowerCase name = toLowerCase (String c v).
Proof.
  intros Hr Hm.
  assert (forall cond, cond ∈ flat_map addedCond (recommendedByCalls args) ->
          exists ps,
            evalCond ps dbNow r cond = true
            /\ ps = setParameters (flat_map bindings (recommendedByCalls args))
                      ps) as Hc.
  { intros cond Hcond. apply (recommendedBy_added now) in Hcond.
    destruct Hm as [H|H].
    - eapply matches_evalCond in H; [|exact Hcond].
      eexists. split; [exact H|].
      unfold buildWhereClause. rewrite parameters_foldl_call.
      rewrite bindings_recommendedBy_split, !setParameters_app.
      unfold recommendedByCalls. rewrite Hr.
      destruct (String.eqb (String c v) "*"); simpl; [done|].
      unfold setParameters. simpl. by rewrite insert_insert_eq.
    - eapply searchQuery_evalCond in H; [|exact Hcond].
      eexists. split; [exact H|].
      unfold searchQuery, buildWhereClause. rewrite parameters_foldl_call.
      rewrite bindings_recommendedBy_split, !setParameters_app.
      unfold recommendedByCalls. rewrite Hr.
      destruct (String.eqb (String c v) "*"); simpl; [done|].
      unfold setParameters. simpl. by rewrite insert_insert_eq. }
  unfold recommendedByCalls in Hc. rewrite Hr in Hc.
  destruct (String.eqb (String c v) "*").
  - destruct (Hc CHasRecommenders) as (ps & H & _); [simpl; by left|].
    simpl in H. by destruct (LibraryItem.recommenderNames r).
  - destruct (Hc (CRecommendedBy "recommendedBy")) as (ps & H & Hps);
      [simpl; by left|].
    simpl in H. rewrite Hps in H. unfold setParameters in H. simpl in H.
    rewrite lookup_insert_eq in H.
    apply existsb_exists in H as (x & Hx & He).
    apply String.eqb_eq in He. apply in_map_iff in Hx as (name & Hn & Hin).
    exists name. split; [by apply list_elem_of_In|]. by rewrite Hn.
Qed.

Lemma recommendedBy_filter_witness :
  exists name,
    name ∈ LibraryItem.recommenderNames (recommendedItem "r1" ["BOB"])
    /\ toLowerCase name = toLowerCase "Bob".
Proof.
  apply (recommendedBy_filter 0 0
           (with_recommendedBy (Some "Bob") SearchArgs.empty) "alice"
           "B"%char "ob" (recommendedItem "r1" ["BOB"]) eq_refl).
  left. vm_compute. reflexivity.
Defined.

(** ** The free-text query orders the page *)

Lemma Sorted_skipn {A} (R : A -> A -> Prop) (l : list A) n :
  Sorted R l -> Sorted R (skipn n l).
Proof.
  revert l. induction n as [|n IH]; intros l Hs; [done|].
  destruct l as [|x l]; [done|]. simpl. apply IH. by inversion Hs.
Qed.

Lemma query_parameter_final now args (m : gmap string Value) c q :
  SearchArgs.query args = Some (String c q) ->
  setParameters (flat_map bindings (buildWhereClauseCalls now args)) m
    !! "query"
  = Some (VString (String c q)).
Proof.
  intros Hq. rewrite bindings_type_split, scope_read_has_bind_nothing.
  unfold queryCalls. rewrite Hq. simpl (flat_map bindings [_; _; _; _]).
  simpl app at 3.
  change ([?a] ++ ?post) with ([] ++ a :: post).
  apply setParameters_last. rewrite !fmap_app, !elem_of_app.
  rewrite !fmap_fst_flat_map_bindings. intros [H|[H|H]].
  - unfold typeFilterCalls in H.
    destruct (SearchArgs.typeFilter args) as [[|? ?]|];
      try (by apply elem_of_nil in H).
    apply list_elem_of_singleton in H. discriminate.
  - apply labelFilterCalls_names in H as [[i H]|H];
      [unfold includeLabelParam in H; unfold_append|]; discriminate.
  - apply laterCalls_names in H. inversion H as [f Hf|f Hf|f Hf|f Hf| | | ];
      unfold_append; try discriminate.
    + apply append_endsWith in Hf. discriminate.
    + apply append_endsWith in Hf. discriminate.
Qed.

Lemma query_added now args c q :
  SearchArgs.query args = Some (String c q) ->
  CTsQueryMatch "query" "search_tsv"
  ∈ flat_map addedCond (buildWhereClauseCalls now args).
Proof.
  intros Hq. unfold buildWhereClauseCalls.
  rewrite !flat_map_app, !elem_of_app. left.
  unfold queryCalls. rewrite Hq. simpl. by left.
Qed.

Lemma orderBys_pagedQuery_query now args userId c q :
  SearchArgs.query args = Some (String c q) ->
  orderBys (pagedQuery now args userId)
  = [ {| ob_key := KRank "query"; ob_order := DESCENDING;
         ob_nullsLast := false |};
      {| ob_key := KColumn (sortField args); ob_order := sortOrder args;
         ob_nullsLast := true |} ].
Proof.
  intros Hq. unfold pagedQuery. simpl. f_equal.
  unfold searchQuery, buildWhereClause, buildWhereClauseCalls.
  rewrite foldl_app, orderBys_foldl_andWhere
    by apply calls_after_query_andWhere.
  unfold queryCalls. by rewrite Hq.
Qed.

Lemma notAfter_rank ps q (ob : OrderByItem) (a b : LibraryItem.t) :
  ps !! "query" = Some (VString q) ->
  notAfter ps
    [ {| ob_key := KRank "query"; ob_order := DESCENDING;
         ob_nullsLast := false |}; ob ] a b ->
  rankedNotBelow q a b.
Proof.
  intros Hps. unfold notAfter, rankedNotBelow. simpl. unfold compareBy at 1.
  simpl. rewrite Hps.
  destruct (LibraryItem.tsRank b q ?= LibraryItem.tsRank a q)%Z eqn:E;
    intros H; try done.
  - apply Z.compare_eq_iff in E. rewrite E. apply Z.le_refl.
  - apply Z.compare_lt_iff in E. by apply Z.lt_le_incl.
Qed.

(** X20.  With a non-empty free-text query [searchLibraryItems] orders
    by rank first, descending, and by the sort field only among rows of
    equal rank: in the page no row has a lower rank than its successor,
    and every row of the page matches the query. *)
Theorem search_orders_by_rank now dbNow args userId (w : World) c q :
  SearchArgs.query args = Some (String c q) ->
  exists page count,
    searchLibraryItems now dbNow args userId w = (w, Ok (page, count))
    /\ orderBys (pagedQuery now args userId)
       = [ {| ob_key := KRank "query"; ob_order := DESCENDING;
              ob_nullsLast := false |};
           {| ob_key := KColumn (sortField args); ob_order := sortOrder args;
              ob_nullsLast := true |} ]
    /\ Sorted (rankedNotBelow (String c q)) page
    /\ Forall (fun r => LibraryItem.tsvMatch r "search_tsv" (String c q) = true)
         page.
Proof.
  intros Hq. eexists _, _. split; [apply searchLibraryItems_paged|].
  split; [by eapply orderBys_pagedQuery_query|].
  assert (parameters (pagedQuery now args userId) !! "query"
          = Some (VString (String c q))) as Hps.
  { unfold pagedQuery. simpl. unfold searchQuery, buildWhereClause.
    rewrite parameters_foldl_call. by apply query_parameter_final. }
  split.
  - apply Sorted_firstn, Sorted_skipn.
    eapply Sorted_weaken; [|apply sortRows_Sorted].
    intros a b. rewrite (orderBys_pagedQuery_query _ _ _ _ _ Hq).
    by apply notAfter_rank.
  - apply Forall_forall. intros r Hr.
    apply (subseteq_take (pageSize args)), (subseteq_drop (pageFrom args)),
      elem_of_sortRows in Hr.
    apply list_elem_of_In, filter_In in Hr as [_ Hm].
    eapply searchQuery_evalCond in Hm; [|by eapply query_added].
    simpl in Hm.
    assert (parameters (searchQuery now args userId) !! "query"
            = Some (VString (String c q))) as Hps' by exact Hps.
    by rewrite Hps' in Hm.
Qed.

Lemma search_orders_by_rank_witness :
  exists page count,
    searchLibraryItems 0 0 (with_query (Some "news") SearchArgs.empty) "alice"
      (worldOf [rankedItem "low" 1 3000; rankedItem "high" 5 1000])
    = (worldOf [rankedItem "low" 1 3000; rankedItem "high" 5 1000],
       Ok (page, count))
    /\ map LibraryItem.id page = ["high"; "low"].
Proof.
  destruct (search_orders_by_rank 0 0 (with_query (Some "news") SearchArgs.empty)
              "alice"
              (worldOf [rankedItem "low" 1 3000; rankedItem "high" 5 1000])
              "n"%char "ews" eq_refl)
    as (page & count & Hrun & _).
  exists page, count. split; [exact Hrun|].
  vm_compute in Hrun. injection Hrun as <- _. vm_compute. reflexivity.
Defined.

(** ** Point lookups and deletion *)

Lemma getOne_id id (d : Db) :
  getOne (PIdEq "id") [("id", VString id)] d
  = withLabels d <$> findRow id (library_item d).
Proof. unfold getOne, findRow. f_equal. Qed.

Lemma findLibraryItemById_run id userId (w : World) :
  findLibraryItemById id userId w
  = (w, Ok (withLabels (db w) <$> findRow id (library_item (db w)))).
Proof. rewrite <- getOne_id. by destruct w. Qed.

(** X21.  [findLibraryItemById] never rejects and never changes the
    world.  It resolves to [null] exactly when no row carries the id,
    which is where [updateLibraryItem] rejects with the not-found error.
    After an update that resolved with an entity, the lookup of the same
    id finds the row of that entity and sets its [labels] property, to
    the labels the join table attaches to the id; the entity the update
    hands back has no such property. *)
Theorem find_by_id_agrees_with_update
    now id (patch : Patch) userId userId' pubsub (w : World) e :
  let out := updateLibraryItem now id patch userId pubsub w in
  out.2 = Ok e ->
  (exists found,
     findLibraryItemById id userId' out.1 = (out.1, Ok (Some found))
     /\ Entity.row found = e
     /\ Entity.labels found = Some (attachedLabels (db w) id))
  /\ (forall id' (w' : World),
      (findLibraryItemById id' userId' w').1 = w'
      /\ ((findLibraryItemById id' userId' w').2 = Ok None
          <-> findRow id' (library_item (db w')) = None)
      /\ (findRow id' (library_item (db w')) = None ->
          (updateLibraryItem now id' patch userId pubsub w').2
          = Throw EntityNotFound)).
Proof.
  intros out Hok. split.
  - apply updateLibraryItem_Ok in Hok as Hfind. subst out.
    rewrite findLibraryItemById_run.
    rewrite (updateLibraryItem_run _ _ _ _ _ _ _ Hfind). simpl.
    rewrite Hfind. simpl. eexists. split; [done|]. split; [done|].
    simpl. by rewrite (findRow_Some_id _ _ _ Hfind).
  - intros id' w'. rewrite findLibraryItemById_run. simpl.
    split; [done|]. split.
    + destruct (findRow id' (library_item (db w'))); simpl; split; done.
    + intros Hnone. rewrite updateLibraryItem_not_found; [done|].
      by rewrite updateRows_no_row.
Qed.

Lemma find_by_id_agrees_with_update_witness :
  let out := updateLibraryItem 5000 "a1" {[ "state" := VState Archived ]}
               "alice" workingPubsub aliceWithA in
  exists found,
    findLibraryItemById "a1" "alice" out.1 = (out.1, Ok (Some found))
    /\ LibraryItem.state (Entity.row found) = Archived
    /\ Entity.labels found = Some [labelA].
Proof.
  intros out.
  assert (out.2 = Ok (applyPatch
                        (resetTimestamps 5000 {[ "state" := VState Archived ]})
                        (mkItem "a1" "alice" "World News" Succeeded 1000)))
    as Hok by (vm_compute; reflexivity).
  destruct (find_by_id_agrees_with_update 5000 "a1"
              {[ "state" := VState Archived ]} "alice" "alice" workingPubsub
              aliceWithA _ Hok) as ((found & Hrun & Hrow & Hlabels) & _).
  exists found. split; [exact Hrun|]. split.
  - rewrite Hrow. reflexivity.
  - rewrite Hlabels. reflexivity.
Defined.

Lemma repoDelete_run (selects : LibraryItem.t -> bool) uid (w : World) :
  authTrx (repoDelete selects) uid w
  = ({| db := withItems (db w)
                (List.filter (fun r => negb (selects r)) (library_item (db w)));
        outbox := outbox w |},
     Ok (length (List.filter selects (library_item (db w))))).
Proof. by destruct w. Qed.

Lemma findRow_filter_out id (table : list LibraryItem.t) :
  findRow id
    (List.filter (fun r => negb (String.eqb (LibraryItem.id r) id)) table)
  = None.
Proof.
  unfold findRow. induction table as [|r table IH]; simpl; [done|].
  destruct (String.eqb (LibraryItem.id r) id) eqn:E; simpl; [done|].
  by rewrite E.
Qed.

Lemma filter_keep_all {A} (f : A -> bool) (l : list A) :
  List.filter f l = [] ->
  List.filter (fun x => negb (f x)) l = l.
Proof.
  induction l as [|x l IH]; simpl; [done|].
  destruct (f x); simpl; [done|]. intros H. by rewrite IH.
Qed.

Lemma findRow_None_filter id (table : list LibraryItem.t) :
  findRow id table = None ->
  List.filter (fun r => String.eqb (LibraryItem.id r) id) table = [].
Proof.
  unfold findRow. induction table as [|r table IH]; simpl; [done|].
  destruct (String.eqb (LibraryItem.id r) id); [done|]. exact IH.
Qed.

(** X22.  [deleteLibraryItemById] always resolves, with the number of
    rows that carried the id, and publishes nothing.  Afterwards the
    lookup of that id finds nothing, and the table is the old one
    without the rows of that id, the others in their order.  Deleting an
    id no row carries changes nothing. *)
Theorem delete_by_id_then_find id userId userId' (w : World) :
  let out := deleteLibraryItemById id userId w in
  out.2 = Ok (length (List.filter
                        (fun r => String.eqb (LibraryItem.id r) id)
                        (library_item (db w))))
  /\ library_item (db out.1)
     = List.filter (fun r => negb (String.eqb (LibraryItem.id r) id))
         (library_item (db w))
  /\ outbox out.1 = outbox w
  /\ findLibraryItemById id userId' out.1 = (out.1, Ok None)
  /\ (findRow id (library_item (db w)) = None -> out = (w, Ok 0)).
Proof.
  intros out. subst out. unfold deleteLibraryItemById.
  rewrite repoDelete_run. simpl.
  split; [done|]. split; [done|]. split; [done|]. split.
  - rewrite findLibraryItemById_run. simpl. by rewrite findRow_filter_out.
  - intros Hnone. apply findRow_None_filter in Hnone.
    rewrite (filter_keep_all _ _ Hnone), Hnone. by destruct w as [[] ?].
Qed.

Lemma delete_by_id_then_find_witness :
  deleteLibraryItemById "zz" (Some "alice") twoUsers = (twoUsers, Ok 0).
Proof.
  destruct (delete_by_id_then_find "zz" (Some "alice") "alice" twoUsers)
    as (_ & _ & _ & _ & H).
  apply H. reflexivity.
Defined.

(** ** Creation *)

Lemma findRow_app_fresh id (table : list LibraryItem.t) (e : LibraryItem.t) :
  findRow id table = None -> LibraryItem.id e = id ->
  findRow id (table ++ [e]) = Some e.
Proof.
  unfold findRow. intros Hnone He.
  induction table as [|r table IH]; simpl in *.
  - by rewrite He, String.eqb_refl.
  - destruct (String.eqb (LibraryItem.id r) id); [done|]. by apply IH.
Qed.

Lemma filter_out_app_fresh id (table : list LibraryItem.t) (e : LibraryItem.t) :
  findRow id table = None -> LibraryItem.id e = id ->
  List.filter (fun r => negb (String.eqb (LibraryItem.id r) id)) (table ++ [e])
  = table.
Proof.
  intros Hnone He. rewrite List.filter_app. simpl.
  rewrite He, String.eqb_refl. simpl. rewrite app_nil_r.
  apply filter_keep_all. by apply findRow_None_filter.
Qed.

Lemma existingRow_id (entity : Patch) (items : list LibraryItem.t) old :
  existingRow entity items = Some old ->
  findRow (LibraryItem.id old) items = Some old
  /\ LibraryItem.id (applyPatch entity old) = LibraryItem.id old.
Proof.
  unfold existingRow. destruct (entity !! "id") as [[]|] eqn:E; try done.
  intros H. pose proof (findRow_Some_id _ _ _ H) as Hid. subst.
  split; [done|]. simpl. unfold patchString. by rewrite E.
Qed.

Lemma findRow_updateRows_same id (p : Patch) (items : list LibraryItem.t) old :
  findRow id items = Some old ->
  LibraryItem.id (applyPatch p old) = id ->
  findRow id (updateRows id p items) = Some (applyPatch p old).
Proof.
  intros Hfind Hid. unfold findRow, updateRows in *.
  induction items as [|r l IH]; [done|].
  cbn [map List.find] in *.
  destruct (String.eqb (LibraryItem.id r) id) eqn:E.
  - injection Hfind as ->. by rewrite Hid, String.eqb_refl.
  - rewrite E. by apply IH.
Qed.

(** X23.  What [createLibraryItem] writes depends on whether the entity
    stands for a row already.  When it carries the id of a row, that
    row is written over in place and the table keeps its length:
    nothing is appended.  When the call resolves with an entity whose
    id no row carried before, exactly that row has been appended and
    the earlier rows are as they were; the lookup of the id then finds
    this row, with its [labels] property set, and deleting the id gives
    back the table as it was before the creation. *)
Theorem create_find_delete_round_trip
    generated (libraryItem : Patch) userId pubsub (w : World) :
  let out := createLibraryItem generated libraryItem userId pubsub w in
  let entity := withWordCount libraryItem in
  (forall old,
     existingRow entity (library_item (db w)) = Some old ->
     library_item (db out.1)
     = updateRows (LibraryItem.id old) entity (library_item (db w))
     /\ length (library_item (db out.1)) = length (library_item (db w))
     /\ findRow (LibraryItem.id old) (library_item (db out.1))
        = Some (applyPatch entity old))
  /\ (forall e,
      out.2 = Ok e ->
      findRow (LibraryItem.id e) (library_item (db w)) = None ->
      library_item (db out.1) = library_item (db w) ++ [e]
      /\ (exists found,
            findLibraryItemById (LibraryItem.id e) userId out.1
            = (out.1, Ok (Some found))
            /\ Entity.row found = e
            /\ Entity.labels found
               = Some (attachedLabels (db w) (LibraryItem.id e)))
      /\ library_item
           (db (deleteLibraryItemById (LibraryItem.id e) (Some userId) out.1).1)
         = library_item (db w)).
Proof.
  intros out entity.
  pose proof (createLibraryItem_run generated libraryItem userId pubsub w)
    as Hrun.
  fold out in Hrun. simpl in Hrun. fold entity in Hrun. split.
  - intros old Hold. rewrite Hrun. simpl.
    rewrite (saveRow_existing _ _ _ _ Hold). simpl.
    split; [done|]. split; [apply updateRows_length|].
    destruct (existingRow_id _ _ _ Hold) as [Hfind Hid].
    by apply findRow_updateRows_same.
  - intros e Hok Hfresh. rewrite Hrun in Hok. simpl in Hok.
    destruct (existingRow entity (library_item (db w))) as [old|] eqn:Hold.
    + exfalso. rewrite (saveRow_existing _ _ _ _ Hold) in Hok. simpl in Hok.
      unfold afterNotification in Hok.
      destruct (rejects pubsub _); [done|]. injection Hok as <-.
      destruct (existingRow_id _ _ _ Hold) as [Hfind Hid].
      rewrite Hid in Hfresh. by rewrite Hfresh in Hfind.
    + rewrite (saveRow_fresh _ _ _ Hold) in Hok, Hrun. simpl in Hok, Hrun.
      unfold afterNotification in Hok.
      destruct (rejects pubsub _); [done|]. injection Hok as <-.
      rewrite Hrun. split; [done|]. split.
      * rewrite findLibraryItemById_run. simpl.
        rewrite findRow_app_fresh by done. simpl.
        eexists. split; [done|]. split; done.
      * unfold deleteLibraryItemById. rewrite repoDelete_run. simpl.
        by apply filter_out_app_fresh.
Qed.

Lemma create_find_delete_round_trip_witness :
  let generated := mkItem "c1" "alice" "" Processing 5000 in
  let out := createLibraryItem generated {[ "title" := VString "Fresh" ]}
               "alice" workingPubsub aliceOnly in
  library_item
    (db (deleteLibraryItemById "c1" (Some "alice") out.1).1)
  = library_item (db aliceOnly).
Proof.
  intros generated out.
  assert (out.2 = Ok (applyPatch
                        (withWordCount {[ "title" := VString "Fresh" ]})
                        generated)) as Hok by (vm_compute; reflexivity).
  destruct (create_find_delete_round_trip generated
              {[ "title" := VString "Fresh" ]} "alice" workingPubsub aliceOnly)
    as (_ & H).
  destruct (H _ Hok) as (_ & _ & H').
  { vm_compute. reflexivity. }
  exact H'.
Defined.



(** ** Deleting by user, by URL and by entity *)

Lemma selected_none_owned now args userId dbNow (table : list LibraryItem.t) :
  Forall (fun r => ownedBy userId r = false) table ->
  selected (searchQuery now args userId) dbNow table = [].
Proof.
  intros H. unfold selected. induction H as [|r table Hr _ IH]; simpl; [done|].
  rewrite matches_searchQuery. unfold ownedBy in Hr. by rewrite Hr.
Qed.

Lemma Forall_filter_negb {A} (f : A -> bool) (l : list A) :
  Forall (fun x => f x = false) (List.filter (fun x => negb (f x)) l).
Proof.
  apply Forall_forall. intros x Hx.
  apply list_elem_of_In, filter_In in Hx as [_ Hx].
  by destruct (f x).
Qed.

(** X25.  [deleteLibraryItemsByUserId] always resolves, with the number
    of rows the user owned, and publishes nothing; the rows of the other
    users stay, in their order.  Afterwards every search of that user,
    whatever the filters, returns the empty page and the count 0. *)
Theorem delete_by_user_empties_search userId (w : World) now dbNow args :
  let out := deleteLibraryItemsByUserId userId w in
  out.2 = Ok (length (List.filter (ownedBy userId) (library_item (db w))))
  /\ library_item (db out.1)
     = List.filter (fun r => negb (ownedBy userId r)) (library_item (db w))
  /\ outbox out.1 = outbox w
  /\ searchLibraryItems now dbNow args userId out.1 = (out.1, Ok ([], 0)).
Proof.
  intros out. subst out. unfold deleteLibraryItemsByUserId.
  rewrite repoDelete_run. simpl.
  split; [done|]. split; [done|]. split; [done|].
  rewrite searchLibraryItems_paged. simpl.
  rewrite selected_none_owned by apply Forall_filter_negb.
  unfold sortRows. simpl. by rewrite skipn_nil, firstn_nil.
Qed.

Lemma getOne_url url (d : Db) :
  getOne (POriginalUrlEq "url") [("url", VString url)] d
  = withLabels d
      <$> List.find (fun r => String.eqb (LibraryItem.originalUrl r) url)
            (library_item d).
Proof. unfold getOne. f_equal. Qed.

Lemma findLibraryItemByUrl_run url userId (w : World) :
  findLibraryItemByUrl url userId w
  = (w, Ok (withLabels (db w)
              <$> List.find
                    (fun r => String.eqb (LibraryItem.originalUrl r) url)
                    (library_item (db w)))).
Proof. rewrite <- getOne_url. by destruct w. Qed.

Lemma find_filter_out {A} (f : A -> bool) (l : list A) :
  List.find f (List.filter (fun x => negb (f x)) l) = None.
Proof.
  induction l as [|x l IH]; simpl; [done|].
  destruct (f x) eqn:E; simpl; [done|]. by rewrite E.
Qed.

(** X26.  [findLibraryItemByUrl] never rejects and never changes the
    world; when it finds an entity, its row is a row of the table with
    the URL asked for, and when it finds none, no row of the table has
    that URL.  [deleteLibraryItemByUrl] removes every
    row of that URL and no other, and the lookup of the URL finds
    nothing afterwards. *)
Theorem find_and_delete_by_url url userId (w : World) :
  let found := findLibraryItemByUrl url userId w in
  let out := deleteLibraryItemByUrl url (Some userId) w in
  found.1 = w
  /\ (forall r, found.2 = Ok (Some r) ->
      LibraryItem.originalUrl (Entity.row r) = url
      /\ Entity.row r ∈ library_item (db w))
  /\ (found.2 = Ok None ->
      Forall (fun r => LibraryItem.originalUrl r <> url) (library_item (db w)))
  /\ library_item (db out.1)
     = List.filter (fun r => negb (String.eqb (LibraryItem.originalUrl r) url))
         (library_item (db w))
  /\ findLibraryItemByUrl url userId out.1 = (out.1, Ok None).
Proof.
  intros found out. subst found out.
  rewrite findLibraryItemByUrl_run. unfold deleteLibraryItemByUrl.
  rewrite repoDelete_run. simpl. split; [done|]. split; [|split; [|split]].
  - intros r [= H]. apply fmap_Some in H as (r0 & H & ->).
    apply find_some in H as [Hin H]. simpl.
    split; [by apply String.eqb_eq|by apply list_elem_of_In].
  - intros [= H]. apply fmap_None in H.
    apply Forall_forall. intros r Hr Hu.
    apply list_elem_of_In in Hr. pose proof (find_none _ _ H r Hr) as Hne.
    simpl in Hne. apply String.eqb_neq in Hne. by apply Hne.
  - done.
  - rewrite findLibraryItemByUrl_run. simpl. by rewrite find_filter_out.
Qed.

Lemma find_and_delete_by_url_witness :
  let found :=
    withLabels (db twoUsers)
      (mkItem "a1" "alice" "World News" Succeeded 1000) in
  (findLibraryItemByUrl "https://example.com/a1" "alice" twoUsers).2
  = Ok (Some found)
  /\ LibraryItem.originalUrl (Entity.row found) = "https://example.com/a1".
Proof.
  intros found. split; [vm_compute; reflexivity|].
  destruct (find_and_delete_by_url "https://example.com/a1" "alice" twoUsers)
    as (_ & H & _).
  destruct (H found) as [Hu _].
  { vm_compute. reflexivity. }
  exact Hu.
Defined.

Lemma filter_const_true {A} (l : list A) :
  List.filter (fun _ => true) l = l.
Proof. induction l as [|x l IH]; simpl; [done|]. by rewrite IH. Qed.

(** X27.  [deleteLibraryItems] always resolves, with the entities it was
    given in their order, each with its primary key unset and its other
    properties as given; it removes exactly the rows whose id is the id
    of one of them and keeps the others in their order.  With no entity
    it changes nothing. *)
Theorem delete_entities items userId (w : World) :
  let out := deleteLibraryItems items userId w in
  out.2 = Ok (map unsetId items)
  /\ (forall removed, out.2 = Ok removed ->
      map detached_id removed = map (fun _ => None) items
      /\ map detached_from removed = items)
  /\ outbox out.1 = outbox w
  /\ (forall r, r ∈ library_item (db out.1) <->
                r ∈ library_item (db w)
                /\ LibraryItem.id r ∉ map LibraryItem.id items)
  /\ (items = [] -> out.1 = w).
Proof.
  intros out. subst out. unfold deleteLibraryItems.
  destruct w as [d o]. simpl. split; [done|]. split; [|split; [done|split]].
  - intros removed [= <-]. rewrite !map_map. simpl.
    split; [done|]. apply map_id.
  - intros r. rewrite list_elem_of_In, filter_In, <- list_elem_of_In.
    apply and_iff_compat_l. rewrite negb_true_iff.
    rewrite <- not_true_iff_false, existsb_exists. split.
    + intros Hno Hin. apply Hno.
      apply list_elem_of_In, in_map_iff in Hin as (item & Hid & Hin).
      exists item. split; [done|]. rewrite Hid. apply String.eqb_refl.
    + intros Hno (item & Hin & He). apply Hno.
      apply String.eqb_eq in He. rewrite He.
      apply list_elem_of_In, in_map. exact Hin.
  - intros ->. simpl. destruct d as [items' joins ls]. unfold withItems.
    simpl. by rewrite filter_const_true.
Qed.

Lemma delete_entities_witness :
  let a1 := mkItem "a1" "alice" "World News" Succeeded 1000 in
  let out := deleteLibraryItems [a1] (Some "alice") aliceOnly in
  out.2 = Ok [ {| detached_id := None; detached_from := a1 |} ]
  /\ (forall r, r ∉ library_item (db out.1))
  /\ (deleteLibraryItems [] (Some "alice") aliceOnly).1 = aliceOnly.
Proof.
  intros a1 out.
  destruct (delete_entities [a1] (Some "alice") aliceOnly)
    as (Hok & _ & _ & Hrows & _).
  destruct (delete_entities [] (Some "alice") aliceOnly)
    as (_ & _ & _ & _ & Hnone).
  split; [exact Hok|]. split; [|apply Hnone; reflexivity].
  intros r Hr. apply Hrows in Hr as [Hin Hid].
  apply list_elem_of_singleton in Hin. subst r. apply Hid. left.
Defined.

(** ** Counting by creation time and creating many *)

Lemma matches_countQuery now startDate endDate dbNow r :
  matches (countQuery now startDate endDate) dbNow r
  = (default 0 startDate <=? LibraryItem.createdAt r)%Z
    && (LibraryItem.createdAt r <=? default now endDate)%Z.
Proof.
  unfold matches, countQuery. simpl. unfold setParameters. simpl.
  rewrite lookup_insert_eq, lookup_insert_ne, lookup_insert_eq by done. done.
Qed.

Lemma selected_countQuery now startDate endDate dbNow
    (table : list LibraryItem.t) :
  selected (countQuery now startDate endDate) dbNow table
  = List.filter
      (fun r => (default 0 startDate <=? LibraryItem.createdAt r)%Z
                && (LibraryItem.createdAt r <=? default now endDate)%Z)
      table.
Proof.
  unfold selected. induction table as [|r l IH]; simpl; [done|].
  by rewrite matches_countQuery, IH.
Qed.

Lemma countByCreatedAt_run now dbNow userId startDate endDate (w : World) :
  countByCreatedAt now dbNow userId startDate endDate w
  = (w, Ok (length (selected (countQuery now startDate endDate) dbNow
                      (library_item (db w))))).
Proof. by destruct w. Qed.

Lemma length_selected_split (f g h : LibraryItem.t -> bool)
    (table : list LibraryItem.t) :
  (forall r, h r = f r || g r) -> (forall r, f r && g r = false) ->
  length (List.filter h table)
  = length (List.filter f table) + length (List.filter g table).
Proof.
  intros Hh Hd. induction table as [|r table IH]; simpl; [done|].
  rewrite Hh. specialize (Hd r).
  destruct (f r), (g r); simpl in *; try done; lia.
Qed.

(** X28.  [countByCreatedAt] always resolves, leaving the world as it
    is, with the number of rows created between the start and the end,
    both included; the start defaults to the epoch and the end to the
    current time of the application.  The count never exceeds the size
    of the table, is zero when the end lies before the start, and the
    counts of two adjacent ranges add up to the count of their union. *)
Theorem count_by_created_at now dbNow userId startDate endDate (w : World) :
  let count s e :=
    length (List.filter
              (fun r => (s <=? LibraryItem.createdAt r)%Z
                        && (LibraryItem.createdAt r <=? e)%Z)
              (library_item (db w))) in
  countByCreatedAt now dbNow userId startDate endDate w
  = (w, Ok (count (default 0%Z startDate) (default now endDate)))
  /\ count (default 0%Z startDate) (default now endDate)
     <= length (library_item (db w))
  /\ (forall s e, (e < s)%Z -> count s e = 0)
  /\ (forall a b c, (a <= b + 1)%Z -> (b <= c)%Z ->
      count a b + count (b + 1)%Z c = count a c).
Proof.
  intros count. rewrite countByCreatedAt_run. split; [|split; [|split]].
  - by rewrite selected_countQuery.
  - subst count. simpl.
    induction (library_item (db w)) as [|r l IH]; simpl; [done|].
    destruct (_ && _); simpl; lia.
  - intros s e Hlt. subst count. simpl.
    induction (library_item (db w)) as [|r l IH]; simpl; [done|].
    destruct ((s <=? LibraryItem.createdAt r)%Z
              && (LibraryItem.createdAt r <=? e)%Z) eqn:E; [|done].
    apply andb_true_iff in E as [H1%Z.leb_le H2%Z.leb_le]. lia.
  - intros a b c Hab Hbc. subst count. simpl. symmetry.
    apply length_selected_split; intros r.
    + destruct (a <=? _)%Z eqn:E1, (_ <=? c)%Z eqn:E2,
        (_ <=? b)%Z eqn:E3, (b + 1 <=? _)%Z eqn:E4; try done;
        rewrite ?Z.leb_le, ?Z.leb_gt in *; lia.
    + destruct (a <=? _)%Z eqn:E1, (_ <=? c)%Z eqn:E2,
        (_ <=? b)%Z eqn:E3, (b + 1 <=? _)%Z eqn:E4; try done;
        rewrite ?Z.leb_le, ?Z.leb_gt in *; lia.
Qed.

Lemma count_by_created_at_witness :
  countByCreatedAt 5000 0 "alice" None None twoUsers = (twoUsers, Ok 2)
  /\ length (List.filter
               (fun r => (3000 <=? LibraryItem.createdAt r)%Z
                         && (LibraryItem.createdAt r <=? 2000)%Z)
               (library_item (db twoUsers))) = 0.
Proof.
  destruct (count_by_created_at 5000 0 "alice" None None twoUsers)
    as (Hrun & _ & Hempty & _).
  split.
  - rewrite Hrun. vm_compute. reflexivity.
  - apply (Hempty 3000%Z 2000%Z). lia.
Defined.

Lemma createLibraryItems_run generated (libraryItems : list Patch) userId
    (w : World) :
  NoDup (insertedIds libraryItems (library_item (db w))) ->
  createLibraryItems generated libraryItems userId w
  = ({| db := withItems (db w)
                (saveRows generated libraryItems (library_item (db w))).1;
        outbox := outbox w |},
     Ok (saveRows generated libraryItems (library_item (db w))).2).
Proof.
  intros H. destruct w as [d o].
  unfold createLibraryItems, authTrx, repoSaveAll, bind, getDb. simpl in *.
  by destruct (decide (NoDup _)).
Qed.

Lemma createLibraryItems_rejected generated (libraryItems : list Patch) userId
    (w : World) :
  ~ NoDup (insertedIds libraryItems (library_item (db w))) ->
  createLibraryItems generated libraryItems userId w
  = (w, Throw (QueryFailed "duplicate key value violates unique constraint")).
Proof.
  intros H. destruct w as [d o].
  unfold createLibraryItems, authTrx, repoSaveAll, bind, getDb. simpl in *.
  by destruct (decide (NoDup _)).
Qed.

Lemma omap_imap_Some {A B} (g : nat -> A -> B) (l : list A) :
  omap (fun x => x) (imap (fun i e => Some (g i e)) l) = imap g l.
Proof.
  revert g. induction l as [|x l IH]; intros g; simpl; [done|].
  f_equal. apply (IH (g ∘ S)).
Qed.

(** Entities none of which stands for a row are all appended. *)
Lemma saveRows_fresh generated (entities : list Patch)
    (items : list LibraryItem.t) :
  Forall (fun entity => existingRow entity items = None) entities ->
  saveRows generated entities items
  = (items ++ imap (fun i entity => applyPatch entity (generated i)) entities,
     imap (fun i entity => applyPatch entity (generated i)) entities).
Proof.
  intros H. unfold saveRows. f_equal; [f_equal|].
  - generalize items at 2 3 as acc.
    induction H as [|e l He _ IH]; intros acc; simpl; [done|].
    rewrite He. apply IH.
  - rewrite <- (omap_imap_Some
                  (fun i entity => applyPatch entity (generated i)) entities).
    f_equal. apply imap_ext. intros i e Hi.
    unfold insertedRow. by rewrite (proj1 (Forall_lookup _ _) H i e Hi).
  - apply imap_ext. intros i e Hi.
    unfold savedRow. by rewrite (proj1 (Forall_lookup _ _) H i e Hi).
Qed.

(** X29.  [createLibraryItems] saves the entities in one transaction
    and publishes nothing.  When two of the entities to insert carry
    the same id, the store rejects the insertion and the world is as it
    was.  Otherwise the call resolves with one row per entity.  When
    none of the entities stands for a row of the table, their rows are
    appended in the order given and the earlier rows are untouched;
    unlike [createLibraryItem] no word count is derived: an entity
    without a word count gets the one the store fills in, whatever its
    readable content.  A single entity that carries the id of a row is
    written over that row, in place.  With no entity nothing changes. *)
Theorem create_many_stores_as_given generated (libraryItems : list Patch)
    userId (w : World) :
  let table := library_item (db w) in
  let out := createLibraryItems generated libraryItems userId w in
  (~ NoDup (insertedIds libraryItems table) ->
   out = (w, Throw (QueryFailed
                      "duplicate key value violates unique constraint")))
  /\ (NoDup (insertedIds libraryItems table) ->
      exists rows,
        out.2 = Ok rows
        /\ length rows = length libraryItems
        /\ entity_labels (db out.1) = entity_labels (db w)
        /\ outbox out.1 = outbox w
        /\ (Forall (fun entity => existingRow entity table = None)
                   libraryItems ->
            library_item (db out.1) = table ++ rows
            /\ (forall i (p : Patch), libraryItems !! i = Some p ->
                exists row, rows !! i = Some row
                            /\ row = applyPatch p (generated i)
                            /\ (p !! "wordCount" = None ->
                                LibraryItem.wordCount row
                                = LibraryItem.wordCount (generated i))))
        /\ (forall entity old,
            libraryItems = [entity] ->
            existingRow entity table = Some old ->
            library_item (db out.1)
            = updateRows (LibraryItem.id old) entity table
            /\ rows = [applyPatch entity old]))
  /\ (libraryItems = [] -> out = (w, Ok [])).
Proof.
  intros table out. subst out table. split; [|split].
  - apply createLibraryItems_rejected.
  - intros Hnd. rewrite (createLibraryItems_run _ _ _ _ Hnd).
    remember (saveRows generated libraryItems (library_item (db w)))
      as saved eqn:Hs.
    exists saved.2. cbn [fst snd db outbox withItems entity_labels library_item].
    split; [done|]. split; [subst saved; apply length_imap|].
    split; [done|]. split; [done|]. split.
    + intros Hfresh. rewrite (saveRows_fresh _ _ _ Hfresh) in Hs.
      subst saved. cbn [fst snd]. split; [done|].
      intros i p Hi. eexists. split; [by rewrite list_lookup_imap, Hi|].
      split; [done|]. intros Hw. simpl. unfold patchOptNum. by rewrite Hw.
    + intros entity old -> Hold. subst saved.
      unfold saveRows, savedRow, insertedRow.
      simpl. rewrite Hold. simpl. by rewrite app_nil_r.
  - intros ->. rewrite createLibraryItems_run by constructor.
    unfold saveRows. simpl. rewrite app_nil_r. by destruct w as [[] ?].
Qed.

Lemma create_many_stores_as_given_witness :
  let p : Patch := {[ "readableContent" := VString "one two three" ]} in
  let out := createLibraryItems (fun _ => mkItem "c1" "alice" "" Processing 0)
               [p] "alice" aliceOnly in
  exists row, library_item (db out.1) !! 1 = Some row
              /\ LibraryItem.wordCount row = None
              /\ outbox out.1 = [].
Proof.
  intros p out.
  assert (NoDup (insertedIds [p] (library_item (db aliceOnly)))) as Hnd
    by (vm_compute; constructor).
  assert (Forall (fun entity =>
                    existingRow entity (library_item (db aliceOnly)) = None)
                 [p]) as Hfresh
    by (constructor; [vm_compute; reflexivity|constructor]).
  destruct (create_many_stores_as_given
              (fun _ => mkItem "c1" "alice" "" Processing 0) [p] "alice"
              aliceOnly) as (_ & H & _).
  destruct (H Hnd) as (rows & _ & _ & _ & Hout & Happ & _).
  destruct (Happ Hfresh) as (Htable & Hrows).
  destruct (Hrows 0 p eq_refl) as (row & Hrow & _ & Hwc).
  exists row. split.
  - subst out. rewrite Htable. exact Hrow.
  - split; [|exact Hout]. rewrite Hwc; reflexivity.
Defined.

(** ** Has-filters and empty-array filters *)

Lemma has_filter_added now args hs h :
  SearchArgs.hasFilters args = Some hs -> h ∈ hs ->
  match h with HIGHLIGHTS => CHasHighlights | LABELS => CHasLabels end
  ∈ flat_map addedCond (buildWhereClauseCalls now args).
Proof.
  intros Hh Hin. unfold buildWhereClauseCalls.
  rewrite !flat_map_app, !elem_of_app. do 4 right. left.
  unfold hasFilterCalls. rewrite Hh. simpl.
  apply list_elem_of_In, in_flat_map.
  exists (match h with
          | HIGHLIGHTS => AndWhere CHasHighlights []
          | LABELS => AndWhere CHasLabels []
          end).
  split.
  - apply in_map_iff. exists h. split; [done|]. by apply list_elem_of_In.
  - destruct h; simpl; by left.
Qed.

Lemma no_filter_added now args nfs f :
  SearchArgs.noFilters args = Some nfs -> f ∈ nfs ->
  CEmptyArray (nf_field f) ∈ flat_map addedCond (buildWhereClauseCalls now args).
Proof.
  intros Hn Hin. unfold buildWhereClauseCalls.
  rewrite !flat_map_app, !elem_of_app. do 12 right. left.
  unfold noFilterCalls. rewrite Hn. simpl.
  apply list_elem_of_In, in_flat_map.
  exists (AndWhere (CEmptyArray (nf_field f)) []). split.
  - apply in_map_iff. exists f. split; [done|]. by apply list_elem_of_In.
  - simpl. by left.
Qed.

(** X30.  Whatever the other filters, every row selected has a
    highlight annotation when the has-filters contain HIGHLIGHTS and a
    label name when they contain LABELS, and for every empty-array
    filter the named column of the row is the empty array.  A filter
    specification that asks both for LABELS and for empty label names
    therefore selects no row. *)
Theorem has_and_no_filters now dbNow args userId r :
  matches (buildWhereClause now args createQueryBuilder) dbNow r = true
  \/ matches (searchQuery now args userId) dbNow r = true ->
  (forall hs, SearchArgs.hasFilters args = Some hs ->
   (HIGHLIGHTS ∈ hs -> LibraryItem.highlightAnnotations r <> [])
   /\ (LABELS ∈ hs -> LibraryItem.labelNames r <> []))
  /\ (forall nfs f, SearchArgs.noFilters args = Some nfs -> f ∈ nfs ->
      arrayColumn (nf_field f) r = Some [])
  /\ (forall hs nfs,
      SearchArgs.hasFilters args = Some hs -> LABELS ∈ hs ->
      SearchArgs.noFilters args = Some nfs ->
      {| nf_field := "label_names" |} ∈ nfs -> False).
Proof.
  intros Hm.
  assert (forall c, c ∈ flat_map addedCond (buildWhereClauseCalls now args) ->
          exists ps, evalCond ps dbNow r c = true) as Hc.
  { intros c Hin. destruct Hm as [H|H].
    - eexists. by eapply matches_evalCond.
    - eexists. by eapply searchQuery_evalCond. }
  assert (forall hs, SearchArgs.hasFilters args = Some hs ->
          (HIGHLIGHTS ∈ hs -> LibraryItem.highlightAnnotations r <> [])
          /\ (LABELS ∈ hs -> LibraryItem.labelNames r <> [])) as Hhas.
  { intros hs Hh. split; intros Hin.
    - destruct (Hc _ (has_filter_added now args hs HIGHLIGHTS Hh Hin))
        as [ps H].
      simpl in H. by destruct (LibraryItem.highlightAnnotations r).
    - destruct (Hc _ (has_filter_added now args hs LABELS Hh Hin)) as [ps H].
      simpl in H. by destruct (LibraryItem.labelNames r). }
  assert (forall nfs f, SearchArgs.noFilters args = Some nfs -> f ∈ nfs ->
          arrayColumn (nf_field f) r = Some []) as Hno.
  { intros nfs f Hn Hin.
    destruct (Hc _ (no_filter_added now args nfs f Hn Hin)) as [ps H].
    simpl in H. destruct (arrayColumn (nf_field f) r) as [[|]|]; done. }
  split; [done|]. split; [done|].
  intros hs nfs Hh Hl Hn Hin.
  destruct (Hhas hs Hh) as [_ Hlab]. specialize (Hlab Hl).
  specialize (Hno nfs _ Hn Hin). simpl in Hno. injection Hno as Hno.
  by apply Hlab.
Qed.

Lemma has_and_no_filters_witness :
  LibraryItem.labelNames (labelledItem "l1" ["A"] []) <> [].
Proof.
  destruct (has_and_no_filters 0 0
              (with_hasFilters (Some [LABELS]) SearchArgs.empty) "alice"
              (labelledItem "l1" ["A"] [])) as [H _].
  { left. vm_compute. reflexivity. }
  destruct (H [LABELS] eq_refl) as [_ Hl].
  apply Hl. apply list_elem_of_here.
Defined.

(** ** Scoping to the owning user *)












